(** * DietCode agent: log analyzer, fix generator and orchestrator

    A shallow embedding of [src/agent/analyzer.py], [src/agent/fix_genertor.py]
    and [src/agent/orchestrator.py], and the properties of the design
    document that concern them.

    Conventions of the embedding:
    - a Python [str] is a [string]; its characters are the code points below
      256 (the Latin-1 range), which is where [str.lower] and the regex class
      [\s] are defined below;
    - a Python [float] is a binary64 [float] of the kernel, so that the literals
      [0.9], [0.3], [0.85] and the test [<] are the ones Python evaluates;
    - the [details] dictionary is a [gmap string string];
    - calls to collaborators (the GitHub MCP wrapper, the chat-completion
      client, and the two component objects the agent holds) are the nodes of
      a program tree, run against an arbitrary environment that answers or
      raises; the sequence of calls made is recorded. The [print] statements
      are left out. *)

From Stdlib Require Import PrimFloat Ascii String.
From stdpp Require Import gmap strings list.

Set Warnings "-inexact-float,-register-all".
Local Open Scope string_scope.
Local Open Scope list_scope.

(** ** Python built-ins on strings and lists *)
Module Py.

Definition newline : ascii := "010"%char.
Definition dquote : ascii := "034"%char.

(** [str.lower] on one code point below 256: [A-Z] and the Latin-1 capitals
    [0xC0-0xDE] (without the multiplication sign [0xD7]) move up by 32. *)
Definition lower_char (c : ascii) : ascii :=
  let n := N_of_ascii c in
  if ((65 <=? n) && (n <=? 90))%N
     || ((192 <=? n) && (n <=? 222) && negb (n =? 215))%N
  then ascii_of_N (n + 32) else c.

Fixpoint lower (s : string) : string :=
  match s with
  | EmptyString => EmptyString
  | String c s' => String (lower_char c) (lower s')
  end.

(** [sub in s] for strings. *)
Fixpoint contains (sub s : string) : bool :=
  String.prefix sub s ||
  match s with
  | EmptyString => false
  | String _ s' => contains sub s'
  end.

(** [s.split('\n')]: never empty, [''] for the empty string. *)
Fixpoint split_lines (s : string) : list string :=
  match s with
  | EmptyString => [EmptyString]
  | String c s' =>
      if Ascii.eqb c newline then EmptyString :: split_lines s'
      else match split_lines s' with
           | l :: ls => String c l :: ls
           | [] => [String c EmptyString]
           end
  end.

(** ["\n".join(ls)]. *)
Fixpoint join_lines (ls : list string) : string :=
  match ls with
  | [] => EmptyString
  | [l] => l
  | l :: ls' => l +:+ String newline (join_lines ls')
  end.

(** [l[start:stop]] for [0 <= start] and [0 <= stop]. *)
Definition slice {A} (l : list A) (start stop : Z) : list A :=
  take (Z.to_nat (stop - start)) (drop (Z.to_nat start) l).

(** [s.lstrip(chars)]: drops the leading characters that occur in [chars]. *)
Fixpoint lstrip (chars : list ascii) (s : string) : string :=
  match s with
  | EmptyString => EmptyString
  | String c s' => if bool_decide (c ∈ chars) then lstrip chars s' else s
  end.

(** The exceptions that occur. [MalformedResponseError] is the error the
    design document names; the program defines no such class. [Failure]
    stands for whatever a collaborator raises. *)
Inductive exn : Type :=
  | IndexError
  | KeyError (key : string)
  | TypeError
  | JSONDecodeError
  | MalformedResponseError
  | Failure (msg : string).

(** The values [json.loads] builds, and the dictionaries the fix generator
    returns; a [dict] keeps its items in insertion order. *)
Inductive value : Type :=
  | PNone
  | PBool (b : bool)
  | PInt (n : Z)
  | PFloat (x : float)
  | PStr (s : string)
  | PList (items : list value)
  | PDict (items : list (string * value)).

Fixpoint assoc (key : string) (items : list (string * value))
    : option value :=
  match items with
  | [] => None
  | (k, v) :: items' => if String.eqb k key then Some v else assoc key items'
  end.

(** [v[key]] *)
Definition getitem (v : value) (key : string) : exn + value :=
  match v with
  | PDict items =>
      match assoc key items with
      | Some x => inr x
      | None => inl (KeyError key)
      end
  | _ => inl TypeError
  end.

(** [s[:n]]. *)
Fixpoint prefix_of_length (n : nat) (s : string) : string :=
  match n, s with
  | S n', String c s' => String c (prefix_of_length n' s')
  | _, _ => EmptyString
  end.

End Py.

(** ** The fragment of [re] the program uses

    Literal characters, one-or-more of a character class (greedy, with
    backtracking), concatenation and capturing groups. Groups are numbered
    as they close, which is Python's numbering as long as they do not nest
    (no pattern of the program nests them). The flag [re.MULTILINE] only
    changes [^] and [$], which no pattern contains. *)
Module Re.

Inductive charclass : Type :=
  | AnyButNewline                (* .      *)
  | NotChar (c : ascii)          (* [^c]   *)
  | NotSpace.                    (* [^\s]  *)

(** Unicode white space below code point 256. *)
Definition is_space (c : ascii) : bool :=
  let n := N_of_ascii c in
  (((9 <=? n) && (n <=? 13)) || ((28 <=? n) && (n <=? 32))
   || (n =? 133) || (n =? 160))%N.

Definition in_class (cl : charclass) (c : ascii) : bool :=
  match cl with
  | AnyButNewline => negb (Ascii.eqb c Py.newline)
  | NotChar x => negb (Ascii.eqb c x)
  | NotSpace => negb (is_space c)
  end.

Inductive regex : Type :=
  | Lit (s : string)             (* the characters of s, in order *)
  | Plus (cl : charclass)        (* cl+  *)
  | Group (r : regex)            (* (r)  *)
  | Cat (r1 r2 : regex).

Record Match : Type := mkMatch {
  group0 : string;               (* match.group(0) *)
  groups : list string           (* match.groups() *)
}.

Section Matcher.
Context {A : Type}.

(** Matching a literal at the head of [s]. *)
Fixpoint lit (l s : string) (k : string -> option A) : option A :=
  match l with
  | EmptyString => k s
  | String c l' =>
      match s with
      | String d s' => if Ascii.eqb c d then lit l' s' k else None
      | EmptyString => None
      end
  end.

(** Zero or more characters of the class, longest first. *)
Fixpoint star (cl : charclass) (s : string) (k : string -> option A)
  : option A :=
  match s with
  | String c s' =>
      if in_class cl c then
        match star cl s' k with
        | Some r => Some r
        | None => k s
        end
      else k s
  | EmptyString => k s
  end.

Definition plus (cl : charclass) (s : string) (k : string -> option A)
  : option A :=
  match s with
  | String c s' => if in_class cl c then star cl s' k else None
  | EmptyString => None
  end.

(** [match_here r s gs k]: match [r] at the head of [s]; [gs] are the
    groups closed so far; [k] continues with the rest of the text. *)
Fixpoint match_here (r : regex) (s : string) (gs : list string)
    (k : string -> list string -> option A) : option A :=
  match r with
  | Lit l => lit l s (fun rest => k rest gs)
  | Plus cl => plus cl s (fun rest => k rest gs)
  | Group r1 =>
      match_here r1 s gs (fun rest gs' =>
        k rest (gs' ++ [Py.prefix_of_length
                          (String.length s - String.length rest) s]))
  | Cat r1 r2 =>
      match_here r1 s gs (fun rest gs' => match_here r2 rest gs' k)
  end.
End Matcher.

(** A match of [r] at the head of [s], with the text that follows it. *)
Definition match_at (r : regex) (s : string) : option (Match * string) :=
  match_here r s [] (fun rest gs =>
    Some (mkMatch (Py.prefix_of_length
                     (String.length s - String.length rest) s) gs, rest)).

(** The match at the leftmost position that has one. *)
Fixpoint search_from (r : regex) (s : string) : option (Match * string) :=
  match match_at r s with
  | Some m => Some m
  | None =>
      match s with
      | String _ s' => search_from r s'
      | EmptyString => None
      end
  end.

(** [re.search(r, s)] *)
Definition search (r : regex) (s : string) : option Match :=
  fst <$> search_from r s.

(** [re.findall(r, s)] for a pattern with at most one group and no empty
    match: the group (or the whole match) of each match, left to right, the
    scan resuming where the previous match ended. *)
Fixpoint findall_fuel (fuel : nat) (r : regex) (s : string) : list string :=
  match fuel with
  | O => []
  | S fuel' =>
      match search_from r s with
      | None => []
      | Some (m, rest) =>
          default (group0 m) (head (groups m)) :: findall_fuel fuel' r rest
      end
  end.

Definition findall (r : regex) (s : string) : list string :=
  findall_fuel (S (String.length s)) r s.

(** [m.group(1)]; [None] stands for the [IndexError] of a pattern without
    group. *)
Definition group1 (m : Match) : option string := head (groups m).

(** The least number of characters a match of [r] takes, and the number of
    groups of [r]. *)
Fixpoint min_len (r : regex) : nat :=
  match r with
  | Lit l => String.length l
  | Plus _ => 1
  | Group r1 => min_len r1
  | Cat r1 r2 => min_len r1 + min_len r2
  end.

Fixpoint ngroups (r : regex) : nat :=
  match r with
  | Lit _ | Plus _ => 0
  | Group r1 => S (ngroups r1)
  | Cat r1 r2 => ngroups r1 + ngroups r2
  end.

End Re.

(** ** [src/agent/analyzer.py] *)
Module Analyzer.

Inductive FailureType : Type :=
  | MODULE_NOT_FOUND
  | IMPORT_ERROR
  | MISSING_DEPENDENCY
  | BROKEN_PATH
  | SYNTAX_ERROR
  | UNKNOWN.

#[export] Instance FailureType_eq_dec : EqDecision FailureType.
Proof. solve_decision. Defined.

Definition value (t : FailureType) : string :=
  match t with
  | MODULE_NOT_FOUND => "module_not_found"
  | IMPORT_ERROR => "import_error"
  | MISSING_DEPENDENCY => "missing_dependency"
  | BROKEN_PATH => "broken_path"
  | SYNTAX_ERROR => "syntax_error"
  | UNKNOWN => "unknown"
  end.

Import Re.

Definition quote : ascii := "'"%char.

(** [a +++ b +++ c] is the concatenation of the pieces of one pattern. *)
Local Notation "a +++ b" := (Cat a b) (at level 60, right associativity).

(** The class attribute [PATTERNS], a dictionary in insertion order. *)
Definition PATTERNS : list (FailureType * list regex) :=
  [ (MODULE_NOT_FOUND,
      [ Lit "ModuleNotFoundError: No module named '" +++
          Group (Plus (NotChar quote)) +++ Lit "'";
        Lit "ImportError: No module named " +++ Group (Plus NotSpace);
        Lit "cannot import name '" +++ Group (Plus (NotChar quote)) +++ Lit "'" ]);
    (IMPORT_ERROR,
      [ Lit "ImportError: " +++ Group (Plus AnyButNewline);
        Lit "from " +++ Group (Plus NotSpace) +++ Lit " import " +++
          Plus AnyButNewline +++ Lit " failed" ]);
    (MISSING_DEPENDENCY,
      [ Lit "error: externally-managed-environment";
        Lit "Could not find a version that satisfies the requirement " +++
          Group (Plus NotSpace);
        Lit "No matching distribution found for " +++ Group (Plus NotSpace) ]);
    (BROKEN_PATH,
      [ Lit "FileNotFoundError: [Errno 2] No such file or directory: '" +++
          Group (Plus (NotChar quote)) +++ Lit "'";
        Lit "IOError: [Errno 2] No such file or directory: '" +++
          Group (Plus (NotChar quote)) +++ Lit "'" ]);
    (SYNTAX_ERROR,
      [ Lit "SyntaxError: " +++ Group (Plus AnyButNewline);
        Lit "IndentationError: " +++ Group (Plus AnyButNewline) ]) ].

(** The dictionary [analyze] returns. *)
Record Diagnosis : Type := mkDiagnosis {
  failure_type : FailureType;
  error_message : string;
  details : gmap string string;
  confidence : float;
  log_snippet : string
}.

Definition keywords : list string :=
  ["error"; "failed"; "exception"; "traceback"; "modulenotfounderror"].

(** [any(keyword in line.lower() for keyword in keywords)] *)
Definition has_keyword (line : string) : bool :=
  existsb (fun keyword => Py.contains keyword (Py.lower line)) keywords.

(** The loop [for i, line in enumerate(lines)] of [_extract_error_lines]:
    [todo] are the lines from index [i] on, [error_lines] the accumulator. *)
Fixpoint extract_loop (lines : list string) (i : Z) (todo : list string)
    (error_lines : list string) : list string :=
  match todo with
  | [] => error_lines
  | line :: todo' =>
      let error_lines' :=
        if has_keyword line then
          let start := Z.max 0 (i - 2) in
          let stop := Z.min (Z.of_nat (length lines)) (i + 6) in
          error_lines ++ Py.slice lines start stop
        else error_lines in
      extract_loop lines (i + 1) todo' error_lines'
  end.

Definition _extract_error_lines (log_content : string) : list string :=
  let lines := Py.split_lines log_content in
  extract_loop lines 0 lines [].

(** The body of [if match:], which fills the result and returns it. *)
Definition on_match (failure_type : FailureType) (m : Match)
    (result : Diagnosis) : Py.exn + Diagnosis :=
  let filled (details : gmap string string) :=
    inr (mkDiagnosis failure_type (group0 m) details 0.9%float
           (log_snippet result)) in
  match failure_type with
  | MODULE_NOT_FOUND =>
      match group1 m with
      | Some g => filled (<["missing_module" := g]> (details result))
      | None => inl Py.IndexError
      end
  | BROKEN_PATH =>
      match group1 m with
      | Some g => filled (<["missing_path" := g]> (details result))
      | None => inl Py.IndexError
      end
  | MISSING_DEPENDENCY =>
      match groups m with
      | g :: _ => filled (<["package_name" := g]> (details result))
      | [] => filled (details result)
      end
  | _ => filled (details result)
  end.

(** [for pattern in patterns]; [None] when the loop ends without return. *)
Fixpoint scan_patterns (failure_type : FailureType) (patterns : list regex)
    (log_content : string) (result : Diagnosis)
    : option (Py.exn + Diagnosis) :=
  match patterns with
  | [] => None
  | pattern :: patterns' =>
      match search pattern log_content with
      | Some m => Some (on_match failure_type m result)
      | None => scan_patterns failure_type patterns' log_content result
      end
  end.

(** [for failure_type, patterns in self.PATTERNS.items()] *)
Fixpoint scan_table (table : list (FailureType * list regex))
    (log_content : string) (result : Diagnosis)
    : option (Py.exn + Diagnosis) :=
  match table with
  | [] => None
  | (failure_type, patterns) :: table' =>
      match scan_patterns failure_type patterns log_content result with
      | Some r => Some r
      | None => scan_table table' log_content result
      end
  end.

Definition analyze (log_content : string) : Py.exn + Diagnosis :=
  let result := mkDiagnosis UNKNOWN EmptyString ∅ 0.0%float EmptyString in
  let error_lines := _extract_error_lines log_content in
  match error_lines with
  | [] => inr result
  | _ :: _ =>
      let result :=
        mkDiagnosis (failure_type result) (error_message result)
          (details result) (confidence result)
          (Py.join_lines (take 10 error_lines)) in
      match scan_table PATTERNS log_content result with
      | Some r => r
      | None =>
          inr (mkDiagnosis (failure_type result) (error_message result)
                 (details result) 0.3%float (log_snippet result))
      end
  end.

End Analyzer.


(** ** Calls to collaborators

    Every method the agent calls on an object it holds is a [call]: the six
    tools of [self.github] ([GitHubMCP] of [src/mcp/client.py]),
    [self.analyzer.analyze] and [self.fix_generator.generate_fix] as the
    orchestrator sees its two components, and
    [self.client.chat.completions.create] of the fix generator. A program is a
    tree of calls; an environment answers each call or raises. *)
Module Run.

Import Analyzer.

(** The JSON object of a pull request: [pr_info.get('title')] and
    [pr_info['head']['ref']]. *)
Record Head : Type := mkHead { ref : option string }.
Record PRInfo : Type := mkPRInfo {
  title : option string;
  head : option Head
}.

(** One check run: the keys ['id'], ['name'] and ['conclusion']. *)
Record CheckRun : Type := mkCheckRun {
  id : option Z;
  name : option string;
  conclusion : option string
}.

(** The f-string prompts of the fix generator, as the template and the values
    interpolated in it. *)
Inductive prompt : Type :=
  | missing_import_prompt (missing_module file_path file_content : string)
  | broken_path_prompt (missing_path file_content : string)
  | generic_prompt (failure_type_value : string)
      (error_details : gmap string string) (file_content : string).

Inductive content : Type :=
  | Text (s : string)
  | Prompt (p : prompt).

Inductive call : Type :=
  | github_get_pr_info (owner repo : string) (pr_number : Z)
  | github_get_pr_checks (owner repo : string) (pr_number : Z)
  | github_get_check_logs (owner repo : string) (check_run_id : Z)
  | github_get_pr_diff (owner repo : string) (pr_number : Z)
  | github_post_comment (owner repo : string) (pr_number : Z) (body : string)
  | github_get_file_content (owner repo path ref : string)
  | analyzer_analyze (logs : string)
  | fix_generator_generate_fix (failure_type : FailureType)
      (error_details : gmap string string) (file_content file_path : string)
  | client_chat_completions_create (model : string)
      (messages : list (string * content)) (temperature : float).

(** What a call returns; for the completion it is
    [response.choices[0].message.content]. *)
Definition response (c : call) : Type :=
  match c with
  | github_get_pr_info _ _ _ => PRInfo
  | github_get_pr_checks _ _ _ => list CheckRun
  | github_get_check_logs _ _ _ => string
  | github_get_pr_diff _ _ _ => string
  | github_post_comment _ _ _ _ => unit
  | github_get_file_content _ _ _ _ => string
  | analyzer_analyze _ => Diagnosis
  | fix_generator_generate_fix _ _ _ _ => Py.value
  | client_chat_completions_create _ _ _ => string
  end.

Inductive prog (R : Type) : Type :=
  | ret (r : R)
  | raise (e : Py.exn)
  | perform (c : call) (k : response c -> prog R).
Arguments ret {R} r.
Arguments raise {R} e.
Arguments perform {R} c k.

Fixpoint bind {A B : Type} (f : A -> prog B) (p : prog A) : prog B :=
  match p with
  | ret a => f a
  | raise e => raise e
  | perform c k => perform c (fun x => bind f (k x))
  end.

#[export] Instance prog_ret : MRet prog := @ret.
#[export] Instance prog_bind : MBind prog := @bind.

(** [await c] *)
Definition await (c : call) : prog (response c) := perform c ret.

(** A pure step that may raise. *)
Definition try {A : Type} (r : Py.exn + A) : prog A :=
  match r with
  | inl e => raise e
  | inr a => ret a
  end.

Definition env : Type := forall c : call, Py.exn + response c.

(** Running a program: the calls made, in order, and how it ended. *)
Fixpoint run {R : Type} (w : env) (p : prog R) : list call * (Py.exn + R) :=
  match p with
  | ret r => ([], inr r)
  | raise e => ([], inl e)
  | perform c k =>
      match w c with
      | inl e => ([c], inl e)
      | inr x => let (calls, outcome) := run w (k x) in (c :: calls, outcome)
      end
  end.

Definition is_completion_call (c : call) : bool :=
  match c with
  | client_chat_completions_create _ _ _ => true
  | _ => false
  end.

End Run.

(** ** [src/agent/fix_genertor.py] *)
Module FixGenerator.

Import Analyzer Run.

Section FixGenerator.

(** [json.loads]; [None] is its [JSONDecodeError]. *)
Variable json_loads : string -> option Py.value.
(** [self.model] *)
Variable model : string.

Definition loads (text : string) : prog Py.value :=
  match json_loads text with
  | Some v => ret v
  | None => raise Py.JSONDecodeError
  end.

Definition _fix_missing_import (error_details : gmap string string)
    (file_content file_path : string) : prog Py.value :=
  let missing_module := default EmptyString (error_details !! "missing_module") in
  let prompt := missing_import_prompt missing_module file_path file_content in
  response ← await (client_chat_completions_create model
      [ ("system", Text
           "You are a code repair assistant. Respond only with valid JSON.");
        ("user", Prompt prompt) ]
      0.3%float);
  loads response.

Definition _fix_missing_dependency (error_details : gmap string string)
    : prog Py.value :=
  let package_name := default EmptyString (error_details !! "package_name") in
  ret (Py.PDict
    [ ("fix_type", Py.PStr "add_dependency");
      ("changes", Py.PList [ Py.PDict
          [ ("file", Py.PStr "requirements.txt");
            ("action", Py.PStr "insert");
            ("line_number", Py.PInt (-1));
            ("old_content", Py.PStr EmptyString);
            ("new_content",
               Py.PStr (package_name +:+ String Py.newline EmptyString)) ] ]);
      ("explanation",
         Py.PStr ("Add missing dependency '" +:+ package_name +:+
                  "' to requirements.txt"));
      ("confidence", Py.PFloat 0.85%float) ]).

Definition _fix_broken_path (error_details : gmap string string)
    (file_content : string) : prog Py.value :=
  let missing_path := default EmptyString (error_details !! "missing_path") in
  let prompt := broken_path_prompt missing_path file_content in
  response ← await (client_chat_completions_create model
      [ ("user", Prompt prompt) ] 0.3%float);
  loads response.

Definition _generic_fix (failure_type : FailureType)
    (error_details : gmap string string) (file_content : string)
    : prog Py.value :=
  let prompt :=
    generic_prompt (value failure_type) error_details file_content in
  response ← await (client_chat_completions_create model
      [ ("user", Prompt prompt) ] 0.3%float);
  loads response.

Definition generate_fix (failure_type : FailureType)
    (error_details : gmap string string) (file_content file_path : string)
    : prog Py.value :=
  match failure_type with
  | MODULE_NOT_FOUND =>
      _fix_missing_import error_details file_content file_path
  | MISSING_DEPENDENCY => _fix_missing_dependency error_details
  | BROKEN_PATH => _fix_broken_path error_details file_content
  | _ => _generic_fix failure_type error_details file_content
  end.

End FixGenerator.

End FixGenerator.

(** ** [src/agent/orchestrator.py] *)
Module Orchestrator.

Import Re Analyzer Run.

(** The dictionary [process_pr_failure] returns, by its ["status"]. *)
Inductive PipelineResult : Type :=
  | no_failures (message : string)
  | low_confidence (diagnosis : Diagnosis) (message : string)
  | file_not_found (diagnosis : Diagnosis) (message : string)
  | success (diagnosis : Diagnosis) (fix_proposal : Py.value) (affected_file : string).

(** The configuration [__init__] reads. *)
Record DietCodeAgent : Type := mkAgent {
  max_attempts : Z;
  confidence_threshold : float
}.

(** [__init__], given the two environment variables when they are set
    (already converted by [int] and [float]). *)
Definition __init__ (MAX_DIAGNOSIS_ATTEMPTS : option Z)
    (PATCH_CONFIDENCE_THRESHOLD : option float) : DietCodeAgent :=
  mkAgent (default 3%Z MAX_DIAGNOSIS_ATTEMPTS)
          (default 0.7%float PATCH_CONFIDENCE_THRESHOLD).

Local Notation "a +++ b" := (Cat a b) (at level 60, right associativity).

(** [r'\+\+\+ b/(.+\.py)'] *)
Definition diff_pattern : regex :=
  Lit "+++ b/" +++ Group (Plus AnyButNewline +++ Lit ".py").

(** The pattern [File Q([^Q]+\.py)Q], where Q is the double quote. *)
Definition file_pattern : regex :=
  Lit ("File " +:+ String Py.dquote EmptyString) +++
  Group (Plus (NotChar Py.dquote) +++ Lit ".py") +++
  Lit (String Py.dquote EmptyString).

(** [d[key]] for a key that is present or not. *)
Definition key {A : Type} (k : string) (field : option A) : Py.exn + A :=
  match field with
  | Some x => inr x
  | None => inl (Py.KeyError k)
  end.

Section Orchestrator.

(** [f"{x:.0%}"], the rendering of a number as a percentage. *)
Variable format_percent : Py.value -> Py.exn + string.
(** The Markdown text of the comment; it reads the keys of the fix. *)
Variable _format_fix_comment :
  Diagnosis -> Py.value -> string -> Py.exn + string.
Variable self : DietCodeAgent.

(** The second half of [_locate_affected_file]: the stack trace. *)
Definition locate_in_stack_trace (diagnosis : Diagnosis)
    : prog (option string) :=
  let stack_trace := log_snippet diagnosis in
  match search file_pattern stack_trace with
  | Some file_match =>
      path ← try (from_option inr (inl Py.IndexError) (group1 file_match));
      ret (Some (Py.lstrip ["."%char; "/"%char] path))
  | None => ret None
  end.

Definition _locate_affected_file (owner repo : string) (pr_number : Z)
    (diagnosis : Diagnosis) : prog (option string) :=
  if bool_decide (is_Some (details diagnosis !! "missing_module")) then
    diff ← await (github_get_pr_diff owner repo pr_number);
    let files := findall diff_pattern diff in
    match files with
    | file :: _ => ret (Some file)
    | [] => locate_in_stack_trace diagnosis
    end
  else locate_in_stack_trace diagnosis.

Definition process_pr_failure (owner repo : string) (pr_number : Z)
    : prog PipelineResult :=
  pr_info ← await (github_get_pr_info owner repo pr_number);
  check_runs ← await (github_get_pr_checks owner repo pr_number);
  let failed_checks :=
    filter (fun c => conclusion c = Some "failure") check_runs in
  match failed_checks with
  | [] => ret (no_failures "No failed CI checks found")
  | check :: _ =>
      check_id ← try (key "id" (id check));
      check_name ← try (key "name" (name check));
      logs ← await (github_get_check_logs owner repo check_id);
      diagnosis ← await (analyzer_analyze logs);
      if PrimFloat.ltb (confidence diagnosis) (confidence_threshold self) then
        ret (low_confidence diagnosis
               "Unable to confidently diagnose the failure")
      else
        affected_file ← _locate_affected_file owner repo pr_number diagnosis;
        match affected_file with
        | None | Some EmptyString =>
            ret (file_not_found diagnosis
                   "Could not locate the affected file")
        | Some affected_file =>
            head ← try (key "head" (head pr_info));
            pr_head_ref ← try (key "ref" (ref head));
            file_content ← await (github_get_file_content
                                    owner repo affected_file pr_head_ref);
            fix_proposal ← await (fix_generator_generate_fix
                           (failure_type diagnosis) (details diagnosis)
                           file_content affected_file);
            _ ← try (Py.getitem fix_proposal "fix_type");
            fix_confidence ← try (Py.getitem fix_proposal "confidence");
            _ ← try (format_percent fix_confidence);
            comment_body ←
              try (_format_fix_comment diagnosis fix_proposal check_name);
            _ ← await (github_post_comment owner repo pr_number comment_body);
            ret (success diagnosis fix_proposal affected_file)
        end
  end.

End Orchestrator.

End Orchestrator.

(** ** The notions of the design document

    What the document says about the analyzer, stated on its own terms: the
    pattern table as a sequence of entries, the keyword lines of a log and
    the windows of context around them. *)
Module Design.

Import Re Analyzer Run.

(** The entries of the pattern table in declared order: categories in table
    order and, within a category, patterns in listed order. *)
Definition entries : list (FailureType * regex) :=
  '(failure_type, patterns) ← PATTERNS; pair failure_type <$> patterns.

(** The first entry, in a list of entries, whose pattern matches the log. *)
Fixpoint first_match (es : list (FailureType * regex)) (log : string)
    : option (FailureType * Match) :=
  match es with
  | [] => None
  | (failure_type, pattern) :: es' =>
      match search pattern log with
      | Some m => Some (failure_type, m)
      | None => first_match es' log
      end
  end.

Definition pattern_matches (log : string) (e : FailureType * regex) : Prop :=
  is_Some (search e.2 log).

(** The log has a line that contains a keyword. *)
Definition has_keyword_line (log : string) : Prop :=
  Exists (fun line => has_keyword line = true) (Py.split_lines log).

(** The indices of the keyword lines, ascending. *)
Definition keyword_indices (lines : list string) : list nat :=
  filter (fun i => has_keyword (default EmptyString (lines !! i)) = true)
         (seq 0 (length lines)).

(** The window around line [i]: the lines whose index lies in
    [[i - 2, i + 6)]. *)
Definition window (lines : list string) (i : nat) : list string :=
  snd <$> filter
    (fun p => (Z.of_nat i - 2 <= Z.of_nat p.1 < Z.of_nat i + 6)%Z)
    (zip (seq 0 (length lines)) lines).

(** The windows of all keyword lines, one after the other. *)
Definition context_lines (log : string) : list string :=
  let lines := Py.split_lines log in
  i ← keyword_indices lines; window lines i.

Fixpoint no_newline (s : string) : Prop :=
  match s with
  | EmptyString => True
  | String c s' => c <> Py.newline /\ no_newline s'
  end.

(** The diagnosis of a log without keyword line. *)
Definition no_error_lines : Diagnosis :=
  mkDiagnosis UNKNOWN EmptyString ∅ 0.0%float EmptyString.

(** "The first matching entry of the table decides the category", for one
    log, with no condition on its lines. *)
Definition first_entry_decides (log : string) : Prop :=
  forall before failure_type pattern after m,
  entries = before ++ (failure_type, pattern) :: after ->
  Forall (fun e => ~ pattern_matches log e) before ->
  search pattern log = Some m ->
  exists d, analyze log = inr d /\ Analyzer.failure_type d = failure_type.

(** A parsed value that has the minimal shape of a ChangeOp of the data
    model: a file, and one of the three actions. *)
Definition well_formed_change (v : Py.value) : bool :=
  match v with
  | Py.PDict items =>
      match Py.assoc "file" items, Py.assoc "action" items with
      | Some (Py.PStr _), Some (Py.PStr action) =>
          bool_decide (action ∈ ["insert"; "replace"; "delete"])
      | _, _ => false
      end
  | _ => false
  end.

Definition is_number (v : Py.value) : bool :=
  match v with
  | Py.PInt _ | Py.PFloat _ => true
  | _ => false
  end.

(** A parsed value that has the minimal shape of a FixProposal: the four
    required fields, and [changes] a sequence of well-formed ChangeOps. *)
Definition well_formed_proposal (v : Py.value) : bool :=
  match v with
  | Py.PDict items =>
      match Py.assoc "fix_type" items, Py.assoc "changes" items,
            Py.assoc "explanation" items, Py.assoc "confidence" items with
      | Some (Py.PStr _), Some (Py.PList changes), Some (Py.PStr _),
        Some confidence =>
          forallb well_formed_change changes && is_number confidence
      | _, _, _, _ => false
      end
  | _ => false
  end.

(** The completion service answers every request with [text]. *)
Definition completes_with (w : env) (text : string) : Prop :=
  forall model messages temperature,
  w (client_chat_completions_create model messages temperature) = inr text.

(** "A response that cannot be parsed into a well-formed FixProposal makes
    [generate_fix] raise MalformedResponseError", on the branches that call
    the completion service. *)
Definition malformed_response_is_rejected : Prop :=
  forall (json_loads : string -> option Py.value) (model : string) (w : env)
         (failure_type : FailureType) (error_details : gmap string string)
         (file_content file_path text : string),
  failure_type <> MISSING_DEPENDENCY ->
  completes_with w text ->
  (forall v, json_loads text = Some v -> well_formed_proposal v = false) ->
  (run w (FixGenerator.generate_fix json_loads model failure_type
            error_details file_content file_path)).2
  = inl Py.MalformedResponseError.

(** A parser that knows one text, the empty JSON object, which [json.loads]
    turns into the empty dictionary. *)
Definition json_loads_empty_object (text : string) : option Py.value :=
  if String.eqb text "{}" then Some (Py.PDict []) else None.

(** The stack-trace file of a log snippet as a reader takes it from the
    words [File Q<path>Q] with a leading [./] stripped (Q the double
    quote): any quoted path, less the two characters [./] when it starts
    with them. *)
Definition file_reference : regex :=
  Cat (Lit ("File " +:+ String Py.dquote EmptyString))
      (Cat (Group (Plus (NotChar Py.dquote)))
           (Lit (String Py.dquote EmptyString))).

Definition strip_dot_slash (path : string) : string :=
  match path with
  | String "."%char (String "/"%char rest) => rest
  | _ => path
  end.

Definition stated_stack_trace_file (log_snippet : string) : option string :=
  m ← search file_reference log_snippet; strip_dot_slash <$> group1 m.

(** The path starts with neither a dot nor a slash. *)
Definition plain_start (path : string) : Prop :=
  match path with
  | String c _ => c <> "."%char /\ c <> "/"%char
  | EmptyString => True
  end.

(** An environment in which every call fails. *)
Definition unreachable : env := fun _ => inl (Py.Failure "unreachable").

(** The calls of a run that gets as far as the diagnosis. *)
Definition calls_until_diagnosis (owner repo : string) (pr_number : Z)
    (check_id : Z) (logs : string) : list call :=
  [ github_get_pr_info owner repo pr_number;
    github_get_pr_checks owner repo pr_number;
    github_get_check_logs owner repo check_id;
    analyzer_analyze logs ].

(** The run reaches the diagnosis [diagnosis]: the pull request and its
    checks are fetched, the first failed check has an id and a name, its
    logs are fetched and analysed. *)
Definition diagnosed (w : env) (owner repo : string) (pr_number : Z)
    (check_id : Z) (logs : string) (diagnosis : Diagnosis) : Prop :=
  exists (pr_info : PRInfo) (check_runs : list CheckRun)
         (check : CheckRun) (rest : list CheckRun) (check_name : string),
    w (github_get_pr_info owner repo pr_number) = inr pr_info /\
    w (github_get_pr_checks owner repo pr_number) = inr check_runs /\
    filter (fun c => conclusion c = Some "failure") check_runs
      = check :: rest /\
    id check = Some check_id /\
    name check = Some check_name /\
    w (github_get_check_logs owner repo check_id) = inr logs /\
    w (analyzer_analyze logs) = inr diagnosis.

(** The calls file location makes: the diff is fetched when the details
    name a missing module. *)
Definition location_calls (owner repo : string) (pr_number : Z)
    (diagnosis : Diagnosis) : list call :=
  if bool_decide (is_Some (details diagnosis !! "missing_module"))
  then [github_get_pr_diff owner repo pr_number] else [].

(** The leftmost diff header of a Python file, looked for when the details
    name a missing module. *)
Definition diff_match (diagnosis : Diagnosis) (diff : string) : option Match :=
  if bool_decide (is_Some (details diagnosis !! "missing_module"))
  then search Orchestrator.diff_pattern diff else None.

(** A pull request whose second check failed with the given logs; the
    analyzer is the one of this repository, and nothing else answers. *)
Definition failed_check_env (logs : string) : env := fun c =>
  match c with
  | github_get_pr_info _ _ _ =>
      inr (mkPRInfo (Some "Add API client")
             (Some (mkHead (Some "feature/api-client"))))
  | github_get_pr_checks _ _ _ =>
      inr [ mkCheckRun (Some 1%Z) (Some "lint") (Some "success");
            mkCheckRun (Some 7%Z) (Some "tests") (Some "failure") ]
  | github_get_check_logs _ _ _ => inr logs
  | analyzer_analyze logs' => analyze logs'
  | _ => inl (Py.Failure "unreachable")
  end.

(** A pull request all of whose checks passed. *)
Definition passed_checks_env : env := fun c =>
  match c with
  | github_get_pr_info _ _ _ =>
      inr (mkPRInfo (Some "Add API client")
             (Some (mkHead (Some "feature/api-client"))))
  | github_get_pr_checks _ _ _ =>
      inr [ mkCheckRun (Some 1%Z) (Some "lint") (Some "success");
            mkCheckRun (Some 7%Z) (Some "tests") (Some "success");
            mkCheckRun (Some 9%Z) (Some "docs") None ]
  | _ => inl (Py.Failure "unreachable")
  end.

(** Renderings that are never reached: the runs considered below end
    before the comment is built. *)
Definition no_percent (v : Py.value) : Py.exn + string := inl Py.TypeError.
Definition no_comment (d : Diagnosis) (v : Py.value) (check_name : string)
    : Py.exn + string := inl Py.TypeError.

(** The logs of the two tests of [test/test_analyzer.py] that have a
    traceback. *)
Definition test_module_not_found_log : string :=
  "
    Traceback (most recent call last):
      File " +:+ String Py.dquote "test_api.py" +:+
  String Py.dquote ", line 5, in test_api_call
        import requests
    ModuleNotFoundError: No module named 'requests'
    ".

Definition test_broken_path_log : string :=
  "
    Traceback (most recent call last):
      File " +:+ String Py.dquote "app.py" +:+
  String Py.dquote ", line 10, in main
        with open('config/settings.json') as f:
    FileNotFoundError: [Errno 2] No such file or directory: 'config/settings.json'
    ".

(** A syntax error in [./src/app.py], as a traceback reports it. *)
Definition syntax_error_log : string :=
  "  File " +:+ String Py.dquote "./src/app.py" +:+
  String Py.dquote ", line 3
    x = (
SyntaxError: invalid syntax".

(** A syntax error in code given on the command line. *)
Definition string_error_log : string :=
  "  File " +:+ String Py.dquote "<string>" +:+
  String Py.dquote ", line 1
SyntaxError: invalid syntax".

End Design.

(** ** What a pattern denotes

    The texts a pattern matches, with the texts of its groups, stated
    without reference to the order in which the matcher tries them. *)
Module ReSpec.

Import Re.

Fixpoint all_chars (P : ascii -> bool) (s : string) : bool :=
  match s with
  | EmptyString => true
  | String c s' => P c && all_chars P s'
  end.

Inductive denotes : regex -> string -> list string -> Prop :=
  | denotes_lit (l : string) : denotes (Lit l) l []
  | denotes_plus (cl : charclass) (c : ascii) (s : string) :
      in_class cl c = true -> all_chars (in_class cl) s = true ->
      denotes (Plus cl) (String c s) []
  | denotes_group (r : regex) (s : string) (gs : list string) :
      denotes r s gs -> denotes (Group r) s (gs ++ [s])
  | denotes_cat (r1 r2 : regex) (s1 s2 : string) (gs1 gs2 : list string) :
      denotes r1 s1 gs1 -> denotes r2 s2 gs2 ->
      denotes (Cat r1 r2) (s1 +:+ s2) (gs1 ++ gs2).

(** Every group of the pattern takes at least one character. *)
Fixpoint groups_nonempty (r : regex) : bool :=
  match r with
  | Lit _ | Plus _ => true
  | Group r1 => Nat.ltb 0 (min_len r1) && groups_nonempty r1
  | Cat r1 r2 => groups_nonempty r1 && groups_nonempty r2
  end.

End ReSpec.

(** ** The details a match fills in *)
Module AnalyzerSpec.

Import Re Analyzer.

(** The [details] dictionary after a match [m] of a pattern of category
    [t]: one key for the three categories that record their first group. *)
Definition details_of (t : FailureType) (m : Match) : gmap string string :=
  match t, groups m with
  | MODULE_NOT_FOUND, g :: _ => <["missing_module" := g]> ∅
  | BROKEN_PATH, g :: _ => <["missing_path" := g]> ∅
  | MISSING_DEPENDENCY, g :: _ => <["package_name" := g]> ∅
  | _, _ => ∅
  end.

(** The number of lines of the window around line [i] of a log of [n]
    lines. *)
Definition window_size (n i : nat) : nat := (n `min` (i + 6)) - (i - 2).

End AnalyzerSpec.

(** ** The comment: [_format_fix_comment] and [_format_changes_detail]
    of [src/agent/orchestrator.py]

    The fix is read as [json.loads] built it. Three things are parameters:
    [str] of a value that is not a string, the rendering [:.0%] of a
    number, and the four emoji of the headings, which lie outside the
    characters of this model. *)
Module Report.

Import Analyzer.

(** Sequencing of steps that may raise. *)
Definition and_then {A B : Type} (r : Py.exn + A) (f : A -> Py.exn + B)
    : Py.exn + B :=
  match r with
  | inl e => inl e
  | inr a => f a
  end.

Notation "x <-? r ; k" := (and_then r (fun x => k))
  (at level 100, r at next level, k at level 200, right associativity).

(** A list comprehension: the items in order, up to the first that raises. *)
Fixpoint collect {A B : Type} (f : A -> Py.exn + B) (items : list A)
    : Py.exn + list B :=
  match items with
  | [] => inr []
  | item :: items' =>
      y <-? f item; ys <-? collect f items'; inr (y :: ys)
  end.

Fixpoint characters (s : string) : list Py.value :=
  match s with
  | EmptyString => []
  | String c s' => Py.PStr (String c EmptyString) :: characters s'
  end.

(** [for x in v]: the items of a list, the keys of a dictionary, the
    characters of a string; nothing else can be iterated. *)
Definition iterate (v : Py.value) : Py.exn + list Py.value :=
  match v with
  | Py.PList items => inr items
  | Py.PDict items => inr ((fun kv => Py.PStr kv.1) <$> items)
  | Py.PStr s => inr (characters s)
  | _ => inl Py.TypeError
  end.

(** [v == s] for a string [s]. *)
Definition is_str (v : Py.value) (s : string) : bool :=
  match v with
  | Py.PStr s' => String.eqb s' s
  | _ => false
  end.

Section Report.

(** [str(v)] for a value [v] that is not a string. *)
Variable str_of : Py.value -> string.
(** [f"{v:.0%}"] *)
Variable format_percent : Py.value -> Py.exn + string.
(** The emoji of the four headings. *)
Variables (robot chart wrench check_mark : string).

(** [f"{v}"] *)
Definition format (v : Py.value) : string :=
  match v with
  | Py.PStr s => s
  | _ => str_of v
  end.

(** The lines one change adds to [details]. *)
Definition change_detail (change : Py.value) : Py.exn + list string :=
  action <-? Py.getitem change "action";
  if is_str action "insert" then
    new_content <-? Py.getitem change "new_content";
    inr ["+ " +:+ format new_content]
  else if is_str action "replace" then
    old_content <-? Py.getitem change "old_content";
    new_content <-? Py.getitem change "new_content";
    inr ["- " +:+ format old_content; "+ " +:+ format new_content]
  else if is_str action "delete" then
    old_content <-? Py.getitem change "old_content";
    inr ["- " +:+ format old_content]
  else inr [].

(** The loop [for change in changes] with its accumulator [details]. *)
Fixpoint detail_loop (changes : list Py.value) (details : list string)
    : Py.exn + list string :=
  match changes with
  | [] => inr details
  | change :: changes' =>
      lines <-? change_detail change;
      detail_loop changes' (details ++ lines)
  end.

Definition _format_changes_detail (changes : Py.value) : Py.exn + string :=
  items <-? iterate changes;
  details <-? detail_loop items [];
  inr (Py.join_lines details).

(** One line of [changes_text]. *)
Definition change_summary (c : Py.value) : Py.exn + string :=
  file <-? Py.getitem c "file";
  let line_number :=
    match c with
    | Py.PDict items => default (Py.PStr "N/A") (Py.assoc "line_number" items)
    | _ => Py.PStr "N/A"
    end in
  action <-? Py.getitem c "action";
  inr ("- **" +:+ format file +:+ "** (line " +:+ format line_number +:+
       "): " +:+ format action).

Definition _format_fix_comment (diagnosis : Diagnosis)
    (fix_proposal : Py.value) (check_name : string) : Py.exn + string :=
  let failure_type := value (failure_type diagnosis) in
  let error_msg := error_message diagnosis in
  changes <-? Py.getitem fix_proposal "changes";
  items <-? iterate changes;
  summaries <-? collect change_summary items;
  let changes_text := Py.join_lines summaries in
  confidence <-? format_percent (Py.PFloat (confidence diagnosis));
  explanation <-? Py.getitem fix_proposal "explanation";
  fix_confidence <-? Py.getitem fix_proposal "confidence";
  fix_confidence <-? format_percent fix_confidence;
  changes <-? Py.getitem fix_proposal "changes";
  detail <-? _format_changes_detail changes;
  inr ("## " +:+ robot +:+ " DietCode CI Fix Suggestion

**CI Check Failed:** `" +:+ check_name +:+ "`

### " +:+ chart +:+ " Diagnosis
- **Failure Type:** `" +:+ failure_type +:+ "`
- **Error:** `" +:+ error_msg +:+ "`
- **Confidence:** " +:+ confidence +:+ "

### " +:+ wrench +:+ " Proposed Fix
" +:+ format explanation +:+ "

**Changes:**
" +:+ changes_text +:+ "

**Fix Confidence:** " +:+ fix_confidence +:+ "

### " +:+ check_mark +:+ " Approval
To apply this fix, reply with: `/dietcode apply`
To reject this fix, reply with: `/dietcode reject`

---
<details>
<summary>View detailed changes</summary>
```python
" +:+ detail +:+ "
```
</details>

*This is an automated fix generated by DietCode. Please review carefully before applying.*
").

End Report.

End Report.

(** ** The stages of a run *)
Module Pipeline.

Import Analyzer Run Orchestrator.

(** The place of a call in the pipeline. *)
Definition stage (c : call) : nat :=
  match c with
  | github_get_pr_info _ _ _ => 0
  | github_get_pr_checks _ _ _ => 1
  | github_get_check_logs _ _ _ => 2
  | analyzer_analyze _ => 3
  | github_get_pr_diff _ _ _ => 4
  | github_get_file_content _ _ _ _ => 5
  | fix_generator_generate_fix _ _ _ _ => 6
  | github_post_comment _ _ _ _ => 7
  | client_chat_completions_create _ _ _ => 8
  end.

(** Every call of the program has its stage in [[lo, hi)], and what follows
    a call has later stages only. *)
Inductive within {R : Type} : nat -> nat -> prog R -> Prop :=
  | within_ret (lo hi : nat) (r : R) : within lo hi (ret r)
  | within_raise (lo hi : nat) (e : Py.exn) : within lo hi (raise e)
  | within_perform (lo hi : nat) (c : call) (k : response c -> prog R) :
      lo <= stage c < hi ->
      (forall x, within (S (stage c)) hi (k x)) ->
      within lo hi (perform c k).

Fixpoint increasing_from (lo : nat) (stages : list nat) : Prop :=
  match stages with
  | [] => True
  | n :: stages' => lo <= n /\ increasing_from (S n) stages'
  end.

(** The steps of [process_pr_failure] once the file is located: the file
    is fetched, the fix generated and the comment posted. *)
Definition publish_fix (format_percent : Py.value -> Py.exn + string)
    (_format_fix_comment : Diagnosis -> Py.value -> string -> Py.exn + string)
    (owner repo : string) (pr_number : Z) (pr_info : PRInfo)
    (check_name : string) (diagnosis : Diagnosis) (affected_file : string)
    : prog PipelineResult :=
  head ← try (key "head" (head pr_info));
  pr_head_ref ← try (key "ref" (ref head));
  file_content ← await (github_get_file_content
                          owner repo affected_file pr_head_ref);
  fix_proposal ← await (fix_generator_generate_fix
                          (failure_type diagnosis) (details diagnosis)
                          file_content affected_file);
  _ ← try (Py.getitem fix_proposal "fix_type");
  fix_confidence ← try (Py.getitem fix_proposal "confidence");
  _ ← try (format_percent fix_confidence);
  comment_body ← try (_format_fix_comment diagnosis fix_proposal check_name);
  _ ← await (github_post_comment owner repo pr_number comment_body);
  ret (success diagnosis fix_proposal affected_file).

(** The run reaches the diagnosis, for the pull request [pr_info] and the
    failed check [check_name]. *)
Definition diagnosed_with (w : env) (owner repo : string) (pr_number : Z)
    (pr_info : PRInfo) (check_name : string)
    (check_id : Z) (logs : string) (diagnosis : Diagnosis) : Prop :=
  exists (check_runs : list CheckRun) (check : CheckRun)
         (rest : list CheckRun),
    w (github_get_pr_info owner repo pr_number) = inr pr_info /\
    w (github_get_pr_checks owner repo pr_number) = inr check_runs /\
    filter (fun c => conclusion c = Some "failure") check_runs
      = check :: rest /\
    id check = Some check_id /\
    name check = Some check_name /\
    w (github_get_check_logs owner repo check_id) = inr logs /\
    w (analyzer_analyze logs) = inr diagnosis.

(** A fix as the completion service is asked to give it. *)
Definition import_fix : Py.value :=
  Py.PDict
    [ ("fix_type", Py.PStr "add_import");
      ("changes", Py.PList [ Py.PDict
          [ ("file", Py.PStr "src/app.py");
            ("action", Py.PStr "replace");
            ("line_number", Py.PInt 3);
            ("old_content", Py.PStr "x = (");
            ("new_content", Py.PStr "x = ()") ] ]);
      ("explanation", Py.PStr "Close the parenthesis");
      ("confidence", Py.PFloat 0.9%float) ].

(** A pull request whose check [tests] failed with [logs]: the analyzer is
    the one of this repository, the file has the given content, and the
    fix generator and the posting of the comment end as given. *)
Definition pipeline_env (logs file_content : string)
    (generated : Py.exn + Py.value) (posted : Py.exn + unit) : env :=
  fun c =>
  match c with
  | github_get_pr_info _ _ _ =>
      inr (mkPRInfo (Some "Add API client")
             (Some (mkHead (Some "feature/api-client"))))
  | github_get_pr_checks _ _ _ =>
      inr [ mkCheckRun (Some 1%Z) (Some "lint") (Some "success");
            mkCheckRun (Some 7%Z) (Some "tests") (Some "failure") ]
  | github_get_check_logs _ _ _ => inr logs
  | analyzer_analyze logs' => analyze logs'
  | github_get_pr_diff _ _ _ => inr EmptyString
  | github_get_file_content _ _ _ _ => inr file_content
  | fix_generator_generate_fix _ _ _ _ => generated
  | github_post_comment _ _ _ _ => posted
  | client_chat_completions_create _ _ _ => inl (Py.Failure "unreachable")
  end.

(** Renderings for the examples: every number reads [90%]. *)
Definition percent_90 (v : Py.value) : Py.exn + string := inr "90%".
Definition plain_comment : Diagnosis -> Py.value -> string -> Py.exn + string :=
  Report._format_fix_comment (fun _ => "3") percent_90 "R" "C" "W" "A".

End Pipeline.

(** ** [src/mcp/client.py]

    The client keeps the processes it started in [self.servers]. What it
    does to the outside (starting a process, writing to and reading from
    its pipes, terminating it) is a tree of operations; each operation is
    answered or raises, and the answer may depend on everything done
    before. The line read back is the bytes the process sent; [decode],
    [json.dumps], [json.loads] and [str] are parameters, and so is
    [os.environ]. The request is written as the text [json.dumps] gives:
    with its default [ensure_ascii] that text is ASCII, so that [encode]
    gives the same bytes and never raises. *)
Module Mcp.

Inductive error : Type :=
  | KeyError (key : string)
  | TypeError
  | AttributeError
  | UnicodeDecodeError
  | JSONDecodeError
  | ToolError (message : string)      (* raise Exception(message) *)
  | OSError (message : string).       (* whatever an operation raises *)

(** A started process, by the order in which it was started. *)
Definition process : Type := nat.

(** One entry of ['mcpServers'] in the configuration file. *)
Record ServerConfig : Type := mkServerConfig {
  command : option string;
  args : option (list string);
  env : option (list (string * string))
}.

Record MCPClient : Type := mkClient {
  mcpServers : option (gmap string ServerConfig);   (* self.config *)
  servers : list (string * process)                 (* self.servers *)
}.

Inductive io : Type :=
  | create_subprocess_exec (command : string) (args : list string)
      (env : gmap string string)
  | stdin_write (p : process) (data : string)
  | stdin_drain (p : process)
  | stdout_readline (p : process)
  | terminate (p : process)
  | wait (p : process).

Definition answer (c : io) : Type :=
  match c with
  | create_subprocess_exec _ _ _ => process
  | stdout_readline _ => string
  | _ => unit
  end.

(** A tree of operations; the continuation sees the answer or the
    exception. *)
Inductive prog (R : Type) : Type :=
  | ret (r : R)
  | perform (c : io) (k : error + answer c -> prog R).
Arguments ret {R} r.
Arguments perform {R} c k.

(** A method of the client: from [self] to [self] as the method leaves it,
    with what it returns or raises. *)
Definition method (A : Type) : Type :=
  MCPClient -> prog (MCPClient * (error + A)).

Definition pure {A : Type} (a : A) : method A :=
  fun self => ret (self, inr a).

Definition throw {A : Type} (e : error) : method A :=
  fun self => ret (self, inl e).

Fixpoint prog_bind {A B : Type} (p : prog A) (f : A -> prog B) : prog B :=
  match p with
  | ret a => f a
  | perform c k => perform c (fun x => prog_bind (k x) f)
  end.

Definition and_then {A B : Type} (m : method A) (f : A -> method B)
    : method B :=
  fun self =>
    prog_bind (m self) (fun '(self', r) =>
      match r with
      | inl e => ret (self', inl e)
      | inr a => f a self'
      end).

Notation "x <-! m ; k" := (and_then m (fun x => k))
  (at level 100, m at next level, k at level 200, right associativity).

(** [await op]: the operation, its exception propagated. *)
Definition await (c : io) : method (answer c) :=
  fun self => perform c (fun r => ret (self, r)).

(** The outside: what an operation answers after the operations [done]. *)
Definition world : Type := list io -> forall c : io, error + answer c.

(** The operation [c], made after [done], is answered, or raises [e]. *)
Definition succeeds (w : world) (done : list io) (c : io) : Prop :=
  exists a : answer c, w done c = inr a.

Definition raises (w : world) (done : list io) (c : io) (e : error) : Prop :=
  w done c = inl e.

(** The operations made, in order, after [done], and the result. *)
Fixpoint run {R : Type} (w : world) (done : list io) (p : prog R)
    : list io * R :=
  match p with
  | ret r => ([], r)
  | perform c k =>
      let (ops, r) := run w (done ++ [c]) (k (w done c)) in (c :: ops, r)
  end.

(** [s.endswith(suffix)] and [s[2:-1]] *)
Definition endswith (suffix s : string) : bool :=
  Nat.leb (String.length suffix) (String.length s) &&
  String.eqb
    (String.substring (String.length s - String.length suffix)
       (String.length suffix) s)
    suffix.

Definition slice_2_minus_1 (s : string) : string :=
  String.substring 2 (String.length s - 3) s.

Section Client.

Variable environ : gmap string string.            (* os.environ *)
Variable json_dumps : Py.value -> string.
Variable json_loads : string -> option Py.value.
Variable str_of : Py.value -> string.              (* str(v) *)
(** [bytes.decode()]: the text, [None] when the bytes are not UTF-8. *)
Variable decode : string -> option string.

(** The value one entry of the server's [env] gets. *)
Definition resolve (value : string) : string :=
  if String.prefix "${" value && endswith "}" value then
    let env_var := slice_2_minus_1 value in
    default EmptyString (environ !! env_var)
  else value.

(** The loop over [server_config.get('env', {}).items()], from a copy of
    [os.environ]. *)
Definition server_env (items : list (string * string))
    : gmap string string :=
  foldl (fun env kv => <[kv.1 := resolve kv.2]> env) environ items.

Definition registered (server_name : string) (self : MCPClient) : bool :=
  bool_decide (server_name ∈ (servers self).*1).

Definition start_server (server_name : string) : method unit :=
  fun self =>
  if registered server_name self then pure tt self else
  match mcpServers self with
  | None => throw (KeyError "mcpServers") self
  | Some configured =>
      match configured !! server_name with
      | None => throw (KeyError server_name) self
      | Some server_config =>
          match command server_config with
          | None => throw (KeyError "command") self
          | Some command =>
              let args := default [] (args server_config) in
              let env := server_env (default [] (env server_config)) in
              (process <-! await (create_subprocess_exec command args env);
               fun self =>
                 pure tt (mkClient (mcpServers self)
                            (servers self ++ [(server_name, process)])))
              self
          end
      end
  end.

Fixpoint lookup_server (server_name : string)
    (started : list (string * process)) : option process :=
  match started with
  | [] => None
  | (name, p) :: started' =>
      if String.eqb name server_name then Some p
      else lookup_server server_name started'
  end.

(** The JSON-RPC request of [call_tool]. *)
Definition request (tool_name : string) (arguments : Py.value) : Py.value :=
  Py.PDict
    [ ("jsonrpc", Py.PStr "2.0");
      ("id", Py.PInt 1);
      ("method", Py.PStr "tools/call");
      ("params", Py.PDict [ ("name", Py.PStr tool_name);
                            ("arguments", arguments) ]) ].

(** ["error" in response] *)
Definition has_error (response : Py.value) : error + bool :=
  match response with
  | Py.PDict items => inr (bool_decide (is_Some (Py.assoc "error" items)))
  | Py.PList items =>
      inr (existsb (fun v => match v with
                             | Py.PStr s => String.eqb s "error"
                             | _ => false
                             end) items)
  | Py.PStr s => inr (Py.contains "error" s)
  | _ => inl TypeError
  end.

(** [f"{v}"]: a text as it is, another value as [str] gives it. *)
Definition format_value (v : Py.value) : string :=
  match v with
  | Py.PStr s => s
  | _ => str_of v
  end.

(** What [call_tool] makes of the parsed response. *)
Definition read_response (response : Py.value) : error + Py.value :=
  match has_error response with
  | inl e => inl e
  | inr true =>
      match response with
      | Py.PDict items =>
          match Py.assoc "error" items with
          | Some v =>
              inl (ToolError ("MCP tool call failed: " +:+ format_value v))
          | None => inl (KeyError "error")
          end
      | _ => inl TypeError
      end
  | inr false =>
      match response with
      | Py.PDict items => inr (default (Py.PDict []) (Py.assoc "result" items))
      | _ => inl AttributeError
      end
  end.

(** What [call_tool] makes of the line read back. *)
Definition parsed (line : string) : error + Py.value :=
  match decode line with
  | None => inl UnicodeDecodeError
  | Some text =>
      match json_loads text with
      | None => inl JSONDecodeError
      | Some response => read_response response
      end
  end.

(** The second half of [call_tool]: the request is written to the
    process, one line is read back and parsed. *)
Definition exchange (process : process) (tool_name : string)
    (arguments : Py.value) : method Py.value :=
  let request_json :=
    json_dumps (request tool_name arguments)
    +:+ String Py.newline EmptyString in
  _ <-! await (stdin_write process request_json);
  _ <-! await (stdin_drain process);
  response_line <-! await (stdout_readline process);
  match decode response_line with
  | None => throw UnicodeDecodeError
  | Some text =>
      match json_loads text with
      | None => throw JSONDecodeError
      | Some response =>
          match read_response response with
          | inl e => throw e
          | inr result => pure result
          end
      end
  end.

Definition call_tool (server_name tool_name : string) (arguments : Py.value)
    : method Py.value :=
  _ <-! (fun self => if registered server_name self then pure tt self
                     else start_server server_name self);
  fun self =>
  match lookup_server server_name (servers self) with
  | None => throw (KeyError server_name) self
  | Some process => exchange process tool_name arguments self
  end.

(** The operations of [close] when none of them raises. *)
Definition close_operations (started : list (string * process)) : list io :=
  started ≫= fun np => [terminate np.2; wait np.2].

(** The loop of [close] over [self.servers.items()]. *)
Fixpoint close_loop (started : list (string * process)) : method unit :=
  match started with
  | [] => pure tt
  | (_, process) :: started' =>
      _ <-! await (terminate process);
      _ <-! await (wait process);
      close_loop started'
  end.

Definition close : method unit :=
  fun self => close_loop (servers self) self.

End Client.

Definition is_spawn (c : io) : bool :=
  match c with
  | create_subprocess_exec _ _ _ => true
  | _ => false
  end.

(** A configuration with the GitHub server, as the agent uses it. *)
Definition github_env : list (string * string) :=
  [ ("GITHUB_PERSONAL_ACCESS_TOKEN", "${GITHUB_TOKEN}");
    ("LOG_FORMAT", "plain") ].

Definition github_config : gmap string ServerConfig :=
  {[ "github" :=
       mkServerConfig (Some "npx")
         (Some ["-y"; "@modelcontextprotocol/server-github"])
         (Some github_env) ]}.

Definition example_environ : gmap string string :=
  {[ "GITHUB_TOKEN" := "ghp_example"; "PATH" := "/usr/bin" ]}.

(** A world in which every operation succeeds: processes are numbered as
    they start, and every line read back is [line]. *)
Definition answering (line : string) : world := fun done c =>
  match c return error + answer c with
  | create_subprocess_exec _ _ _ =>
      inr (length (filter (fun c => is_spawn c = true) done))
  | stdout_readline _ => inr line
  | stdin_write _ _ => inr tt
  | stdin_drain _ => inr tt
  | terminate _ => inr tt
  | wait _ => inr tt
  end.

(** A serialiser for the examples, which read nothing of the request. *)
Definition dumps_example (v : Py.value) : string := "{}".

(** A decoder for the examples: ASCII bytes are their own text. *)
Definition decode_ascii (line : string) : option string :=
  if forallb (fun c => Nat.ltb (nat_of_ascii c) 128)
       (list_ascii_of_string line)
  then Some line else None.

(** An error of the JSON-RPC shape, and a response line that carries it
    beside a result: Q being the double quote, the line is
    [{QerrorQ: {QcodeQ: -32000, QmessageQ: Qnot foundQ}, QresultQ: {}}]. *)
Definition rpc_error : Py.value :=
  Py.PDict [ ("code", Py.PInt (-32000)); ("message", Py.PStr "not found") ].

Definition quoted (s : string) : string :=
  String "034"%char (s +:+ String "034"%char EmptyString).

Definition error_line : string :=
  "{" +:+ quoted "error" +:+ ": {" +:+ quoted "code" +:+ ": -32000, "
  +:+ quoted "message" +:+ ": " +:+ quoted "not found" +:+ "}, "
  +:+ quoted "result" +:+ ": {}}".

(** A parser for the two lines of the examples. *)
Definition loads_example (text : string) : option Py.value :=
  if String.eqb text "{}" then Some (Py.PDict [])
  else if String.eqb text error_line then
    Some (Py.PDict [ ("error", rpc_error); ("result", Py.PDict []) ])
  else None.

(** [str] for the examples, which render [rpc_error] only. *)
Definition str_example (v : Py.value) : string :=
  "{'code': -32000, 'message': 'not found'}".

(** A world in which the first operation on [failing] raises. *)
Definition failing_on (failing : io -> bool) : world := fun done c =>
  if failing c then inl (OSError "failed") else answering "{}" done c.

Definition is_wait (c : io) : bool :=
  match c with
  | wait _ => true
  | _ => false
  end.

End Mcp.

(** ** [src/main.py]

    What [main] does, as the sequence of its steps and the way it ends. The
    conversion [int], the construction of the agent, the run of
    [process_pr_failure], [close] and the rendering of the result are given
    by their results. *)
Module Cli.

Import Orchestrator.

Inductive error : Type :=
  | SystemExit (code : Z)            (* sys.exit(code) *)
  | ValueError                       (* int() of a text that is no number *)
  | Raised (e : Py.exn)              (* from process_pr_failure *)
  | Failed (message : string).       (* from DietCodeAgent() or close() *)

Inductive step : Type :=
  | Print (text : string)
  | Construct                        (* DietCodeAgent() *)
  | Process (owner repo : string) (pr_number : Z)
  | Close.                           (* agent.close() *)

(** ["=" * n] *)
Fixpoint equals (n : nat) : string :=
  match n with
  | O => EmptyString
  | S n' => String "="%char (equals n')
  end.

Section Main.

Variable int : string -> option Z.
(** The exception of [DietCodeAgent()], if it raises. *)
Variable construct : option string.
Variable process_pr_failure :
  string -> string -> Z -> Py.exn + PipelineResult.
(** The exception of [agent.close()], if it raises. *)
Variable close : option string.
(** [json.dumps(result, indent=2, default=str)] *)
Variable dumps : PipelineResult -> string.

(** The body of [try], after the agent is constructed. *)
Definition report (owner repo : string) (pr_number : Z)
    : list step * (error + unit) :=
  match process_pr_failure owner repo pr_number with
  | inl e => ([Process owner repo pr_number], inl (Raised e))
  | inr result =>
      ([ Process owner repo pr_number;
         Print (String Py.newline EmptyString +:+ equals 50);
         Print "RESULT:";
         Print (equals 50);
         Print (dumps result) ],
       inr tt)
  end.

(** [try: ... finally: await agent.close()] *)
Definition finally_close (body : list step * (error + unit))
    : list step * (error + unit) :=
  let (steps, outcome) := body in
  match close with
  | Some message => (steps ++ [Close], inl (Failed message))
  | None => (steps ++ [Close], outcome)
  end.

Definition main (argv : list string) : list step * (error + unit) :=
  if Nat.ltb (length argv) 4 then
    ([ Print "Usage: python -m src.main <owner> <repo> <pr_number>";
       Print "Example: python -m src.main octocat Hello-World 123" ],
     inl (SystemExit 1))
  else
    let owner := default EmptyString (argv !! 1) in
    let repo := default EmptyString (argv !! 2) in
    match int (default EmptyString (argv !! 3)) with
    | None => ([], inl ValueError)
    | Some pr_number =>
        match construct with
        | Some message => ([Construct], inl (Failed message))
        | None =>
            let (steps, outcome) :=
              finally_close (report owner repo pr_number) in
            (Construct :: steps, outcome)
        end
    end.

End Main.

Definition is_close (s : step) : bool :=
  match s with
  | Close => true
  | _ => false
  end.

End Cli.

(** * Properties *)

(** ** Facts about the matcher *)
Module ReFacts.

Import Re.

Lemma length_prefix_of_length (n : nat) (s : string) :
  String.length (Py.prefix_of_length n s) = n `min` String.length s.
Proof.
  revert s; induction n as [|n IH]; intros [|c s]; simpl; auto.
Qed.

Lemma lit_inv {A} (l s : string) (k : string -> option A) (a : A) :
  lit l s k = Some a ->
  exists rest, k rest = Some a /\
    String.length rest + String.length l = String.length s.
Proof.
  revert s; induction l as [|c l IH]; intros s H; simpl in *.
  - exists s; split; [done | lia].
  - destruct s as [|d s]; [done|].
    destruct (Ascii.eqb c d); [|done].
    destruct (IH _ H) as (rest & Hk & Hlen).
    exists rest; split; [done | simpl; lia].
Qed.

Lemma star_inv {A} (cl : charclass) (s : string) (k : string -> option A)
    (a : A) :
  star cl s k = Some a ->
  exists rest, k rest = Some a /\ String.length rest <= String.length s.
Proof.
  induction s as [|c s IH]; simpl; intros H.
  - exists EmptyString; split; [done | simpl; lia].
  - destruct (in_class cl c).
    + destruct (star cl s k) as [r|] eqn:E.
      * destruct (IH H) as (rest & Hk & Hlen).
        exists rest; split; [done | lia].
      * exists (String c s); split; [done | simpl; lia].
    + exists (String c s); split; [done | simpl; lia].
Qed.

Lemma plus_inv {A} (cl : charclass) (s : string) (k : string -> option A)
    (a : A) :
  plus cl s k = Some a ->
  exists rest, k rest = Some a /\ String.length rest + 1 <= String.length s.
Proof.
  destruct s as [|c s]; simpl; [done|].
  destruct (in_class cl c); [|done].
  intros H; destruct (star_inv _ _ _ _ H) as (rest & Hk & Hlen).
  exists rest; split; [done | lia].
Qed.

(** A successful match hands its continuation a text shorter by at least
    [min_len r], and [ngroups r] more groups. *)
Lemma match_here_inv {A} (r : regex) :
  forall (s : string) (gs : list string)
         (k : string -> list string -> option A) (a : A),
  match_here r s gs k = Some a ->
  exists rest gs', k rest gs' = Some a /\
    String.length rest + min_len r <= String.length s /\
    length gs' = length gs + ngroups r.
Proof.
  induction r as [l|cl|r1 IH1|r1 IH1 r2 IH2]; intros s gs k a H; simpl in *.
  - destruct (lit_inv _ _ _ _ H) as (rest & Hk & Hlen).
    exists rest, gs; repeat split; [done | lia | lia].
  - destruct (plus_inv _ _ _ _ H) as (rest & Hk & Hlen).
    exists rest, gs; repeat split; [done | lia | lia].
  - destruct (IH1 _ _ _ _ H) as (rest & gs' & Hk & Hlen & Hgs).
    eexists rest, _; repeat split; [exact Hk | lia |].
    rewrite length_app; simpl; lia.
  - destruct (IH1 _ _ _ _ H) as (mid & gs1 & Hk1 & Hlen1 & Hgs1).
    destruct (IH2 _ _ _ _ Hk1) as (rest & gs2 & Hk2 & Hlen2 & Hgs2).
    exists rest, gs2; repeat split; [done | lia | lia].
Qed.

Lemma match_at_inv (r : regex) (s : string) (m : Match) (rest : string) :
  match_at r s = Some (m, rest) ->
  min_len r <= String.length (group0 m) /\
  String.length (group0 m) + String.length rest = String.length s /\
  length (groups m) = ngroups r.
Proof.
  unfold match_at; intros H.
  destruct (match_here_inv _ _ _ _ _ H) as (rest' & gs' & Hk & Hlen & Hgs).
  injection Hk as <- <-; simpl.
  rewrite length_prefix_of_length; simpl in Hgs; repeat split; lia.
Qed.

Lemma search_from_inv (r : regex) (s : string) (m : Match) (rest : string) :
  search_from r s = Some (m, rest) ->
  min_len r <= String.length (group0 m) /\
  String.length (group0 m) + String.length rest <= String.length s /\
  length (groups m) = ngroups r.
Proof.
  induction s as [|c s IH]; simpl; intros H.
  - destruct (match_at r EmptyString) as [[m' rest']|] eqn:E; [|done].
    injection H as -> ->.
    destruct (match_at_inv _ _ _ _ E) as (? & ? & ?); simpl in *;
      repeat split; lia.
  - destruct (match_at r (String c s)) as [[m' rest']|] eqn:E.
    + injection H as -> ->.
      destruct (match_at_inv _ _ _ _ E) as (? & ? & ?); simpl in *;
      repeat split; lia.
    + destruct (IH H) as (? & ? & ?); simpl; repeat split; lia.
Qed.

Lemma search_inv (r : regex) (s : string) (m : Match) :
  search r s = Some m ->
  min_len r <= String.length (group0 m) /\ length (groups m) = ngroups r.
Proof.
  unfold search; intros H.
  destruct (search_from r s) as [[m' rest]|] eqn:E; [|done].
  injection H as ->.
  destruct (search_from_inv _ _ _ _ E) as (? & ? & ?); split; lia.
Qed.

(** A pattern with a group always has a [group(1)]. *)
Lemma search_group1 (r : regex) (s : string) (m : Match) :
  search r s = Some m -> 0 < ngroups r -> is_Some (group1 m).
Proof.
  intros H Hn. destruct (search_inv _ _ _ H) as [_ Hg].
  unfold group1. destruct (groups m); simpl in *; [lia | eauto].
Qed.

(** The first item of [findall] is the group of the leftmost match. *)
Lemma findall_head (r : regex) (s : string) :
  head (findall r s) =
  (fun m => default (group0 m) (group1 m)) <$> search r s.
Proof.
  unfold findall, search, group1; simpl.
  destruct (search_from r s) as [[m rest]|]; reflexivity.
Qed.

End ReFacts.

(** ** The log analyzer *)
Module AnalyzerFacts.

Import Re Analyzer Design ReFacts.

(** *** Error lines *)

Lemma window_from (l : list string) (k i : nat) :
  snd <$> filter
    (fun p => (Z.of_nat i - 2 <= Z.of_nat p.1 < Z.of_nat i + 6)%Z)
    (zip (seq k (length l)) l)
  = take (i + 6 - (i - 2) `max` k) (drop (i - 2 - k) l).
Proof.
  revert k; induction l as [|x l IH]; intros k; simpl.
  - by rewrite drop_nil, take_nil.
  - rewrite filter_cons; simpl. case_decide as Hk.
    + rewrite fmap_cons, IH; simpl.
      replace (i - 2 - k) with 0 by lia.
      replace (i - 2 - S k) with 0 by lia.
      replace (i + 6 - (i - 2) `max` k) with (S (i + 6 - (i - 2) `max` S k))
        by lia.
      done.
    + rewrite IH. destruct (decide (k < i - 2)) as [Hlt|Hge].
      * replace (i - 2 - k) with (S (i - 2 - S k)) by lia. simpl.
        f_equal; lia.
      * replace (i + 6 - (i - 2) `max` S k) with 0 by lia.
        replace (i + 6 - (i - 2) `max` k) with 0 by lia.
        done.
Qed.

(** The slice the loop takes at line [i] is the window around [i]. *)
Lemma slice_window (lines : list string) (i : nat) :
  Py.slice lines (Z.max 0 (Z.of_nat i - 2))
    (Z.min (Z.of_nat (length lines)) (Z.of_nat i + 6))
  = window lines i.
Proof.
  unfold window, Py.slice. rewrite window_from.
  replace (Z.to_nat (Z.max 0 (Z.of_nat i - 2))) with (i - 2) by lia.
  replace (i - 2 - 0) with (i - 2) by lia.
  replace ((i - 2) `max` 0) with (i - 2) by lia.
  destruct (decide (i + 6 <= length lines)) as [Hle|Hgt].
  - f_equal; lia.
  - rewrite !take_ge; [done | |]; rewrite length_drop; lia.
Qed.

Lemma extract_loop_spec (lines : list string) :
  forall (todo done acc : list string),
  lines = done ++ todo ->
  extract_loop lines (Z.of_nat (length done)) todo acc =
  acc ++ (i ← filter
            (fun i => has_keyword (default EmptyString (lines !! i)) = true)
            (seq (length done) (length todo));
          window lines i).
Proof.
  induction todo as [|line todo IH]; intros done acc Hlines; simpl.
  - by rewrite app_nil_r.
  - assert (Hline : lines !! length done = Some line).
    { subst lines. by rewrite lookup_app_r, Nat.sub_diag by lia. }
    replace (Z.of_nat (length done) + 1)%Z
      with (Z.of_nat (length (done ++ [line])))
      by (rewrite length_app; simpl; lia).
    rewrite IH by (subst lines; by rewrite <- app_assoc).
    rewrite length_app; simpl. rewrite Nat.add_1_r.
    rewrite filter_cons, Hline; simpl.
    destruct (has_keyword line) eqn:Hkw.
    + rewrite decide_True by done. simpl.
      rewrite slice_window. by rewrite app_assoc.
    + rewrite decide_False by done. done.
Qed.

(** [_extract_error_lines] computes the windows of the keyword lines. *)
Lemma extract_error_lines_spec (log : string) :
  _extract_error_lines log = context_lines log.
Proof.
  unfold _extract_error_lines, context_lines, keyword_indices.
  apply (extract_loop_spec _ _ [] []). done.
Qed.

Lemma window_self (lines : list string) (i : nat) (line : string) :
  lines !! i = Some line -> line ∈ window lines i.
Proof.
  intros Hi. unfold window. apply list_elem_of_fmap.
  exists (i, line); split; [done|].
  apply list_elem_of_filter; split; [simpl; lia|].
  apply list_elem_of_lookup. exists i.
  apply lookup_zip_with_Some. exists i, line; split; [done|]. split; [|done].
  apply lookup_seq. split; [done|]. by eapply lookup_lt_Some.
Qed.

Lemma keyword_indices_nil (lines : list string) :
  keyword_indices lines = [] <->
  Forall (fun line => has_keyword line = false) lines.
Proof.
  unfold keyword_indices. split.
  - intros H. apply Forall_lookup. intros i line Hi.
    destruct (has_keyword line) eqn:Hkw; [|done].
    assert (i ∈ @nil nat) as Hin; [|by apply not_elem_of_nil in Hin].
    rewrite <- H. apply list_elem_of_filter. rewrite Hi; simpl. split; [done|].
    apply elem_of_seq. apply lookup_lt_Some in Hi. lia.
  - intros H.
    destruct (filter _ _) as [|i l] eqn:E; [done|].
    assert (Hi : i ∈ i :: l) by left. rewrite <- E in Hi.
    apply list_elem_of_filter in Hi as [Hkw Hi].
    apply elem_of_seq in Hi.
    destruct (lookup_lt_is_Some_2 lines i) as [line Hline]; [lia|].
    rewrite Hline in Hkw; simpl in Hkw.
    rewrite Forall_lookup in H. specialize (H _ _ Hline); simpl in H.
    congruence.
Qed.

Lemma context_lines_nil (log : string) :
  context_lines log = [] <-> ~ has_keyword_line log.
Proof.
  unfold context_lines, has_keyword_line.
  set (lines := Py.split_lines log).
  rewrite <- Forall_Exists_neg.
  assert (Hneg : Forall (fun line => ~ has_keyword line = true) lines <->
                 Forall (fun line => has_keyword line = false) lines).
  { split; intros HF; (eapply Forall_impl; [exact HF|]); intros line;
      simpl; destruct (has_keyword line); intuition congruence. }
  rewrite Hneg, <- keyword_indices_nil. split.
  - intros H. destruct (keyword_indices lines) as [|i l] eqn:E; [done|].
    exfalso.
    assert (Hi : i ∈ keyword_indices lines) by (rewrite E; left).
    unfold keyword_indices in Hi.
    apply list_elem_of_filter in Hi as [_ Hi]. apply elem_of_seq in Hi.
    destruct (lookup_lt_is_Some_2 lines i) as [line Hline]; [lia|].
    apply window_self in Hline.
    simpl in H. apply app_eq_nil in H as [H _]. rewrite H in Hline.
    by apply not_elem_of_nil in Hline.
  - by intros ->.
Qed.

(** There are error lines exactly when some line has a keyword. *)
Lemma extract_error_lines_nil (log : string) :
  _extract_error_lines log = [] <-> ~ has_keyword_line log.
Proof. rewrite extract_error_lines_spec. apply context_lines_nil. Qed.

Lemma analyze_no_error_lines (log : string) :
  ~ has_keyword_line log -> analyze log = inr no_error_lines.
Proof.
  intros H. apply extract_error_lines_nil in H.
  unfold analyze. by rewrite H.
Qed.

(** *** The pattern table *)

Lemma scan_patterns_first_match (failure_type : FailureType)
    (patterns : list regex) (log : string) (result : Diagnosis) :
  scan_patterns failure_type patterns log result =
  (fun '(t, m) => on_match t m result) <$>
    first_match (pair failure_type <$> patterns) log.
Proof.
  induction patterns as [|p ps IH]; simpl; [done|].
  destruct (search p log); [done | exact IH].
Qed.

Lemma first_match_app (es1 es2 : list (FailureType * regex)) (log : string) :
  first_match (es1 ++ es2) log =
  match first_match es1 log with
  | Some x => Some x
  | None => first_match es2 log
  end.
Proof.
  induction es1 as [|[t p] es1 IH]; simpl; [done|].
  destruct (search p log); [done | exact IH].
Qed.

(** The two nested loops visit the entries in declared order. *)
Lemma scan_table_first_match (table : list (FailureType * list regex))
    (log : string) (result : Diagnosis) :
  scan_table table log result =
  (fun '(t, m) => on_match t m result) <$>
    first_match ('(t, ps) ← table; pair t <$> ps) log.
Proof.
  induction table as [|[t ps] table IH]; simpl; [done|].
  rewrite first_match_app, scan_patterns_first_match.
  destruct (first_match (pair t <$> ps) log) as [[t' m]|]; [done | exact IH].
Qed.

Lemma first_match_split (es before after : list (FailureType * regex))
    (t : FailureType) (p : regex) (log : string) (m : Match) :
  es = before ++ (t, p) :: after ->
  Forall (fun e => ~ pattern_matches log e) before ->
  search p log = Some m ->
  first_match es log = Some (t, m).
Proof.
  intros -> Hbefore Hp. induction Hbefore as [|[t' p'] before Hno _ IH]; simpl.
  - by rewrite Hp.
  - destruct (search p' log) as [m'|] eqn:E; [|exact IH].
    exfalso. apply Hno. unfold pattern_matches; simpl. by rewrite E.
Qed.

Lemma first_match_None (es : list (FailureType * regex)) (log : string) :
  first_match es log = None <-> Forall (fun e => ~ pattern_matches log e) es.
Proof.
  induction es as [|[t p] es IH]; simpl.
  - split; [constructor | done].
  - rewrite Forall_cons. unfold pattern_matches at 1; simpl.
    destruct (search p log) as [m|].
    + split; [done | intros [H _]; destruct H; eauto].
    + rewrite IH. split; [|tauto]. intros H; split; [|done].
      by intros [? ?].
Qed.

Lemma first_match_Some (es : list (FailureType * regex)) (log : string)
    (t : FailureType) (m : Match) :
  first_match es log = Some (t, m) ->
  exists p, (t, p) ∈ es /\ search p log = Some m.
Proof.
  induction es as [|[t' p'] es IH]; simpl; [done|].
  destruct (search p' log) as [m'|] eqn:E.
  - intros [= -> ->]. exists p'; split; [left | done].
  - intros H. destruct (IH H) as (p & Hin & Hp).
    exists p; split; [by right | done].
Qed.

(** Every pattern of the table takes at least one character, and those
    of [MODULE_NOT_FOUND] and [BROKEN_PATH] have a group. *)
Lemma entries_shape :
  Forall (fun e => 0 < min_len e.2 /\
                   (e.1 = MODULE_NOT_FOUND \/ e.1 = BROKEN_PATH ->
                    0 < ngroups e.2)) entries.
Proof.
  repeat constructor; simpl; try lia; intros [?|?]; discriminate.
Qed.

(** On a match of a table entry, [analyze] returns a diagnosis of the
    entry's category with the matched text and confidence [0.9]. *)
Lemma on_match_entry (t : FailureType) (p : regex) (log : string) (m : Match)
    (result : Diagnosis) :
  (t, p) ∈ entries -> search p log = Some m ->
  group0 m <> EmptyString /\
  exists det, on_match t m result =
    inr (mkDiagnosis t (group0 m) det 0.9%float (log_snippet result)).
Proof.
  intros Hin Hm.
  pose proof entries_shape as Hshape. rewrite Forall_forall in Hshape.
  destruct (Hshape _ Hin) as [Hlen Hgrp]; simpl in *.
  destruct (search_inv _ _ _ Hm) as [Hmin _]. split.
  - intros E. rewrite E in Hmin. simpl in Hmin. lia.
  - unfold on_match. destruct t; try (eexists; reflexivity).
    + destruct (search_group1 _ _ _ Hm) as [g ->]; [auto|]. eauto.
    + destruct (groups m); eauto.
    + destruct (search_group1 _ _ _ Hm) as [g ->]; [auto|]. eauto.
Qed.

(** [analyze] on a log that has a keyword line. *)
Lemma analyze_with_keyword (log : string) :
  has_keyword_line log ->
  let result :=
    mkDiagnosis UNKNOWN EmptyString ∅ 0.0%float
      (Py.join_lines (take 10 (context_lines log))) in
  analyze log =
  match first_match entries log with
  | Some (t, m) => on_match t m result
  | None =>
      inr (mkDiagnosis UNKNOWN EmptyString ∅ 0.3%float (log_snippet result))
  end.
Proof.
  intros Hkw result. unfold analyze.
  destruct (_extract_error_lines log) as [|l ls] eqn:E.
  - apply extract_error_lines_nil in E. contradiction.
  - rewrite scan_table_first_match. fold entries.
    rewrite <- E, extract_error_lines_spec.
    generalize (first_match entries log). by intros [[t m]|].
Qed.

(** [analyze] never raises. *)
Lemma analyze_total (log : string) : exists d, analyze log = inr d.
Proof.
  destruct (decide (has_keyword_line log)) as [Hkw|Hkw].
  - rewrite (analyze_with_keyword _ Hkw).
    destruct (first_match entries log) as [[t m]|] eqn:E; [|eauto].
    destruct (first_match_Some _ _ _ _ E) as (p & Hin & Hm).
    destruct (on_match_entry t p log m
                (mkDiagnosis UNKNOWN EmptyString ∅ 0.0%float
                   (Py.join_lines (take 10 (context_lines log)))) Hin Hm)
      as [_ [det ->]].
    eauto.
  - rewrite (analyze_no_error_lines _ Hkw). eauto.
Qed.

(** C5. A log in which no line contains one of the keywords (in any letter
    case) is diagnosed as [UNKNOWN] with confidence [0.0], an empty error
    message, empty details and an empty log snippet. *)
Theorem analyze_without_keyword (log : string) :
  ~ has_keyword_line log ->
  analyze log = inr (mkDiagnosis UNKNOWN EmptyString ∅ 0.0%float EmptyString).
Proof. apply analyze_no_error_lines. Qed.

Lemma analyze_without_keyword_witness :
  ~ has_keyword_line "Build finished
All tests PASSED" /\
  analyze "Build finished
All tests PASSED" =
    inr (mkDiagnosis UNKNOWN EmptyString ∅ 0.0%float EmptyString).
Proof.
  assert (H : ~ has_keyword_line "Build finished
All tests PASSED").
  { apply (bool_decide_unpack _). vm_compute. reflexivity. }
  split; [exact H | exact (analyze_without_keyword _ H)].
Defined.

(** C1 (amended). For every log text that has a keyword line: when the
    patterns of one or more table entries match, [analyze] returns the
    category of the entry that comes first in the fixed table order
    (categories in the order ModuleNotFound, ImportError, MissingDependency,
    BrokenPath, SyntaxError, and within a category the first listed
    pattern), with that pattern's matched text as error message and
    confidence 0.9, wherever in the log the patterns match. *)
Theorem first_matching_entry_wins (log : string)
    (before after : list (FailureType * regex))
    (failure_type : FailureType) (pattern : regex) (m : Match) :
  has_keyword_line log ->
  entries = before ++ (failure_type, pattern) :: after ->
  Forall (fun e => ~ pattern_matches log e) before ->
  search pattern log = Some m ->
  exists d, analyze log = inr d /\
    Analyzer.failure_type d = failure_type /\
    error_message d = group0 m /\
    confidence d = 0.9%float.
Proof.
  intros Hkw Hsplit Hbefore Hm.
  rewrite (analyze_with_keyword _ Hkw).
  rewrite (first_match_split _ _ _ _ _ _ _ Hsplit Hbefore Hm).
  assert (Hin : (failure_type, pattern) ∈ entries).
  { rewrite Hsplit. apply elem_of_app. right. left. }
  destruct (on_match_entry failure_type pattern log m
              (mkDiagnosis UNKNOWN EmptyString ∅ 0.0%float
                 (Py.join_lines (take 10 (context_lines log)))) Hin Hm)
    as [_ [det ->]].
  eexists; repeat split.
Qed.

(** A [SyntaxError] at the start of the log does not win over a missing
    dependency reported on a later line. *)
Lemma first_matching_entry_wins_witness :
  exists d,
    analyze "SyntaxError: invalid syntax
Could not find a version that satisfies the requirement numpy" = inr d /\
    failure_type d = MISSING_DEPENDENCY /\
    error_message d =
      "Could not find a version that satisfies the requirement numpy" /\
    confidence d = 0.9%float.
Proof.
  apply (first_matching_entry_wins _ (take 6 entries) (drop 7 entries)
           MISSING_DEPENDENCY
           (Cat (Lit "Could not find a version that satisfies the requirement ")
                (Group (Plus NotSpace)))
           (mkMatch
              "Could not find a version that satisfies the requirement numpy"
              ["numpy"])).
  - apply (bool_decide_unpack _). vm_compute. reflexivity.
  - reflexivity.
  - repeat constructor; unfold pattern_matches;
      rewrite <- eq_None_not_Some; vm_compute; reflexivity.
  - vm_compute. reflexivity.
Defined.

(** C1 as stated fails on a log without keyword line: the patterns of two
    categories match, and [analyze] answers [UNKNOWN]. *)
Lemma first_entry_decides_fails :
  let log := "cannot import name 'x'
No matching distribution found for y" in
  pattern_matches log
    (MODULE_NOT_FOUND,
     Cat (Lit "cannot import name '")
         (Cat (Group (Plus (NotChar quote))) (Lit "'"))) /\
  pattern_matches log
    (MISSING_DEPENDENCY,
     Cat (Lit "No matching distribution found for ") (Group (Plus NotSpace))) /\
  analyze log = inr no_error_lines /\
  ~ first_entry_decides log.
Proof.
  intros log.
  assert (Hrun : analyze log = inr no_error_lines) by (vm_compute; reflexivity).
  split; [|split; [|split]].
  - vm_compute. eauto.
  - vm_compute. eauto.
  - exact Hrun.
  - intros H.
    destruct (H (take 2 entries) MODULE_NOT_FOUND
                (Cat (Lit "cannot import name '")
                     (Cat (Group (Plus (NotChar quote))) (Lit "'")))
                (drop 3 entries)
                (mkMatch "cannot import name 'x'" ["x"]))
      as (d & Hd & Ht).
    + reflexivity.
    + repeat constructor; unfold pattern_matches;
        rewrite <- eq_None_not_Some; vm_compute; reflexivity.
    + vm_compute. reflexivity.
    + rewrite Hrun in Hd. injection Hd as <-. discriminate Ht.
Qed.

(** C7. Every log has a diagnosis. If its category is not [UNKNOWN], its
    error message is not empty. The confidence follows the three ways in
    which [analyze] returns: it is 0.9 when a pattern matched (the log has
    a keyword line, so that the patterns are tried, and one of them
    matches), 0.3 when the log has a keyword line and no pattern matches,
    and 0.0 when the log has no keyword line; it lies between 0 and 1. *)
Theorem diagnosis_invariant (log : string) :
  exists d, analyze log = inr d /\
    (failure_type d <> UNKNOWN -> error_message d <> EmptyString) /\
    (has_keyword_line log -> Exists (pattern_matches log) entries ->
       confidence d = 0.9%float) /\
    (has_keyword_line log -> Forall (fun e => ~ pattern_matches log e) entries ->
       confidence d = 0.3%float) /\
    (~ has_keyword_line log -> confidence d = 0.0%float) /\
    PrimFloat.leb 0.0%float (confidence d) = true /\
    PrimFloat.leb (confidence d) 1.0%float = true.
Proof.
  destruct (decide (has_keyword_line log)) as [Hkw|Hkw].
  - rewrite (analyze_with_keyword _ Hkw).
    destruct (first_match entries log) as [[t m]|] eqn:E.
    + destruct (first_match_Some _ _ _ _ E) as (p & Hin & Hm).
      destruct (on_match_entry t p log m
                  (mkDiagnosis UNKNOWN EmptyString ∅ 0.0%float
                     (Py.join_lines (take 10 (context_lines log)))) Hin Hm)
        as [Hne [det ->]].
      eexists; split; [reflexivity|]; simpl.
      repeat split; try done.
      intros _ Hnone. apply first_match_None in Hnone. congruence.
    + apply first_match_None in E.
      eexists; split; [reflexivity|]; simpl.
      repeat split; try done.
      intros _ Hsome. apply Exists_exists in Hsome as (e & Hin & He).
      rewrite Forall_forall in E. by destruct (E e Hin).
  - rewrite (analyze_no_error_lines _ Hkw).
    eexists; split; [reflexivity|]; simpl.
    repeat split; done.
Qed.

(** The scenarios of [test/test_analyzer.py]. *)
Example test_module_not_found :
  exists d, analyze test_module_not_found_log = inr d /\
    failure_type d = MODULE_NOT_FOUND /\
    details d !! "missing_module" = Some "requests" /\
    confidence d = 0.9%float.
Proof. eexists. split; [vm_compute; reflexivity|]. by repeat split. Qed.

Example test_broken_path :
  exists d, analyze test_broken_path_log = inr d /\
    failure_type d = BROKEN_PATH /\
    details d !! "missing_path" = Some "config/settings.json".
Proof. eexists. split; [vm_compute; reflexivity|]. by repeat split. Qed.

(** *** The log snippet *)

Lemma split_lines_no_newline (s : string) :
  Forall no_newline (Py.split_lines s).
Proof.
  induction s as [|c s IH]; simpl.
  - by repeat constructor.
  - destruct (Ascii.eqb_spec c Py.newline) as [->|Hc].
    + by constructor.
    + destruct (Py.split_lines s) as [|l ls]; [by repeat constructor|].
      apply Forall_cons in IH as [Hl Hls]. by repeat constructor.
Qed.

Lemma split_lines_line (l : string) :
  no_newline l -> Py.split_lines l = [l].
Proof.
  induction l as [|c l IH]; simpl; [done|]. intros [Hc Hl].
  apply Ascii.eqb_neq in Hc. by rewrite Hc, IH.
Qed.

Lemma split_lines_append (l rest : string) :
  no_newline l ->
  Py.split_lines (l +:+ String Py.newline rest) = l :: Py.split_lines rest.
Proof.
  induction l as [|c l IH]; simpl.
  - done.
  - intros [Hc Hl]. apply Ascii.eqb_neq in Hc. by rewrite Hc, IH.
Qed.

(** Splitting what [join] made gives the lines back. *)
Lemma split_join_lines (ls : list string) :
  ls <> [] -> Forall no_newline ls ->
  Py.split_lines (Py.join_lines ls) = ls.
Proof.
  induction ls as [|l ls IH]; [done|]. intros _ Hall.
  apply Forall_cons in Hall as [Hl Hls].
  destruct ls as [|l' ls].
  - by apply split_lines_line.
  - change (Py.join_lines (l :: l' :: ls))
      with (l +:+ String Py.newline (Py.join_lines (l' :: ls))).
    rewrite split_lines_append by done. by rewrite IH.
Qed.

Lemma window_subset (lines : list string) (i : nat) (line : string) :
  line ∈ window lines i -> line ∈ lines.
Proof.
  unfold window. intros H.
  apply list_elem_of_fmap in H as ([j l] & -> & H).
  apply list_elem_of_filter in H as [_ H].
  apply list_elem_of_lookup in H as [k H].
  apply lookup_zip_with_Some in H as (? & ? & [= <- <-] & _ & H).
  by eapply list_elem_of_lookup_2.
Qed.

Lemma context_lines_no_newline (log : string) :
  Forall no_newline (context_lines log).
Proof.
  apply Forall_forall. intros line Hin. unfold context_lines in Hin.
  apply list_elem_of_bind in Hin as (i & Hin & _).
  apply window_subset in Hin.
  pose proof (split_lines_no_newline log) as H.
  rewrite Forall_forall in H. by apply H.
Qed.

Lemma analyze_log_snippet (log : string) :
  exists d, analyze log = inr d /\
    log_snippet d = Py.join_lines (take 10 (context_lines log)).
Proof.
  destruct (decide (has_keyword_line log)) as [Hkw|Hkw].
  - rewrite (analyze_with_keyword _ Hkw).
    destruct (first_match entries log) as [[t m]|] eqn:E; [|eauto].
    destruct (first_match_Some _ _ _ _ E) as (p & Hin & Hm).
    destruct (on_match_entry t p log m
                (mkDiagnosis UNKNOWN EmptyString ∅ 0.0%float
                   (Py.join_lines (take 10 (context_lines log)))) Hin Hm)
      as [_ [det ->]].
    eauto.
  - rewrite (analyze_no_error_lines _ Hkw).
    apply context_lines_nil in Hkw. rewrite Hkw. eauto.
Qed.

(** C6. The log snippet is the first 10 lines of the windows
    [[i - 2, i + 6)], clipped to the log, around every keyword line [i],
    taken in line order and without removing repeated lines; when these
    windows hold exactly 11 lines, the snippet has exactly 10 lines. *)
Theorem log_snippet_first_ten (log : string) :
  exists d, analyze log = inr d /\
    log_snippet d = Py.join_lines (take 10 (context_lines log)) /\
    (length (context_lines log) = 11 ->
     length (Py.split_lines (log_snippet d)) = 10).
Proof.
  destruct (analyze_log_snippet log) as (d & Hd & Hsnip).
  exists d; repeat split; [done..|]. intros Hlen.
  rewrite Hsnip, split_join_lines.
  - rewrite length_take. lia.
  - intros E. apply (f_equal length) in E.
    rewrite length_take, Hlen in E. discriminate E.
  - apply Forall_take, context_lines_no_newline.
Qed.

(** Keyword lines at indices 0 and 7 of a log of 10 lines: windows of 6 and
    5 lines, line 5 occurring in both. *)
Lemma log_snippet_first_ten_witness :
  let log := "error: step one
a
b
c
d
e
f
build failed
g
h" in
  length (context_lines log) = 11 /\
  exists d, analyze log = inr d /\
    log_snippet d = "error: step one
a
b
c
d
e
e
f
build failed
g" /\
    length (Py.split_lines (log_snippet d)) = 10.
Proof.
  intros log.
  assert (Hlen : length (context_lines log) = 11) by (vm_compute; reflexivity).
  split; [exact Hlen|].
  destruct (log_snippet_first_ten log) as (d & Hd & Hsnip & Hten).
  exists d; repeat split; [exact Hd | | exact (Hten Hlen)].
  rewrite Hsnip. vm_compute. reflexivity.
Defined.

End AnalyzerFacts.

(** ** Running programs *)
Module RunFacts.

Import Run.

Lemma run_bind {A B : Type} (w : env) (p : prog A) (f : A -> prog B) :
  run w (p ≫= f) =
  match run w p with
  | (calls, inl e) => (calls, inl e)
  | (calls, inr a) => let (calls', outcome) := run w (f a) in
                      (calls ++ calls', outcome)
  end.
Proof.
  induction p as [a|e|c k IH]; simpl.
  - by destruct (run w (f a)).
  - done.
  - destruct (w c) as [e|x]; [done|].
    change (bind f (k x)) with (k x ≫= f). rewrite IH.
    destruct (run w (k x)) as [calls [e|a]]; [done|].
    by destruct (run w (f a)).
Qed.

Lemma run_await (w : env) (c : call) : run w (await c) = ([c], w c).
Proof. simpl. by destruct (w c). Qed.

Lemma run_try {A : Type} (w : env) (r : Py.exn + A) :
  run w (try r) = ([], r).
Proof. by destruct r. Qed.

End RunFacts.

(** ** The fix generator *)
Module FixGeneratorFacts.

Import Analyzer Run FixGenerator Design RunFacts.

(** A branch that calls the completion service makes that one call and
    returns what [json.loads] makes of the answer. *)
Lemma generate_fix_completion (json_loads : string -> option Py.value)
    (model : string) (w : env) (failure_type : FailureType)
    (error_details : gmap string string) (file_content file_path text : string) :
  failure_type <> MISSING_DEPENDENCY ->
  completes_with w text ->
  exists c, is_completion_call c = true /\
    run w (generate_fix json_loads model failure_type error_details
             file_content file_path)
    = ([c], from_option inr (inl Py.JSONDecodeError) (json_loads text)).
Proof.
  intros Hft Hw.
  destruct failure_type; try done; simpl;
    rewrite Hw; unfold loads; destruct (json_loads text); simpl;
    eexists; (split; [|reflexivity]); reflexivity.
Qed.

(** C2 (amended). On the ModuleNotFound, BrokenPath and generic branches,
    for every response text of the completion service, [generate_fix] makes
    one completion call and returns [json.loads] of the text as it is,
    whatever its shape; a text that is not JSON makes it raise the
    [JSONDecodeError] of [json.loads]. It never raises
    MalformedResponseError. *)
Theorem generate_fix_returns_parsed_response
    (json_loads : string -> option Py.value)
    (model : string) (w : env) (failure_type : FailureType)
    (error_details : gmap string string) (file_content file_path text : string) :
  failure_type <> MISSING_DEPENDENCY ->
  completes_with w text ->
  let outcome := run w (generate_fix json_loads model failure_type
                          error_details file_content file_path) in
  (exists c, is_completion_call c = true /\ outcome.1 = [c]) /\
  (forall v, json_loads text = Some v -> outcome.2 = inr v) /\
  (json_loads text = None -> outcome.2 = inl Py.JSONDecodeError) /\
  outcome.2 <> inl Py.MalformedResponseError.
Proof.
  intros Hft Hw outcome.
  destruct (generate_fix_completion json_loads model w failure_type
              error_details file_content file_path text Hft Hw)
    as (c & Hc & Hrun).
  subst outcome. rewrite Hrun. simpl. split; [eauto|].
  destruct (json_loads text) as [v|]; simpl; repeat split; try done.
  by intros v' [= ->].
Qed.

(** The completion service answers with an empty JSON object: it is
    returned as the fix. *)
Lemma generate_fix_returns_parsed_response_witness :
  let w : env := fun c =>
    match c with
    | client_chat_completions_create _ _ _ => inr "{}"
    | _ => inl (Py.Failure "unreachable")
    end in
  (run w (generate_fix json_loads_empty_object "gpt-4-turbo-preview"
            SYNTAX_ERROR ∅ "x = (" "app.py")).2 = inr (Py.PDict []).
Proof.
  intros w.
  assert (Hw : completes_with w "{}") by (intros ???; reflexivity).
  destruct (generate_fix_returns_parsed_response json_loads_empty_object
              "gpt-4-turbo-preview" w SYNTAX_ERROR ∅ "x = (" "app.py" "{}"
              ltac:(discriminate) Hw) as (_ & Hv & _).
  apply Hv. reflexivity.
Defined.

(** C2 as stated fails: the empty JSON object is no FixProposal, and
    [generate_fix] returns it without raising. *)
Lemma malformed_response_is_rejected_fails :
  ~ malformed_response_is_rejected.
Proof.
  intros H.
  set (w := (fun c =>
    match c with
    | client_chat_completions_create _ _ _ => inr "{}"
    | _ => inl (Py.Failure "unreachable")
    end) : env).
  assert (Hw : completes_with w "{}") by (intros ???; reflexivity).
  assert (Hshape : forall v, json_loads_empty_object "{}" = Some v ->
                             well_formed_proposal v = false)
    by (intros v [= <-]; reflexivity).
  pose proof (H json_loads_empty_object "gpt-4-turbo-preview" w SYNTAX_ERROR
                ∅ "x = (" "app.py" "{}" ltac:(discriminate) Hw Hshape)
    as Hrun.
  vm_compute in Hrun. discriminate Hrun.
Qed.

(** C3. For a MissingDependency diagnosis whose details give
    [package_name = p], [generate_fix] makes no call at all (so none to the
    completion service) and returns, whatever the environment, the proposal
    with fix type [add_dependency], exactly one change, an [insert] into
    [requirements.txt] at the sentinel line number -1 with new content [p]
    followed by a line break, and confidence 0.85. *)
Theorem missing_dependency_fix (json_loads : string -> option Py.value)
    (model : string) (w : env) (error_details : gmap string string)
    (file_content file_path p : string) :
  error_details !! "package_name" = Some p ->
  exists v change,
    run w (generate_fix json_loads model MISSING_DEPENDENCY error_details
             file_content file_path) = ([], inr v) /\
    Py.getitem v "fix_type" = inr (Py.PStr "add_dependency") /\
    Py.getitem v "changes" = inr (Py.PList [change]) /\
    Py.getitem change "file" = inr (Py.PStr "requirements.txt") /\
    Py.getitem change "action" = inr (Py.PStr "insert") /\
    Py.getitem change "line_number" = inr (Py.PInt (-1)) /\
    Py.getitem change "new_content" =
      inr (Py.PStr (p +:+ String Py.newline EmptyString)) /\
    Py.getitem v "confidence" = inr (Py.PFloat 0.85%float).
Proof.
  intros Hp. simpl. unfold _fix_missing_dependency. rewrite Hp. simpl.
  eexists _, _. repeat split.
Qed.

(** The fix generator's own test: [package_name = numpy]. *)
Lemma missing_dependency_fix_witness :
  exists v change,
    run unreachable
      (generate_fix json_loads_empty_object "gpt-4-turbo-preview"
         MISSING_DEPENDENCY {["package_name" := "numpy"]} EmptyString
         "requirements.txt") = ([], inr v) /\
    Py.getitem v "fix_type" = inr (Py.PStr "add_dependency") /\
    Py.getitem v "changes" = inr (Py.PList [change]) /\
    Py.getitem change "file" = inr (Py.PStr "requirements.txt") /\
    Py.getitem change "action" = inr (Py.PStr "insert") /\
    Py.getitem change "line_number" = inr (Py.PInt (-1)) /\
    Py.getitem change "new_content" =
      inr (Py.PStr ("numpy" +:+ String Py.newline EmptyString)) /\
    Py.getitem v "confidence" = inr (Py.PFloat 0.85%float).
Proof.
  apply (missing_dependency_fix json_loads_empty_object "gpt-4-turbo-preview"
           unreachable {["package_name" := "numpy"]} EmptyString
           "requirements.txt" "numpy").
  reflexivity.
Defined.

(** C10. For a MissingDependency diagnosis whose details have no
    [package_name] (the one the pattern without group,
    [error: externally-managed-environment], produces), [generate_fix]
    still returns without calling the completion service: an
    [add_dependency] proposal whose single [insert] change has a bare line
    break as new content (the package name is empty), with confidence
    0.85. *)
Theorem missing_dependency_fix_without_package
    (json_loads : string -> option Py.value)
    (model : string) (w : env) (error_details : gmap string string)
    (file_content file_path : string) :
  error_details !! "package_name" = None ->
  exists v change,
    run w (generate_fix json_loads model MISSING_DEPENDENCY error_details
             file_content file_path) = ([], inr v) /\
    Py.getitem v "fix_type" = inr (Py.PStr "add_dependency") /\
    Py.getitem v "changes" = inr (Py.PList [change]) /\
    Py.getitem change "file" = inr (Py.PStr "requirements.txt") /\
    Py.getitem change "action" = inr (Py.PStr "insert") /\
    Py.getitem change "line_number" = inr (Py.PInt (-1)) /\
    Py.getitem change "new_content" =
      inr (Py.PStr (String Py.newline EmptyString)) /\
    Py.getitem v "confidence" = inr (Py.PFloat 0.85%float).
Proof.
  intros Hp. simpl. unfold _fix_missing_dependency. rewrite Hp. simpl.
  eexists _, _. repeat split.
Qed.

(** The diagnosis of [error: externally-managed-environment] has empty
    details, and its fix inserts an empty line. *)
Lemma missing_dependency_fix_without_package_witness :
  exists d,
    analyze "error: externally-managed-environment" = inr d /\
    failure_type d = MISSING_DEPENDENCY /\
    details d !! "package_name" = None /\
    exists v change,
      run unreachable
        (generate_fix json_loads_empty_object "gpt-4-turbo-preview"
           (failure_type d) (details d) EmptyString "requirements.txt")
      = ([], inr v) /\
      Py.getitem v "fix_type" = inr (Py.PStr "add_dependency") /\
      Py.getitem v "changes" = inr (Py.PList [change]) /\
      Py.getitem change "file" = inr (Py.PStr "requirements.txt") /\
      Py.getitem change "action" = inr (Py.PStr "insert") /\
      Py.getitem change "line_number" = inr (Py.PInt (-1)) /\
      Py.getitem change "new_content" =
        inr (Py.PStr (String Py.newline EmptyString)) /\
      Py.getitem v "confidence" = inr (Py.PFloat 0.85%float).
Proof.
  exists (mkDiagnosis MISSING_DEPENDENCY
            "error: externally-managed-environment" ∅ 0.9%float
            "error: externally-managed-environment").
  split; [vm_compute; reflexivity|].
  split; [reflexivity|]. split; [reflexivity|].
  apply (missing_dependency_fix_without_package json_loads_empty_object
           "gpt-4-turbo-preview" unreachable ∅ EmptyString
           "requirements.txt").
  reflexivity.
Defined.

End FixGeneratorFacts.

(** ** The orchestrator *)
Module OrchestratorFacts.

Import Re Analyzer Run Orchestrator Design RunFacts ReFacts.

Section Pipeline.

Variable format_percent : Py.value -> Py.exn + string.
Variable _format_fix_comment :
  Diagnosis -> Py.value -> string -> Py.exn + string.
Variable self : DietCodeAgent.
Variable w : env.
Variables (owner repo : string) (pr_number : Z).

Local Abbreviation process :=
  (process_pr_failure format_percent _format_fix_comment self
     owner repo pr_number).
Local Abbreviation diagnosed := (Design.diagnosed w owner repo pr_number).
Local Abbreviation calls_until_diagnosis :=
  (Design.calls_until_diagnosis owner repo pr_number).
Local Abbreviation location_calls :=
  (Design.location_calls owner repo pr_number).
Local Abbreviation locate := (_locate_affected_file owner repo pr_number).

(** One step of a run: the call at the head of the program is answered as
    the hypothesis [H] says. *)
Ltac answered H :=
  cbn [run bind mbind prog_bind await try key]; rewrite H;
  cbn [run bind mbind prog_bind await try key].

Lemma process_no_failed_checks (pr_info : PRInfo) (check_runs : list CheckRun) :
  w (github_get_pr_info owner repo pr_number) = inr pr_info ->
  w (github_get_pr_checks owner repo pr_number) = inr check_runs ->
  filter (fun c => conclusion c = Some "failure") check_runs = [] ->
  run w process =
    ([ github_get_pr_info owner repo pr_number;
       github_get_pr_checks owner repo pr_number ],
     inr (no_failures "No failed CI checks found")).
Proof.
  intros Hinfo Hchecks Hnone. unfold process_pr_failure.
  answered Hinfo. answered Hchecks.
  rewrite Hnone. reflexivity.
Qed.

Lemma process_low_confidence (check_id : Z) (logs : string)
    (diagnosis : Diagnosis) :
  diagnosed check_id logs diagnosis ->
  PrimFloat.ltb (confidence diagnosis) (confidence_threshold self) = true ->
  run w process =
    (calls_until_diagnosis check_id logs,
     inr (low_confidence diagnosis
            "Unable to confidently diagnose the failure")).
Proof.
  intros (pr_info & check_runs & check & rest & check_name & Hinfo & Hchecks
          & Hfailed & Hid & Hname & Hlogs & Hdiag) Hlow.
  unfold process_pr_failure.
  answered Hinfo. answered Hchecks. rewrite Hfailed.
  answered Hid. answered Hname. answered Hlogs. answered Hdiag.
  rewrite Hlow. reflexivity.
Qed.

Lemma process_file_not_found (check_id : Z) (logs : string)
    (diagnosis : Diagnosis) (calls : list call) :
  diagnosed check_id logs diagnosis ->
  PrimFloat.ltb (confidence diagnosis) (confidence_threshold self) = false ->
  run w (locate diagnosis) = (calls, inr None) ->
  run w process =
    (calls_until_diagnosis check_id logs ++ calls,
     inr (file_not_found diagnosis "Could not locate the affected file")).
Proof.
  intros (pr_info & check_runs & check & rest & check_name & Hinfo & Hchecks
          & Hfailed & Hid & Hname & Hlogs & Hdiag) Hhigh Hlocate.
  unfold process_pr_failure.
  answered Hinfo. answered Hchecks. rewrite Hfailed.
  answered Hid. answered Hname. answered Hlogs. answered Hdiag.
  rewrite Hhigh. rewrite run_bind, Hlocate.
  cbn [run]. rewrite app_nil_r. reflexivity.
Qed.

Lemma filter_failure_nil (check_runs : list CheckRun) :
  Forall (fun c => conclusion c <> Some "failure") check_runs ->
  filter (fun c => conclusion c = Some "failure") check_runs = [].
Proof.
  induction 1 as [|c cs Hc _ IH]; [done|].
  by rewrite filter_cons_False.
Qed.

Lemma lstrip_plain (chars : list ascii) (path : string) :
  match path with
  | String c _ => c ∉ chars
  | EmptyString => True
  end ->
  Py.lstrip chars path = path.
Proof.
  destruct path as [|c path]; simpl; [done|]. intros Hc.
  by rewrite bool_decide_eq_false_2.
Qed.

(** [lstrip('./')] takes a set of characters, not a prefix. *)
Example lstrip_parent_directory :
  Py.lstrip ["."%char; "/"%char] "../pkg/app.py" = "pkg/app.py".
Proof. reflexivity. Qed.

Lemma lstrip_dot_slash (prefix path : string) :
  prefix = EmptyString \/ prefix = "./" -> plain_start path ->
  Py.lstrip ["."%char; "/"%char] (prefix +:+ path) = path.
Proof.
  intros Hprefix Hplain.
  assert (Hpath : Py.lstrip ["."%char; "/"%char] path = path).
  { apply lstrip_plain. destruct path as [|c path]; [done|].
    destruct Hplain as [Hdot Hslash].
    rewrite !not_elem_of_cons. repeat split; [done..|apply not_elem_of_nil]. }
  by destruct Hprefix as [-> | ->].
Qed.

Lemma locate_in_stack_trace_found (diagnosis : Diagnosis) (m : Match)
    (captured : string) :
  search file_pattern (log_snippet diagnosis) = Some m ->
  group1 m = Some captured ->
  run w (locate_in_stack_trace diagnosis) =
    ([], inr (Some (Py.lstrip ["."%char; "/"%char] captured))).
Proof.
  intros Hm Hg. unfold locate_in_stack_trace. by rewrite Hm, Hg.
Qed.

Lemma locate_in_stack_trace_none (diagnosis : Diagnosis) :
  search file_pattern (log_snippet diagnosis) = None ->
  run w (locate_in_stack_trace diagnosis) = ([], inr None).
Proof. intros Hm. unfold locate_in_stack_trace. by rewrite Hm. Qed.

(** File location when the diff has no header of a Python file, or is not
    consulted: the stack trace decides. *)
Lemma locate_falls_through (diagnosis : Diagnosis) (diff : string) :
  (is_Some (details diagnosis !! "missing_module") ->
   w (github_get_pr_diff owner repo pr_number) = inr diff) ->
  diff_match diagnosis diff = None ->
  run w (locate diagnosis) =
    let (calls, outcome) := run w (locate_in_stack_trace diagnosis) in
    (location_calls diagnosis ++ calls, outcome).
Proof.
  unfold diff_match, Design.location_calls, _locate_affected_file.
  intros Hdiff Hnone. case_bool_decide as Hmm.
  - answered (Hdiff Hmm).
    pose proof (findall_head diff_pattern diff) as Hhead.
    rewrite Hnone in Hhead.
    destruct (findall diff_pattern diff) as [|file files]; [|done].
    by destruct (run w (locate_in_stack_trace diagnosis)).
  - by destruct (run w (locate_in_stack_trace diagnosis)).
Qed.

Lemma locate_in_diff (diagnosis : Diagnosis) (diff : string) (m : Match) :
  (is_Some (details diagnosis !! "missing_module") ->
   w (github_get_pr_diff owner repo pr_number) = inr diff) ->
  diff_match diagnosis diff = Some m ->
  exists path, group1 m = Some path /\
    run w (locate diagnosis) = (location_calls diagnosis, inr (Some path)).
Proof.
  unfold diff_match, Design.location_calls, _locate_affected_file.
  intros Hdiff Hm. case_bool_decide as Hmm; [|done].
  destruct (search_group1 _ _ _ Hm) as [path Hpath]; [simpl; lia|].
  exists path; split; [done|].
  answered (Hdiff Hmm).
  pose proof (findall_head diff_pattern diff) as Hhead.
  rewrite Hm in Hhead. simpl in Hhead. rewrite Hpath in Hhead.
  destruct (findall diff_pattern diff) as [|file files]; [done|].
  simpl in Hhead. injection Hhead as ->. reflexivity.
Qed.

(** C9. When the source-control service reports no check with conclusion
    [failure], the run ends with the outcome [no_failures] and its message
    after two calls, the pull request and its checks: the analyzer is not
    invoked and no logs, diff or file are fetched, no completion is
    requested and no comment is posted. *)
Theorem no_failed_checks_stops (pr_info : PRInfo)
    (check_runs : list CheckRun) :
  w (github_get_pr_info owner repo pr_number) = inr pr_info ->
  w (github_get_pr_checks owner repo pr_number) = inr check_runs ->
  Forall (fun c => conclusion c <> Some "failure") check_runs ->
  run w process =
    ([ github_get_pr_info owner repo pr_number;
       github_get_pr_checks owner repo pr_number ],
     inr (no_failures "No failed CI checks found")).
Proof.
  intros Hinfo Hchecks Hnone.
  by apply (process_no_failed_checks pr_info check_runs), filter_failure_nil.
Qed.

(** C4. When the confidence of the diagnosis is strictly below the
    configured threshold, the run ends with the outcome [low_confidence]
    carrying that diagnosis, after the four calls that lead to the
    diagnosis: the fix generator is not invoked, and no diff or file is
    fetched and no comment posted. *)
Theorem low_confidence_stops (check_id : Z) (logs : string)
    (diagnosis : Diagnosis) :
  diagnosed check_id logs diagnosis ->
  PrimFloat.ltb (confidence diagnosis) (confidence_threshold self) = true ->
  run w process =
    (calls_until_diagnosis check_id logs,
     inr (low_confidence diagnosis
            "Unable to confidently diagnose the failure")).
Proof. apply process_low_confidence. Qed.

(** C8 (amended). For every run that reaches file location (the diff being
    fetched when the details name a missing module):
    - if the details contain [missing_module] and the diff has a header
      [+++ b/<path>.py], the located file is the path of the first one;
    - otherwise (also when the diff has no such header) the first reference
      [File Q<path>.pyQ] (Q the double quote) of the log snippet gives
      the located file, a reference whose path does not end in [.py] being
      passed over: the path itself when it starts with neither a dot nor a
      slash, and the rest of it when it starts with [./] followed by
      neither;
    - if neither yields a path, the run ends with the outcome
      [file_not_found] carrying the diagnosis. *)
Theorem file_location (check_id : Z) (logs diff : string)
    (diagnosis : Diagnosis) :
  diagnosed check_id logs diagnosis ->
  PrimFloat.ltb (confidence diagnosis) (confidence_threshold self) = false ->
  (is_Some (details diagnosis !! "missing_module") ->
   w (github_get_pr_diff owner repo pr_number) = inr diff) ->
  (forall m, diff_match diagnosis diff = Some m ->
     exists path, group1 m = Some path /\
       run w (locate diagnosis) =
         (location_calls diagnosis, inr (Some path))) /\
  (forall m prefix path,
     diff_match diagnosis diff = None ->
     search file_pattern (log_snippet diagnosis) = Some m ->
     group1 m = Some (prefix +:+ path) ->
     prefix = EmptyString \/ prefix = "./" -> plain_start path ->
     run w (locate diagnosis) =
       (location_calls diagnosis, inr (Some path))) /\
  (diff_match diagnosis diff = None ->
   search file_pattern (log_snippet diagnosis) = None ->
   run w (locate diagnosis) = (location_calls diagnosis, inr None) /\
   run w process =
     (calls_until_diagnosis check_id logs ++ location_calls diagnosis,
      inr (file_not_found diagnosis "Could not locate the affected file"))).
Proof.
  intros Hdiag Hhigh Hdiff. split; [|split].
  - intros m Hm. by apply (locate_in_diff diagnosis diff).
  - intros m prefix path Hnone Hm Hg Hprefix Hplain.
    rewrite (locate_falls_through diagnosis diff Hdiff Hnone).
    rewrite (locate_in_stack_trace_found diagnosis m _ Hm Hg).
    by rewrite app_nil_r, lstrip_dot_slash.
  - intros Hnone Hm.
    assert (Hlocate : run w (locate diagnosis)
                      = (location_calls diagnosis, inr None)).
    { rewrite (locate_falls_through diagnosis diff Hdiff Hnone).
      rewrite (locate_in_stack_trace_none diagnosis Hm).
      by rewrite app_nil_r. }
    split; [exact Hlocate|].
    by apply process_file_not_found.
Qed.

End Pipeline.

(** All checks of the pull request passed. *)
Lemma no_failed_checks_stops_witness :
  run passed_checks_env
    (process_pr_failure no_percent no_comment (__init__ None None)
       "octocat" "Hello-World" 123)
  = ([ github_get_pr_info "octocat" "Hello-World" 123;
       github_get_pr_checks "octocat" "Hello-World" 123 ],
     inr (no_failures "No failed CI checks found")).
Proof.
  apply (no_failed_checks_stops no_percent no_comment (__init__ None None)
           passed_checks_env "octocat" "Hello-World" 123
           (mkPRInfo (Some "Add API client")
              (Some (mkHead (Some "feature/api-client"))))
           [ mkCheckRun (Some 1%Z) (Some "lint") (Some "success");
             mkCheckRun (Some 7%Z) (Some "tests") (Some "success");
             mkCheckRun (Some 9%Z) (Some "docs") None ]).
  - reflexivity.
  - reflexivity.
  - repeat constructor; discriminate.
Defined.

Lemma failed_check_diagnosed (logs : string) (diagnosis : Diagnosis) :
  analyze logs = inr diagnosis ->
  diagnosed (failed_check_env logs) "octocat" "Hello-World" 123 7 logs
    diagnosis.
Proof.
  intros Hd.
  exists (mkPRInfo (Some "Add API client")
            (Some (mkHead (Some "feature/api-client")))),
         [ mkCheckRun (Some 1%Z) (Some "lint") (Some "success");
           mkCheckRun (Some 7%Z) (Some "tests") (Some "failure") ],
         (mkCheckRun (Some 7%Z) (Some "tests") (Some "failure")),
         [], "tests".
  repeat split; try reflexivity. exact Hd.
Qed.

(** Logs with a keyword and no known pattern are diagnosed with confidence
    0.3, below the default threshold 0.7. *)
Lemma low_confidence_stops_witness :
  let diagnosis := mkDiagnosis UNKNOWN EmptyString ∅ 0.3%float "build failed" in
  run (failed_check_env "build failed")
    (process_pr_failure no_percent no_comment (__init__ None None)
       "octocat" "Hello-World" 123)
  = ([ github_get_pr_info "octocat" "Hello-World" 123;
       github_get_pr_checks "octocat" "Hello-World" 123;
       github_get_check_logs "octocat" "Hello-World" 7;
       analyzer_analyze "build failed" ],
     inr (low_confidence diagnosis
            "Unable to confidently diagnose the failure")).
Proof.
  intros diagnosis.
  apply (low_confidence_stops no_percent no_comment (__init__ None None)
           (failed_check_env "build failed") "octocat" "Hello-World" 123
           7 "build failed" diagnosis).
  - apply failed_check_diagnosed. vm_compute. reflexivity.
  - reflexivity.
Defined.

(** A traceback that names [./src/app.py]: the located file is
    [src/app.py], and no diff is fetched. *)
Lemma file_location_witness :
  let diagnosis :=
    mkDiagnosis SYNTAX_ERROR "SyntaxError: invalid syntax" ∅ 0.9%float
      syntax_error_log in
  analyze syntax_error_log = inr diagnosis /\
  run (failed_check_env syntax_error_log)
    (_locate_affected_file "octocat" "Hello-World" 123 diagnosis)
  = ([], inr (Some "src/app.py")).
Proof.
  intros diagnosis.
  assert (Hd : analyze syntax_error_log = inr diagnosis)
    by (vm_compute; reflexivity).
  split; [exact Hd|].
  destruct (file_location no_percent no_comment (__init__ None None)
              (failed_check_env syntax_error_log) "octocat" "Hello-World" 123
              7 syntax_error_log EmptyString diagnosis) as (_ & Hstack & _).
  - by apply failed_check_diagnosed.
  - reflexivity.
  - intros [x Hx]. discriminate Hx.
  - apply (Hstack (mkMatch
                     ("File " +:+ String Py.dquote "./src/app.py" +:+
                      String Py.dquote EmptyString)
                     ["./src/app.py"]) "./" "src/app.py").
    + reflexivity.
    + vm_compute. reflexivity.
    + reflexivity.
    + by right.
    + split; discriminate.
Defined.

(** C8 as stated fails on a reference to a file whose name does not end in
    [.py]: the words of the claim give the file [<string>], the program
    finds none. *)
Lemma file_reference_without_py :
  let diagnosis :=
    mkDiagnosis SYNTAX_ERROR "SyntaxError: invalid syntax" ∅ 0.9%float
      string_error_log in
  analyze string_error_log = inr diagnosis /\
  details diagnosis !! "missing_module" = None /\
  stated_stack_trace_file (log_snippet diagnosis) = Some "<string>" /\
  run (failed_check_env string_error_log)
    (_locate_affected_file "octocat" "Hello-World" 123 diagnosis)
  = ([], inr None) /\
  run (failed_check_env string_error_log)
    (process_pr_failure no_percent no_comment (__init__ None None)
       "octocat" "Hello-World" 123)
  = ([ github_get_pr_info "octocat" "Hello-World" 123;
       github_get_pr_checks "octocat" "Hello-World" 123;
       github_get_check_logs "octocat" "Hello-World" 7;
       analyzer_analyze string_error_log ],
     inr (file_not_found diagnosis "Could not locate the affected file")).
Proof.
  intros diagnosis.
  assert (Hd : analyze string_error_log = inr diagnosis)
    by (vm_compute; reflexivity).
  assert (Hlocate :
    run (failed_check_env string_error_log)
      (_locate_affected_file "octocat" "Hello-World" 123 diagnosis)
    = ([], inr None)) by (vm_compute; reflexivity).
  split; [exact Hd|]. split; [reflexivity|].
  split; [vm_compute; reflexivity|]. split; [exact Hlocate|].
  rewrite (process_file_not_found no_percent no_comment (__init__ None None)
             (failed_check_env string_error_log) "octocat" "Hello-World" 123
             7 string_error_log diagnosis []
             (failed_check_diagnosed _ _ Hd) eq_refl Hlocate).
  reflexivity.
Qed.

End OrchestratorFacts.

(** ** The matcher against what patterns denote *)
Module ReSound.

Import Re ReSpec ReFacts.

Lemma append_cons (c : ascii) (s1 s2 : string) :
  String c s1 +:+ s2 = String c (s1 +:+ s2).
Proof. reflexivity. Qed.

Lemma append_empty_l (s : string) : EmptyString +:+ s = s.
Proof. reflexivity. Qed.

Lemma length_append (s1 s2 : string) :
  String.length (s1 +:+ s2) = String.length s1 + String.length s2.
Proof.
  induction s1 as [|c s1 IH]; [done|].
  rewrite append_cons. simpl. by rewrite IH.
Qed.

Lemma append_assoc (s1 s2 s3 : string) :
  (s1 +:+ s2) +:+ s3 = s1 +:+ (s2 +:+ s3).
Proof.
  induction s1 as [|c s1 IH]; [done|].
  rewrite !append_cons. by rewrite IH.
Qed.

Lemma append_empty_r (s : string) : s +:+ EmptyString = s.
Proof.
  induction s as [|c s IH]; [done|]. rewrite append_cons. by rewrite IH.
Qed.

Lemma prefix_of_length_append (pre rest : string) :
  Py.prefix_of_length
    (String.length (pre +:+ rest) - String.length rest) (pre +:+ rest) = pre.
Proof.
  rewrite length_append.
  replace (String.length pre + String.length rest - String.length rest)
    with (String.length pre) by lia.
  induction pre as [|c pre IH].
  - rewrite append_empty_l. by destruct rest.
  - rewrite append_cons. simpl. by rewrite IH.
Qed.

Lemma lit_sound {A} (l s : string) (k : string -> option A) (a : A) :
  lit l s k = Some a -> exists rest, s = l +:+ rest /\ k rest = Some a.
Proof.
  revert s; induction l as [|c l IH]; intros s H; simpl in *.
  - by exists s.
  - destruct s as [|d s]; [done|].
    destruct (Ascii.eqb_spec c d) as [->|]; [|done].
    destruct (IH _ H) as (rest & -> & Hk). by exists rest.
Qed.

Lemma star_sound {A} (cl : charclass) (s : string) (k : string -> option A)
    (a : A) :
  star cl s k = Some a ->
  exists pre rest, s = pre +:+ rest /\
    all_chars (in_class cl) pre = true /\ k rest = Some a.
Proof.
  induction s as [|c s IH]; simpl; intros H.
  - by exists EmptyString, EmptyString.
  - destruct (in_class cl c) eqn:Hc.
    + destruct (star cl s k) as [r|] eqn:E.
      * destruct (IH H) as (pre & rest & -> & Hpre & Hk).
        exists (String c pre), rest. rewrite append_cons. simpl.
        by rewrite Hc, Hpre.
      * by exists EmptyString, (String c s).
    + by exists EmptyString, (String c s).
Qed.

Lemma plus_sound {A} (cl : charclass) (s : string) (k : string -> option A)
    (a : A) :
  plus cl s k = Some a ->
  exists pre rest, s = pre +:+ rest /\
    denotes (Plus cl) pre [] /\ k rest = Some a.
Proof.
  destruct s as [|c s]; simpl; [done|].
  destruct (in_class cl c) eqn:Hc; [|done]. intros H.
  destruct (star_sound _ _ _ _ H) as (pre & rest & -> & Hpre & Hk).
  exists (String c pre), rest. repeat split; [|done]. by constructor.
Qed.

(** What the matcher consumes is a text the pattern denotes, and the groups
    it adds are the groups of that text. *)
Lemma match_here_sound {A} (r : regex) :
  forall (s : string) (gs : list string)
         (k : string -> list string -> option A) (a : A),
  match_here r s gs k = Some a ->
  exists pre rest news, s = pre +:+ rest /\
    denotes r pre news /\ k rest (gs ++ news) = Some a.
Proof.
  induction r as [l|cl|r1 IH1|r1 IH1 r2 IH2]; intros s gs k a H; simpl in *.
  - destruct (lit_sound _ _ _ _ H) as (rest & -> & Hk).
    exists l, rest, []. rewrite app_nil_r. repeat split; [constructor|done].
  - destruct (plus_sound _ _ _ _ H) as (pre & rest & -> & Hpre & Hk).
    exists pre, rest, []. by rewrite app_nil_r.
  - destruct (IH1 _ _ _ _ H) as (pre & rest & news & -> & Hden & Hk).
    rewrite prefix_of_length_append in Hk.
    exists pre, rest, (news ++ [pre]).
    repeat split; [by constructor|]. by rewrite app_assoc.
  - destruct (IH1 _ _ _ _ H) as (pre1 & mid & news1 & -> & Hden1 & Hk1).
    destruct (IH2 _ _ _ _ Hk1) as (pre2 & rest & news2 & -> & Hden2 & Hk2).
    exists (pre1 +:+ pre2), rest, (news1 ++ news2).
    rewrite append_assoc, app_assoc. repeat split; [by constructor|done].
Qed.

Lemma match_at_sound (r : regex) (s : string) (m : Match) (rest : string) :
  match_at r s = Some (m, rest) ->
  s = group0 m +:+ rest /\ denotes r (group0 m) (groups m).
Proof.
  unfold match_at. intros H.
  destruct (match_here_sound _ _ _ _ _ H) as (pre & rest' & news & -> & Hd & Hk).
  rewrite prefix_of_length_append in Hk. injection Hk as <- <-. done.
Qed.

Lemma search_from_sound (r : regex) (s : string) (m : Match) (rest : string) :
  search_from r s = Some (m, rest) ->
  exists before, s = before +:+ (group0 m +:+ rest) /\
    denotes r (group0 m) (groups m).
Proof.
  induction s as [|c s IH]; simpl; intros H.
  - destruct (match_at r EmptyString) as [[m' rest']|] eqn:E; [|done].
    injection H as -> ->. apply match_at_sound in E as [E Hd].
    by exists EmptyString.
  - destruct (match_at r (String c s)) as [[m' rest']|] eqn:E.
    + injection H as -> ->. apply match_at_sound in E as [E Hd].
      by exists EmptyString.
    + destruct (IH H) as (before & -> & Hd). by exists (String c before).
Qed.

Lemma search_sound (r : regex) (s : string) (m : Match) :
  search r s = Some m ->
  exists before after, s = before +:+ (group0 m +:+ after) /\
    denotes r (group0 m) (groups m).
Proof.
  unfold search. intros H.
  destruct (search_from r s) as [[m' rest]|] eqn:E; [|done].
  injection H as ->. apply search_from_sound in E as (before & -> & Hd).
  by exists before, rest.
Qed.

Lemma denotes_length (r : regex) (s : string) (gs : list string) :
  denotes r s gs -> min_len r <= String.length s /\ length gs = ngroups r.
Proof.
  induction 1 as [l|cl c s Hc Hs|r s gs _ [IHl IHg]
                  |r1 r2 s1 s2 gs1 gs2 _ [IHl1 IHg1] _ [IHl2 IHg2]]; simpl.
  - done.
  - split; [lia|done].
  - rewrite length_app. simpl. split; lia.
  - rewrite length_append, length_app. split; lia.
Qed.

Lemma prefix_append (s1 s2 : string) : String.prefix s1 (s1 +:+ s2) = true.
Proof.
  induction s1 as [|c s1 IH].
  - by destruct s2.
  - rewrite append_cons. simpl. destruct (ascii_dec c c); [done|congruence].
Qed.

Lemma contains_prefix (sub s : string) :
  String.prefix sub s = true -> Py.contains sub s = true.
Proof. intros H. destruct s; cbn [Py.contains]; by rewrite H. Qed.

(** A text that has [sub] somewhere inside contains it. *)
Lemma contains_append (before sub after : string) :
  Py.contains sub (before +:+ (sub +:+ after)) = true.
Proof.
  induction before as [|c before IH].
  - rewrite append_empty_l. apply contains_prefix, prefix_append.
  - rewrite append_cons. cbn [Py.contains]. rewrite IH. apply orb_true_r.
Qed.

End ReSound.

(** ** More on the log analyzer *)
Module AnalyzerMore.

Import Re ReSpec Analyzer Design AnalyzerSpec ReFacts ReSound AnalyzerFacts.

(** The three ways [analyze] returns. *)
Lemma analyze_cases (log : string) :
  (~ has_keyword_line log /\ analyze log = inr no_error_lines) \/
  (has_keyword_line log /\
   Forall (fun e => ~ pattern_matches log e) entries /\
   analyze log =
     inr (mkDiagnosis UNKNOWN EmptyString ∅ 0.3%float
            (Py.join_lines (take 10 (context_lines log))))) \/
  (has_keyword_line log /\
   exists t p m, (t, p) ∈ entries /\ search p log = Some m /\
     analyze log =
       inr (mkDiagnosis t (group0 m) (details_of t m) 0.9%float
              (Py.join_lines (take 10 (context_lines log))))).
Proof.
  destruct (decide (has_keyword_line log)) as [Hkw|Hkw].
  - right. rewrite (analyze_with_keyword _ Hkw).
    destruct (first_match entries log) as [[t m]|] eqn:E.
    + right. split; [done|].
      destruct (first_match_Some _ _ _ _ E) as (p & Hin & Hm).
      exists t, p, m. repeat split; [done..|].
      pose proof entries_shape as Hshape. rewrite Forall_forall in Hshape.
      destruct (Hshape _ Hin) as [_ Hgrp]; simpl in Hgrp.
      destruct (search_inv _ _ _ Hm) as [_ Hlen].
      unfold on_match, details_of, group1.
      destruct t; try reflexivity.
      * specialize (Hgrp (or_introl eq_refl)).
        destruct (groups m); [simpl in Hlen; lia | reflexivity].
      * destruct (groups m); reflexivity.
      * specialize (Hgrp (or_intror eq_refl)).
        destruct (groups m); [simpl in Hlen; lia | reflexivity].
    + left. apply first_match_None in E. done.
  - left. split; [done|]. by apply analyze_no_error_lines.
Qed.

Lemma denotes_groups_inside (r : regex) (s : string) (gs : list string) :
  denotes r s gs ->
  forall g, g ∈ gs -> exists before after, s = before +:+ (g +:+ after).
Proof.
  induction 1 as [l|cl c s Hc Hs|r s gs _ IH
                  |r1 r2 s1 s2 gs1 gs2 _ IH1 _ IH2]; intros g Hg.
  - by apply not_elem_of_nil in Hg.
  - by apply not_elem_of_nil in Hg.
  - apply elem_of_app in Hg as [Hg|Hg]; [by apply IH|].
    apply list_elem_of_singleton in Hg as ->.
    exists EmptyString, EmptyString. by rewrite append_empty_r.
  - apply elem_of_app in Hg as [Hg|Hg].
    + destruct (IH1 _ Hg) as (before & after & ->).
      exists before, (after +:+ s2). by rewrite !append_assoc.
    + destruct (IH2 _ Hg) as (before & after & ->).
      exists (s1 +:+ before), after. by rewrite !append_assoc.
Qed.

Lemma denotes_groups_nonempty (r : regex) (s : string) (gs : list string) :
  denotes r s gs -> groups_nonempty r = true ->
  forall g, g ∈ gs -> g <> EmptyString.
Proof.
  induction 1 as [l|cl c s Hc Hs|r s gs Hd IH
                  |r1 r2 s1 s2 gs1 gs2 _ IH1 _ IH2]; simpl; intros Hr g Hg.
  - by apply not_elem_of_nil in Hg.
  - by apply not_elem_of_nil in Hg.
  - apply andb_true_iff in Hr as [Hmin Hr].
    apply elem_of_app in Hg as [Hg|Hg]; [by apply IH|].
    apply list_elem_of_singleton in Hg as ->.
    apply Nat.ltb_lt in Hmin. apply denotes_length in Hd as [Hd _].
    intros ->. simpl in Hd. lia.
  - apply andb_true_iff in Hr as [Hr1 Hr2].
    apply elem_of_app in Hg as [Hg|Hg]; [by apply IH1 | by apply IH2].
Qed.

Lemma entries_groups_nonempty :
  Forall (fun e => groups_nonempty e.2 = true) entries.
Proof. repeat constructor. Qed.

Lemma details_of_lookup (t : FailureType) (m : Match) (k v : string) :
  details_of t m !! k = Some v ->
  v ∈ groups m /\
  ((k = "missing_module" /\ t = MODULE_NOT_FOUND) \/
   (k = "missing_path" /\ t = BROKEN_PATH) \/
   (k = "package_name" /\ t = MISSING_DEPENDENCY)).
Proof.
  unfold details_of.
  destruct t, (groups m) as [|g gs]; try (rewrite lookup_empty; done);
    intros H; apply lookup_insert_Some in H as [[<- <-]|[_ H]];
    try (rewrite lookup_empty in H; done);
    (split; [left | tauto]).
Qed.

Lemma no_key_in_empty (k : string) :
  ~ is_Some ((∅ : gmap string string) !! k).
Proof. rewrite lookup_empty. by intros [? ?]. Qed.

(** X1. [analyze] returns a diagnosis for every log: the [match.group(1)]
    it reads for ModuleNotFound and BrokenPath never raises [IndexError],
    because every pattern of these two categories has a group. *)
Theorem analyze_never_raises (log : string) :
  exists d, analyze log = inr d /\
    (failure_type d = MODULE_NOT_FOUND \/ failure_type d = BROKEN_PATH ->
     size (details d) = 1).
Proof.
  destruct (analyze_cases log)
    as [[_ ->]|[(_ & _ & ->)|(_ & t & p & m & Hin & Hm & ->)]];
    eexists; (split; [reflexivity|]); simpl; try (intros [?|?]; discriminate).
  pose proof entries_shape as Hshape. rewrite Forall_forall in Hshape.
  destruct (Hshape _ Hin) as [_ Hgrp]; simpl in Hgrp.
  destruct (search_inv _ _ _ Hm) as [_ Hlen].
  intros Ht. specialize (Hgrp Ht). unfold details_of.
  destruct (groups m) as [|g gs]; [simpl in Hlen; lia|].
  destruct Ht as [-> | ->];
    by rewrite map_size_insert_None, map_size_empty by apply lookup_empty.
Qed.

Lemma details_by_category_aux (log : string) :
  exists d, analyze log = inr d /\
    (is_Some (details d !! "missing_module") <->
       failure_type d = MODULE_NOT_FOUND) /\
    (is_Some (details d !! "missing_path") <->
       failure_type d = BROKEN_PATH) /\
    (is_Some (details d !! "package_name") ->
       failure_type d = MISSING_DEPENDENCY) /\
    (forall k, is_Some (details d !! k) ->
       k ∈ ["missing_module"; "missing_path"; "package_name"]).
Proof.
  destruct (analyze_cases log)
    as [[_ ->]|[(_ & _ & ->)|(_ & t & p & m & Hin & Hm & ->)]];
    eexists; (split; [reflexivity|]); simpl.
  1, 2: repeat split; try discriminate;
        intros; exfalso; by eapply no_key_in_empty.
  pose proof entries_shape as Hshape. rewrite Forall_forall in Hshape.
  destruct (Hshape _ Hin) as [_ Hgrp]; simpl in Hgrp.
  destruct (search_inv _ _ _ Hm) as [_ Hlen].
  assert (Hkey : forall k, is_Some (details_of t m !! k) ->
            (k = "missing_module" /\ t = MODULE_NOT_FOUND) \/
            (k = "missing_path" /\ t = BROKEN_PATH) \/
            (k = "package_name" /\ t = MISSING_DEPENDENCY)).
  { intros k [v Hv]. by apply details_of_lookup in Hv as [_ Hv]. }
  repeat split.
  - intros H. destruct (Hkey _ H) as [[_ ?]|[[? _]|[? _]]]; done.
  - intros ->. specialize (Hgrp (or_introl eq_refl)). unfold details_of.
    destruct (groups m); [simpl in Hlen; lia|].
    by rewrite lookup_insert_eq.
  - intros H. destruct (Hkey _ H) as [[? _]|[[_ ?]|[? _]]]; done.
  - intros ->. specialize (Hgrp (or_intror eq_refl)). unfold details_of.
    destruct (groups m); [simpl in Hlen; lia|].
    by rewrite lookup_insert_eq.
  - intros H. destruct (Hkey _ H) as [[? _]|[[? _]|[_ ?]]]; done.
  - intros k H.
    destruct (Hkey _ H) as [[-> _]|[[-> _]|[-> _]]];
      rewrite !elem_of_cons; tauto.
Qed.

(** X2. The keys of [details] follow the category: [missing_module] is
    present exactly for ModuleNotFound, [missing_path] exactly for
    BrokenPath, [package_name] only for MissingDependency, and there is no
    other key. *)
Theorem details_by_category (log : string) :
  exists d, analyze log = inr d /\
    (is_Some (details d !! "missing_module") <->
       failure_type d = MODULE_NOT_FOUND) /\
    (is_Some (details d !! "missing_path") <->
       failure_type d = BROKEN_PATH) /\
    (is_Some (details d !! "package_name") ->
       failure_type d = MISSING_DEPENDENCY) /\
    (forall k, is_Some (details d !! k) ->
       k ∈ ["missing_module"; "missing_path"; "package_name"]).
Proof. apply details_by_category_aux. Qed.

(** X3. The error message is a piece of the log, and every value stored
    in [details] is a non-empty piece of the error message. *)
Theorem message_and_details_from_log (log : string) :
  exists d, analyze log = inr d /\
    Py.contains (error_message d) log = true /\
    (forall k v, details d !! k = Some v ->
       v <> EmptyString /\ Py.contains v (error_message d) = true).
Proof.
  destruct (analyze_cases log)
    as [[_ ->]|[(_ & _ & ->)|(_ & t & p & m & Hin & Hm & ->)]];
    eexists; (split; [reflexivity|]); simpl.
  1, 2: split; [by destruct log | intros k v; by rewrite lookup_empty].
  destruct (search_sound _ _ _ Hm) as (before & after & -> & Hden).
  split; [apply contains_append|].
  intros k v Hv. apply details_of_lookup in Hv as [Hv _]. split.
  - pose proof entries_groups_nonempty as H. rewrite Forall_forall in H.
    by apply (denotes_groups_nonempty _ _ _ Hden (H _ Hin)).
  - destruct (denotes_groups_inside _ _ _ Hden _ Hv) as (b & a & ->).
    apply contains_append.
Qed.

Lemma analyze_snippet (log : string) :
  exists d, analyze log = inr d /\
    log_snippet d = Py.join_lines (take 10 (context_lines log)).
Proof.
  destruct (analyze_cases log)
    as [[Hkw ->]|[(_ & _ & ->)|(_ & t & p & m & Hin & Hm & ->)]]; eauto.
  apply context_lines_nil in Hkw. rewrite Hkw. eauto.
Qed.

Lemma context_lines_from_log (log : string) (line : string) :
  line ∈ context_lines log -> line ∈ Py.split_lines log.
Proof.
  unfold context_lines. intros Hin.
  apply list_elem_of_bind in Hin as (i & Hin & _).
  by apply window_subset in Hin.
Qed.

(** X4. When the log has a keyword line, splitting the log snippet at line
    breaks gives back the first 10 context lines: the snippet has between 1
    and 10 lines, and each of them is a line of the log. *)
Theorem log_snippet_lines (log : string) :
  has_keyword_line log ->
  exists d, analyze log = inr d /\
    Py.split_lines (log_snippet d) = take 10 (context_lines log) /\
    1 <= length (Py.split_lines (log_snippet d)) <= 10 /\
    Forall (fun line => line ∈ Py.split_lines log)
           (Py.split_lines (log_snippet d)).
Proof.
  intros Hkw. destruct (analyze_snippet log) as (d & Hd & Hsnip).
  exists d. split; [done|].
  assert (Hne : context_lines log <> []).
  { intros E. by apply context_lines_nil in E. }
  assert (Hsplit : Py.split_lines (log_snippet d)
                   = take 10 (context_lines log)).
  { rewrite Hsnip. apply split_join_lines.
    - destruct (context_lines log); [done | discriminate].
    - apply Forall_take, context_lines_no_newline. }
  split; [done|]. rewrite Hsplit. split.
  - rewrite length_take.
    destruct (context_lines log) as [|l ls]; [done|]. cbn [length]. lia.
  - apply Forall_take, Forall_forall. apply context_lines_from_log.
Qed.

Lemma log_snippet_lines_witness :
  exists d, analyze syntax_error_log = inr d /\
    Py.split_lines (log_snippet d) = take 10 (context_lines syntax_error_log)
    /\ 1 <= length (Py.split_lines (log_snippet d)) <= 10 /\
    Forall (fun line => line ∈ Py.split_lines syntax_error_log)
           (Py.split_lines (log_snippet d)).
Proof.
  apply log_snippet_lines.
  apply (bool_decide_unpack _). vm_compute. reflexivity.
Defined.

Lemma window_length (lines : list string) (i : nat) :
  i < length lines ->
  length (window lines i) = window_size (length lines) i /\
  1 <= window_size (length lines) i <= 8.
Proof.
  intros Hi. rewrite <- slice_window. unfold Py.slice, window_size.
  rewrite length_take, length_drop. split; lia.
Qed.

Lemma keyword_indices_bound (lines : list string) :
  Forall (fun i => i < length lines) (keyword_indices lines).
Proof.
  apply Forall_forall. intros i Hi. unfold keyword_indices in Hi.
  apply list_elem_of_filter in Hi as [_ Hi]. apply elem_of_seq in Hi. lia.
Qed.

(** X5. The error lines are the windows of the keyword lines laid end to
    end, lines that two windows share being counted twice: their number is
    the sum of the window sizes, hence between [k] and [8 k] for [k]
    keyword lines. *)
Theorem context_lines_count (log : string) :
  let lines := Py.split_lines log in
  let k := length (keyword_indices lines) in
  length (_extract_error_lines log) =
    sum_list (window_size (length lines) <$> keyword_indices lines) /\
  k <= length (_extract_error_lines log) <= 8 * k.
Proof.
  intros lines k. rewrite extract_error_lines_spec.
  unfold context_lines. fold lines. subst k.
  pose proof (keyword_indices_bound lines) as Hbound.
  induction Hbound as [|i more Hi _ [IHsum IHk]]; [simpl; lia|].
  destruct (window_length lines i Hi) as [Hlen Hsize].
  change (length (window lines i ++ (more ≫= window lines)) =
          window_size (length lines) i +
            sum_list (window_size (length lines) <$> more) /\
          S (length more)
            <= length (window lines i ++ (more ≫= window lines))
            <= 8 * S (length more)).
  rewrite length_app, Hlen.
  change (more ≫= window lines)
    with (more ≫= fun i => window lines i). lia.
Qed.

Lemma lower_append (s1 s2 : string) :
  Py.lower (s1 +:+ s2) = Py.lower s1 +:+ Py.lower s2.
Proof.
  induction s1 as [|c s1 IH]; [done|].
  rewrite append_cons. simpl. by rewrite IH.
Qed.

(** X6. A line is a keyword line as soon as one of the keywords occurs in
    it, in any letter case and also inside a longer word. *)
Theorem keyword_anywhere_in_line (before word after : string) :
  Py.lower word ∈ keywords ->
  has_keyword (before +:+ (word +:+ after)) = true.
Proof.
  intros Hword. unfold has_keyword. apply existsb_exists.
  exists (Py.lower word). split; [by apply list_elem_of_In|].
  rewrite !lower_append. apply contains_append.
Qed.

(** [Terrors] holds [error]. *)
Lemma keyword_anywhere_in_line_witness :
  has_keyword ("night T" +:+ ("ERROR" +:+ "S 0 warnings 0")) = true.
Proof.
  apply keyword_anywhere_in_line.
  apply list_elem_of_In. vm_compute. tauto.
Defined.

(** X7. With the default threshold 0.7, the confidence of the analyzer's
    diagnosis is below the threshold exactly when the category is
    [UNKNOWN]: a log in which a pattern was recognised always passes the
    gate, and no other log does. *)
Theorem default_gate_is_unknown (log : string)
    (MAX_DIAGNOSIS_ATTEMPTS : option Z) :
  exists d, analyze log = inr d /\
    (PrimFloat.ltb (confidence d)
       (Orchestrator.confidence_threshold
          (Orchestrator.__init__ MAX_DIAGNOSIS_ATTEMPTS None)) = true
     <-> failure_type d = UNKNOWN).
Proof.
  destruct (analyze_cases log)
    as [[_ ->]|[(_ & _ & ->)|(_ & t & p & m & Hin & Hm & ->)]];
    eexists; (split; [reflexivity|]); simpl; [done..|].
  split; [discriminate|]. intros ->. exfalso.
  revert Hin. unfold entries. clear. intros Hin.
  apply list_elem_of_In in Hin. simpl in Hin.
  repeat destruct Hin as [Hin|Hin]; try discriminate Hin. done.
Qed.

End AnalyzerMore.

(** ** More on the fix generator *)
Module FixGeneratorMore.

Import Analyzer Run FixGenerator Design RunFacts.

(** X8. When the completion service raises, [generate_fix] (on the
    branches that call it) raises the same exception after that one call:
    the request is not repeated and [json.loads] is not reached. *)
Theorem completion_failure_propagates
    (json_loads : string -> option Py.value) (model : string) (w : env)
    (failure_type : FailureType) (error_details : gmap string string)
    (file_content file_path : string) (e : Py.exn) :
  failure_type <> MISSING_DEPENDENCY ->
  (forall model' messages temperature,
     w (client_chat_completions_create model' messages temperature) = inl e) ->
  exists c, is_completion_call c = true /\
    run w (generate_fix json_loads model failure_type error_details
             file_content file_path) = ([c], inl e).
Proof.
  intros Hft Hw.
  destruct failure_type; try done; simpl; rewrite Hw;
    eexists; (split; [|reflexivity]); reflexivity.
Qed.

Lemma completion_failure_propagates_witness :
  exists c, is_completion_call c = true /\
    run unreachable
      (generate_fix json_loads_empty_object "gpt-4-turbo-preview"
         BROKEN_PATH ∅ "open('cfg')" "app.py")
    = ([c], inl (Py.Failure "unreachable")).
Proof.
  apply (completion_failure_propagates json_loads_empty_object
           "gpt-4-turbo-preview" unreachable BROKEN_PATH ∅ "open('cfg')"
           "app.py" (Py.Failure "unreachable")).
  - discriminate.
  - reflexivity.
Defined.

(** X9. Whatever the environment answers, [generate_fix] makes at most one
    call, and that call is a chat completion with the configured model and
    temperature 0.3; for MissingDependency it makes none. It never calls
    the source-control service. *)
Theorem generate_fix_calls
    (json_loads : string -> option Py.value) (model : string) (w : env)
    (failure_type : FailureType) (error_details : gmap string string)
    (file_content file_path : string) :
  let calls := (run w (generate_fix json_loads model failure_type
                         error_details file_content file_path)).1 in
  length calls <= 1 /\
  Forall (fun c => exists messages,
            c = client_chat_completions_create model messages 0.3%float)
         calls /\
  (failure_type = MISSING_DEPENDENCY -> calls = []).
Proof.
  destruct failure_type; simpl;
    try (split; [lia | split; [constructor | done]]);
    match goal with
    | |- context [w ?c] => destruct (w c) as [e|text]
    end; simpl;
    try (unfold loads; destruct (json_loads text); simpl);
    (split; [lia | split; [|done]]);
    repeat constructor; eexists; reflexivity.
Qed.

End FixGeneratorMore.

(** ** The comment *)
Module ReportFacts.

Import Analyzer Run FixGenerator Report Design.

Section Rendering.

Variable str_of : Py.value -> string.
Variable format_percent : Py.value -> Py.exn + string.
Variables (robot chart wrench check_mark : string).

Local Abbreviation change_detail := (Report.change_detail str_of).
Local Abbreviation detail_loop := (Report.detail_loop str_of).
Local Abbreviation _format_changes_detail :=
  (Report._format_changes_detail str_of).
Local Abbreviation _format_fix_comment :=
  (Report._format_fix_comment str_of format_percent
     robot chart wrench check_mark).

Lemma detail_loop_app (changes1 changes2 : list Py.value)
    (details : list string) :
  detail_loop (changes1 ++ changes2) details =
  and_then (detail_loop changes1 details) (detail_loop changes2).
Proof.
  revert details; induction changes1 as [|c cs IH]; intros details; simpl.
  - done.
  - destruct (change_detail c) as [e|lines]; simpl; [done | apply IH].
Qed.

Lemma detail_loop_silent (changes : list Py.value) (details : list string) :
  Forall (fun c => change_detail c = inr []) changes ->
  detail_loop changes details = inr details.
Proof.
  intros H. revert details.
  induction H as [|c cs Hc _ IH]; intros details; simpl; [done|].
  rewrite Hc. simpl. rewrite app_nil_r. apply IH.
Qed.

(** X10. A change whose action is none of [insert], [replace], [delete]
    (another word, another letter case, a value that is not a string) is
    passed over without an error: a list of such changes, and the empty
    list, render as the empty text. *)
Theorem other_actions_leave_no_detail (changes : list Py.value) :
  Forall (fun c => exists action,
            Py.getitem c "action" = inr action /\
            is_str action "insert" = false /\
            is_str action "replace" = false /\
            is_str action "delete" = false) changes ->
  _format_changes_detail (Py.PList changes) = inr EmptyString.
Proof.
  intros H. unfold Report._format_changes_detail. simpl.
  rewrite detail_loop_silent; [done|].
  eapply Forall_impl; [exact H|]. simpl.
  intros c (action & Ha & Hi & Hr & Hd).
  unfold Report.change_detail. rewrite Ha. simpl. by rewrite Hi, Hr, Hd.
Qed.

(** X11. The detail stops at the first change that cannot be rendered: its
    exception is raised whatever changes follow, the changes before it
    having rendered. *)
Theorem detail_stops_at_first_bad_change
    (good rest : list Py.value) (bad : Py.value) (details : list string)
    (e : Py.exn) :
  detail_loop good [] = inr details ->
  change_detail bad = inl e ->
  _format_changes_detail (Py.PList (good ++ bad :: rest)) = inl e.
Proof.
  intros Hgood Hbad. unfold Report._format_changes_detail. simpl.
  rewrite detail_loop_app, Hgood. simpl. by rewrite Hbad.
Qed.

(** X12. The fix of [_fix_missing_dependency] can always be rendered: its
    detail is the line [+ <package>] followed by a line break, and the
    comment is built without [KeyError] or [TypeError], provided the two
    confidences are rendered as percentages. *)
Theorem missing_dependency_fix_renders
    (json_loads : string -> option Py.value) (model : string) (w : env)
    (error_details : gmap string string) (file_content file_path : string)
    (diagnosis : Diagnosis) (check_name percent fix_percent : string) :
  format_percent (Py.PFloat (confidence diagnosis)) = inr percent ->
  format_percent (Py.PFloat 0.85%float) = inr fix_percent ->
  exists v changes body,
    run w (generate_fix json_loads model MISSING_DEPENDENCY error_details
             file_content file_path) = ([], inr v) /\
    Py.getitem v "changes" = inr changes /\
    _format_changes_detail changes =
      inr ("+ " +:+ default EmptyString (error_details !! "package_name")
           +:+ String Py.newline EmptyString) /\
    _format_fix_comment diagnosis v check_name = inr body.
Proof.
  intros Hpercent Hfix. simpl. unfold _fix_missing_dependency. simpl.
  eexists _, _, _. split; [reflexivity|]. split; [reflexivity|].
  split; [reflexivity|].
  unfold Report._format_fix_comment. simpl. rewrite Hpercent. simpl.
  rewrite Hfix. simpl. reflexivity.
Qed.

End Rendering.

Lemma detail_stops_at_first_bad_change_witness :
  Report._format_changes_detail (fun _ => "?")
    (Py.PList
       [ Py.PDict [("action", Py.PStr "insert");
                   ("new_content", Py.PStr "import os")];
         Py.PDict [("file", Py.PStr "app.py")];
         Py.PDict [("action", Py.PStr "delete");
                   ("old_content", Py.PStr "import sys")] ])
  = inl (Py.KeyError "action").
Proof.
  apply (detail_stops_at_first_bad_change (fun _ => "?")
           [ Py.PDict [("action", Py.PStr "insert");
                       ("new_content", Py.PStr "import os")] ]
           [ Py.PDict [("action", Py.PStr "delete");
                       ("old_content", Py.PStr "import sys")] ]
           (Py.PDict [("file", Py.PStr "app.py")])
           ["+ import os"]); reflexivity.
Defined.

Lemma other_actions_leave_no_detail_witness :
  Report._format_changes_detail (fun _ => "?")
    (Py.PList
       [ Py.PDict [("action", Py.PStr "Insert");
                   ("new_content", Py.PStr "import os")];
         Py.PDict [("action", Py.PStr "modify")];
         Py.PDict [("action", Py.PNone)] ])
  = inr EmptyString.
Proof.
  apply (other_actions_leave_no_detail (fun _ => "?")).
  repeat constructor; eexists; repeat split; reflexivity.
Defined.

Lemma missing_dependency_fix_renders_witness :
  exists v changes body,
    run unreachable
      (generate_fix json_loads_empty_object "gpt-4-turbo-preview"
         MISSING_DEPENDENCY {["package_name" := "numpy"]} EmptyString
         "requirements.txt") = ([], inr v) /\
    Py.getitem v "changes" = inr changes /\
    Report._format_changes_detail (fun _ => "-1") changes =
      inr ("+ " +:+ default EmptyString
                      (({["package_name" := "numpy"]} : gmap string string)
                         !! "package_name")
           +:+ String Py.newline EmptyString) /\
    Report._format_fix_comment (fun _ => "-1") (fun _ => inr "90%")
      "R" "C" "W" "A"
      (mkDiagnosis MISSING_DEPENDENCY
         "No matching distribution found for numpy" ∅ 0.9%float
         "ERROR: No matching distribution found for numpy")
      v "tests" = inr body.
Proof.
  apply (missing_dependency_fix_renders (fun _ => "-1") (fun _ => inr "90%")
           "R" "C" "W" "A" json_loads_empty_object "gpt-4-turbo-preview"
           unreachable {["package_name" := "numpy"]} EmptyString
           "requirements.txt" _ "tests" "90%" "90%"); reflexivity.
Defined.

End ReportFacts.

(** ** More on the orchestrator *)
Module PipelineFacts.

Import Re ReSpec Analyzer Run Orchestrator Design Pipeline.
Import RunFacts ReFacts ReSound OrchestratorFacts.

Lemma within_weaken {R : Type} (lo hi lo' hi' : nat) (p : prog R) :
  within lo hi p -> lo' <= lo -> hi <= hi' -> within lo' hi' p.
Proof.
  intros H. revert lo' hi'.
  induction H as [lo hi r|lo hi e|lo hi c k Hc _ IH]; intros lo' hi' Hlo Hhi.
  - constructor.
  - constructor.
  - constructor; [lia|]. intros x. apply IH; lia.
Qed.

Lemma within_bind {A B : Type} (lo mid hi : nat) (p : prog A)
    (f : A -> prog B) :
  within lo mid p -> (forall a, within mid hi (f a)) ->
  lo <= mid -> mid <= hi ->
  within lo hi (p ≫= f).
Proof.
  intros H Hf. induction H as [lo mid r|lo mid e|lo mid c k Hc _ IH];
    intros Hlo Hhi.
  - apply (within_weaken mid hi); [apply Hf | lia | lia].
  - constructor.
  - change (within lo hi (perform c (fun x => k x ≫= f))).
    constructor; [lia|]. intros x. apply IH; [done | lia | lia].
Qed.

Lemma within_run {R : Type} (lo hi : nat) (p : prog R) (w : env) :
  within lo hi p ->
  increasing_from lo (stage <$> (run w p).1) /\
  Forall (fun n => n < hi) (stage <$> (run w p).1).
Proof.
  induction 1 as [lo hi r|lo hi e|lo hi c k Hc _ IH]; simpl.
  - split; [done | constructor].
  - split; [done | constructor].
  - destruct (w c) as [e|x]; simpl.
    + split; [split; [lia|done] | repeat constructor; lia].
    + destruct (IH x) as [Hinc Hall].
      destruct (run w (k x)) as [calls outcome]; simpl in *.
      split; [split; [lia|done] | constructor; [lia|done]].
Qed.

Lemma increasing_from_length (lo hi : nat) (stages : list nat) :
  increasing_from lo stages -> Forall (fun n => n < hi) stages ->
  length stages <= hi - lo /\ NoDup stages /\ Forall (fun n => lo <= n) stages.
Proof.
  revert lo; induction stages as [|n stages IH]; intros lo Hinc Hall; simpl.
  - split; [lia|]. split; constructor.
  - destruct Hinc as [Hn Hinc]. apply Forall_cons in Hall as [Hhi Hall].
    destruct (IH _ Hinc Hall) as (Hlen & Hnd & Hlow).
    split; [lia|]. split.
    + constructor; [|done]. intros Hin.
      rewrite Forall_forall in Hlow. specialize (Hlow _ Hin). lia.
    + constructor; [done|]. eapply Forall_impl; [exact Hlow|].
      simpl. intros; lia.
Qed.

Section Pipeline.

Variable format_percent : Py.value -> Py.exn + string.
Variable _format_fix_comment :
  Diagnosis -> Py.value -> string -> Py.exn + string.
Variable self : DietCodeAgent.
Variable w : env.
Variables (owner repo : string) (pr_number : Z).

Local Abbreviation process :=
  (process_pr_failure format_percent _format_fix_comment self
     owner repo pr_number).
Local Abbreviation locate := (_locate_affected_file owner repo pr_number).
Local Abbreviation calls_until_diagnosis :=
  (Design.calls_until_diagnosis owner repo pr_number).
Local Abbreviation diagnosed_with :=
  (Pipeline.diagnosed_with w owner repo pr_number).
Local Abbreviation publish :=
  (publish_fix format_percent _format_fix_comment owner repo pr_number).

Lemma locate_within (diagnosis : Diagnosis) : within 4 5 (locate diagnosis).
Proof.
  unfold _locate_affected_file, locate_in_stack_trace.
  case_bool_decide.
  - cbn [bind mbind prog_bind await].
    constructor; [simpl; lia|]. intros diff.
    destruct (findall diff_pattern diff); [|constructor].
    destruct (search file_pattern (log_snippet diagnosis)); [|constructor].
    destruct (group1 m); simpl; constructor.
  - destruct (search file_pattern (log_snippet diagnosis)); [|constructor].
    destruct (group1 m); simpl; constructor.
Qed.

Ltac answered H :=
  cbn [run bind mbind prog_bind await try key]; rewrite H;
  cbn [run bind mbind prog_bind await try key].

Ltac reduce_program :=
  cbn [bind mbind prog_bind await try key from_option].

Lemma publish_within (pr_info : PRInfo) (check_name : string)
    (diagnosis : Diagnosis) (affected_file : string) :
  within 5 8 (publish pr_info check_name diagnosis affected_file).
Proof.
  unfold publish_fix.
  destruct (head pr_info) as [h|]; reduce_program; [|constructor].
  destruct (ref h) as [r|]; reduce_program; [|constructor].
  constructor; [simpl; lia|]. intros file_content.
  constructor; [simpl; lia|]. intros fix_proposal.
  destruct (Py.getitem fix_proposal "fix_type"); reduce_program;
    [constructor|].
  destruct (Py.getitem fix_proposal "confidence") as [|c]; reduce_program;
    [constructor|].
  destruct (format_percent c); reduce_program; [constructor|].
  destruct (_format_fix_comment diagnosis fix_proposal check_name);
    reduce_program; [constructor|].
  constructor; [simpl; lia|]. intros _. constructor.
Qed.

Lemma process_within : within 0 8 process.
Proof.
  unfold process_pr_failure. reduce_program.
  constructor; [simpl; lia|]. intros pr_info; simpl in pr_info.
  constructor; [simpl; lia|]. intros check_runs; simpl in check_runs.
  destruct (filter (fun c => conclusion c = Some "failure") check_runs)
    as [|check rest]; [constructor|].
  destruct (id check) as [check_id|]; reduce_program; [|constructor].
  destruct (name check) as [check_name|]; reduce_program; [|constructor].
  constructor; [simpl; lia|]. intros logs; simpl in logs.
  constructor; [simpl; lia|]. intros diagnosis; simpl in diagnosis.
  destruct (PrimFloat.ltb _ _); [constructor|].
  apply (within_bind 4 5 8); [apply locate_within | | simpl; lia | lia].
  intros [[|c f]|]; [constructor | | constructor].
  apply (publish_within pr_info check_name diagnosis (String c f)).
Qed.

(** X13. In every run, whatever the collaborators answer or raise, the
    calls follow the order of the pipeline (pull request, checks, logs,
    analysis, diff, file content, fix generation, comment) and no
    collaborator is called twice: at most eight calls, nothing is
    retried, and the completion client is never called by the
    orchestrator itself. *)
Theorem calls_in_pipeline_order :
  let stages := stage <$> (run w process).1 in
  increasing_from 0 stages /\
  NoDup stages /\
  length (run w process).1 <= 8 /\
  Forall (fun c => Run.is_completion_call c = false) (run w process).1.
Proof.
  intros stages.
  destruct (within_run 0 8 process w process_within) as [Hinc Hall].
  fold stages in Hinc, Hall.
  destruct (increasing_from_length 0 8 stages Hinc Hall) as (Hlen & Hnd & _).
  split; [done|]. split; [done|]. split.
  - subst stages. rewrite length_fmap in Hlen. lia.
  - subst stages. rewrite Forall_fmap in Hall.
    eapply Forall_impl; [exact Hall|]. simpl.
    intros c Hc. destruct c; simpl in *; [done..|lia].
Qed.

Lemma lstrip_keeps_py (chars : list ascii) (x : string) :
  "p"%char ∉ chars ->
  exists y, Py.lstrip chars (x +:+ ".py") = y +:+ "py".
Proof.
  intros Hp. induction x as [|c x IH].
  - rewrite append_empty_l. simpl.
    destruct (bool_decide ("."%char ∈ chars)).
    + exists EmptyString. by rewrite bool_decide_eq_false_2.
    + by exists ".".
  - rewrite append_cons. simpl.
    destruct (bool_decide (c ∈ chars)); [exact IH|].
    exists (String c x +:+ "."). by rewrite append_assoc.
Qed.

Lemma denotes_py_group (prefix : string) (cl : charclass)
    (tail : regex) (s : string) (gs : list string) :
  denotes (Cat (Lit prefix) (Cat (Group (Cat (Plus cl) (Lit ".py"))) tail))
    s gs ->
  exists x more, gs = (x +:+ ".py") :: more.
Proof.
  intros H.
  inversion H as [| | |r1 r2 s1 s2 gs1 gs2 H1 H2]; subst.
  inversion H1; subst.
  inversion H2 as [| | |r1 r2 s3 s4 gs3 gs4 H3 H4]; subst.
  inversion H3 as [| |r s5 gs5 H5|]; subst.
  inversion H5 as [| | |r1 r2 s6 s7 gs6 gs7 H6 H7]; subst.
  inversion H6; subst. inversion H7; subst.
  simpl. eauto.
Qed.

Lemma denotes_py_group_last (prefix : string) (cl : charclass)
    (s : string) (gs : list string) :
  denotes (Cat (Lit prefix) (Group (Cat (Plus cl) (Lit ".py")))) s gs ->
  exists x, gs = [x +:+ ".py"].
Proof.
  intros H.
  inversion H as [| | |r1 r2 s1 s2 gs1 gs2 H1 H2]; subst.
  inversion H1; subst.
  inversion H2 as [| |r s5 gs5 H5|]; subst.
  inversion H5 as [| | |r1 r2 s6 s7 gs6 gs7 H6 H7]; subst.
  inversion H6; subst. inversion H7; subst.
  simpl. eauto.
Qed.

Lemma located_file_shape (diagnosis : Diagnosis)
    (calls : list call) (affected_file : string) :
  run w (locate diagnosis) = (calls, inr (Some affected_file)) ->
  affected_file <> EmptyString /\
  exists x, affected_file = x +:+ "py".
Proof.
  intros Hrun.
  assert (Hpy : exists x, affected_file = x +:+ "py").
  { revert Hrun. unfold _locate_affected_file.
    assert (Hstack : forall calls',
      run w (locate_in_stack_trace diagnosis)
        = (calls', inr (Some affected_file)) ->
      exists x, affected_file = x +:+ "py").
    { unfold locate_in_stack_trace. intros calls'.
      destruct (search file_pattern (log_snippet diagnosis)) as [m|] eqn:Hm;
        [|done].
      destruct (search_sound _ _ _ Hm) as (_ & _ & _ & Hden).
      apply denotes_py_group in Hden as (x & more & Hgs).
      unfold group1. rewrite Hgs. simpl. intros [= _ <-].
      apply lstrip_keeps_py. rewrite !not_elem_of_cons.
      repeat split; [done..|apply not_elem_of_nil]. }
    case_bool_decide; [|apply Hstack].
    cbn [run bind mbind prog_bind await].
    destruct (w (github_get_pr_diff owner repo pr_number)) as [e|diff];
      [done|].
    pose proof (findall_head diff_pattern diff) as Hhead.
    destruct (findall diff_pattern diff) as [|file files].
    - destruct (run w (locate_in_stack_trace diagnosis))
        as [calls' outcome] eqn:E.
      intros [= _ ->]. by apply (Hstack calls').
    - simpl. intros [= _ <-].
      destruct (search diff_pattern diff) as [m|] eqn:Hm; [|done].
      destruct (search_sound _ _ _ Hm) as (_ & _ & _ & Hden).
      apply denotes_py_group_last in Hden as (x & Hgs).
      simpl in Hhead. unfold group1 in Hhead. rewrite Hgs in Hhead.
      simpl in Hhead.
      injection Hhead as ->. exists (x +:+ "."). by rewrite append_assoc. }
  split; [|done]. destruct Hpy as (x & ->). by destruct x.
Qed.




Lemma process_located (pr_info : PRInfo) (check_name : string)
    (check_id : Z) (logs : string) (diagnosis : Diagnosis)
    (calls : list call) (affected_file : string) :
  diagnosed_with pr_info check_name check_id logs diagnosis ->
  PrimFloat.ltb (confidence diagnosis) (confidence_threshold self) = false ->
  run w (locate diagnosis) = (calls, inr (Some affected_file)) ->
  run w process =
    let (calls', outcome) :=
      run w (publish pr_info check_name diagnosis affected_file) in
    (calls_until_diagnosis check_id logs ++ calls ++ calls', outcome).
Proof.
  intros (check_runs & check & rest & Hinfo & Hchecks & Hfailed & Hid
          & Hname & Hlogs & Hdiag) Hhigh Hlocate.
  destruct (located_file_shape _ _ _ Hlocate) as [Hne _].
  unfold process_pr_failure.
  answered Hinfo. answered Hchecks. rewrite Hfailed.
  answered Hid. answered Hname. answered Hlogs. answered Hdiag.
  rewrite Hhigh. rewrite run_bind, Hlocate.
  destruct affected_file as [|c f]; [done|].
  lazymatch goal with
  | |- ?lhs = _ =>
      lazymatch lhs with
      | context [run w ?p] =>
          change p with (publish pr_info check_name diagnosis (String c f))
      end
  end.
  by destruct (run w (publish pr_info check_name diagnosis (String c f)))
    as [calls' outcome].
Qed.

(** X15. The successful run: once the file is located, its content is
    fetched at the head ref of the pull request, the fix generator is
    called with the category, the details, the content and the path, and
    the comment is posted once, with the text [_format_fix_comment] built;
    the outcome is [success] with the diagnosis, the fix as returned and
    the file. These three calls are all that follows file location. *)
Theorem successful_run (pr_info : PRInfo) (check_name : string)
    (check_id : Z) (logs : string) (diagnosis : Diagnosis)
    (calls : list call) (affected_file : string)
    (h : Head) (pr_head_ref file_content : string)
    (fix_proposal fix_type fix_confidence : Py.value)
    (percent comment_body : string) :
  diagnosed_with pr_info check_name check_id logs diagnosis ->
  PrimFloat.ltb (confidence diagnosis) (confidence_threshold self) = false ->
  run w (locate diagnosis) = (calls, inr (Some affected_file)) ->
  head pr_info = Some h -> ref h = Some pr_head_ref ->
  w (github_get_file_content owner repo affected_file pr_head_ref)
    = inr file_content ->
  w (fix_generator_generate_fix (failure_type diagnosis) (details diagnosis)
       file_content affected_file) = inr fix_proposal ->
  Py.getitem fix_proposal "fix_type" = inr fix_type ->
  Py.getitem fix_proposal "confidence" = inr fix_confidence ->
  format_percent fix_confidence = inr percent ->
  _format_fix_comment diagnosis fix_proposal check_name = inr comment_body ->
  w (github_post_comment owner repo pr_number comment_body) = inr tt ->
  run w process =
    (calls_until_diagnosis check_id logs ++ calls ++
       [ github_get_file_content owner repo affected_file pr_head_ref;
         fix_generator_generate_fix (failure_type diagnosis)
           (details diagnosis) file_content affected_file;
         github_post_comment owner repo pr_number comment_body ],
     inr (success diagnosis fix_proposal affected_file)).
Proof.
  intros Hdiag Hhigh Hlocate Hhead Href Hcontent Hfix Htype Hconf Hpercent
         Hbody Hpost.
  rewrite (process_located _ _ _ _ _ _ _ Hdiag Hhigh Hlocate).
  unfold publish_fix.
  answered Hhead. answered Href. answered Hcontent. answered Hfix.
  answered Htype. answered Hconf. answered Hpercent. answered Hbody.
  answered Hpost. reflexivity.
Qed.

(** X16. When the fix generator raises (the completion service failed, or
    its answer is not JSON), the run ends with that exception right after
    the call: no comment is posted and no outcome is returned. *)
Theorem fix_generator_failure_propagates (pr_info : PRInfo)
    (check_name : string) (check_id : Z) (logs : string)
    (diagnosis : Diagnosis) (calls : list call) (affected_file : string)
    (h : Head) (pr_head_ref file_content : string) (e : Py.exn) :
  diagnosed_with pr_info check_name check_id logs diagnosis ->
  PrimFloat.ltb (confidence diagnosis) (confidence_threshold self) = false ->
  run w (locate diagnosis) = (calls, inr (Some affected_file)) ->
  head pr_info = Some h -> ref h = Some pr_head_ref ->
  w (github_get_file_content owner repo affected_file pr_head_ref)
    = inr file_content ->
  w (fix_generator_generate_fix (failure_type diagnosis) (details diagnosis)
       file_content affected_file) = inl e ->
  run w process =
    (calls_until_diagnosis check_id logs ++ calls ++
       [ github_get_file_content owner repo affected_file pr_head_ref;
         fix_generator_generate_fix (failure_type diagnosis)
           (details diagnosis) file_content affected_file ],
     inl e).
Proof.
  intros Hdiag Hhigh Hlocate Hhead Href Hcontent Hfix.
  rewrite (process_located _ _ _ _ _ _ _ Hdiag Hhigh Hlocate).
  unfold publish_fix.
  answered Hhead. answered Href. answered Hcontent. answered Hfix.
  reflexivity.
Qed.

(** X17. A fix that cannot be read makes the run raise before any comment
    is posted: when the generated fix has no [fix_type] ([KeyError]), or is
    not a dictionary at all ([TypeError]), the exception of
    [fix['fix_type']] ends the run right after the fix generator
    returned. *)
Theorem unreadable_fix_is_not_posted (pr_info : PRInfo)
    (check_name : string) (check_id : Z) (logs : string)
    (diagnosis : Diagnosis) (calls : list call) (affected_file : string)
    (h : Head) (pr_head_ref file_content : string)
    (fix_proposal : Py.value) (e : Py.exn) :
  diagnosed_with pr_info check_name check_id logs diagnosis ->
  PrimFloat.ltb (confidence diagnosis) (confidence_threshold self) = false ->
  run w (locate diagnosis) = (calls, inr (Some affected_file)) ->
  head pr_info = Some h -> ref h = Some pr_head_ref ->
  w (github_get_file_content owner repo affected_file pr_head_ref)
    = inr file_content ->
  w (fix_generator_generate_fix (failure_type diagnosis) (details diagnosis)
       file_content affected_file) = inr fix_proposal ->
  Py.getitem fix_proposal "fix_type" = inl e ->
  run w process =
    (calls_until_diagnosis check_id logs ++ calls ++
       [ github_get_file_content owner repo affected_file pr_head_ref;
         fix_generator_generate_fix (failure_type diagnosis)
           (details diagnosis) file_content affected_file ],
     inl e) /\
  (e = Py.TypeError \/ e = Py.KeyError "fix_type").
Proof.
  intros Hdiag Hhigh Hlocate Hhead Href Hcontent Hfix Htype. split.
  - rewrite (process_located _ _ _ _ _ _ _ Hdiag Hhigh Hlocate).
    unfold publish_fix.
    answered Hhead. answered Href. answered Hcontent. answered Hfix.
    answered Htype. reflexivity.
  - destruct fix_proposal; simpl in Htype; try (left; congruence).
    destruct (Py.assoc "fix_type" items); [done|]. right. congruence.
Qed.

End Pipeline.

Lemma pipeline_env_diagnosed (logs file_content : string)
    (generated : Py.exn + Py.value) (posted : Py.exn + unit)
    (diagnosis : Diagnosis) :
  analyze logs = inr diagnosis ->
  diagnosed_with (pipeline_env logs file_content generated posted)
    "octocat" "Hello-World" 123
    (mkPRInfo (Some "Add API client")
       (Some (mkHead (Some "feature/api-client"))))
    "tests" 7 logs diagnosis.
Proof.
  intros Hd.
  exists [ mkCheckRun (Some 1%Z) (Some "lint") (Some "success");
           mkCheckRun (Some 7%Z) (Some "tests") (Some "failure") ],
         (mkCheckRun (Some 7%Z) (Some "tests") (Some "failure")), [].
  repeat split; try reflexivity. exact Hd.
Qed.

(** A syntax error in [./src/app.py]: the file is fetched, the fix
    generated and the comment posted. *)
Lemma successful_run_witness :
  let diagnosis :=
    mkDiagnosis SYNTAX_ERROR "SyntaxError: invalid syntax" ∅ 0.9%float
      syntax_error_log in
  exists comment_body,
    plain_comment diagnosis import_fix "tests" = inr comment_body /\
    run (pipeline_env syntax_error_log "x = (" (inr import_fix) (inr tt))
      (process_pr_failure percent_90 plain_comment (__init__ None None)
         "octocat" "Hello-World" 123)
    = ([ github_get_pr_info "octocat" "Hello-World" 123;
         github_get_pr_checks "octocat" "Hello-World" 123;
         github_get_check_logs "octocat" "Hello-World" 7;
         analyzer_analyze syntax_error_log;
         github_get_file_content "octocat" "Hello-World" "src/app.py"
           "feature/api-client";
         fix_generator_generate_fix SYNTAX_ERROR ∅ "x = (" "src/app.py";
         github_post_comment "octocat" "Hello-World" 123 comment_body ],
       inr (success diagnosis import_fix "src/app.py")).
Proof.
  intros diagnosis.
  destruct (plain_comment diagnosis import_fix "tests") as [e|body] eqn:Hbody;
    [vm_compute in Hbody; discriminate Hbody|].
  exists body. split; [reflexivity|].
  apply (successful_run percent_90 plain_comment (__init__ None None)
           (pipeline_env syntax_error_log "x = (" (inr import_fix) (inr tt))
           "octocat" "Hello-World" 123
           (mkPRInfo (Some "Add API client")
              (Some (mkHead (Some "feature/api-client"))))
           "tests" 7 syntax_error_log diagnosis [] "src/app.py"
           (mkHead (Some "feature/api-client")) "feature/api-client" "x = ("
           import_fix (Py.PStr "add_import") (Py.PFloat 0.9%float)
           "90%" body).
  - apply pipeline_env_diagnosed. vm_compute. reflexivity.
  - reflexivity.
  - vm_compute. reflexivity.
  - reflexivity.
  - reflexivity.
  - reflexivity.
  - reflexivity.
  - reflexivity.
  - reflexivity.
  - reflexivity.
  - exact Hbody.
  - reflexivity.
Defined.

(** The completion's answer was not JSON. *)
Lemma fix_generator_failure_propagates_witness :
  run (pipeline_env syntax_error_log "x = (" (inl Py.JSONDecodeError)
         (inr tt))
    (process_pr_failure percent_90 plain_comment (__init__ None None)
       "octocat" "Hello-World" 123)
  = ([ github_get_pr_info "octocat" "Hello-World" 123;
       github_get_pr_checks "octocat" "Hello-World" 123;
       github_get_check_logs "octocat" "Hello-World" 7;
       analyzer_analyze syntax_error_log;
       github_get_file_content "octocat" "Hello-World" "src/app.py"
         "feature/api-client";
       fix_generator_generate_fix SYNTAX_ERROR ∅ "x = (" "src/app.py" ],
     inl Py.JSONDecodeError).
Proof.
  apply (fix_generator_failure_propagates percent_90 plain_comment
           (__init__ None None)
           (pipeline_env syntax_error_log "x = (" (inl Py.JSONDecodeError)
              (inr tt))
           "octocat" "Hello-World" 123
           (mkPRInfo (Some "Add API client")
              (Some (mkHead (Some "feature/api-client"))))
           "tests" 7 syntax_error_log
           (mkDiagnosis SYNTAX_ERROR "SyntaxError: invalid syntax" ∅
              0.9%float syntax_error_log)
           [] "src/app.py"
           (mkHead (Some "feature/api-client")) "feature/api-client" "x = (").
  - apply pipeline_env_diagnosed. vm_compute. reflexivity.
  - reflexivity.
  - vm_compute. reflexivity.
  - reflexivity.
  - reflexivity.
  - reflexivity.
  - reflexivity.
Defined.

(** The completion answered with an empty JSON object. *)
Lemma unreadable_fix_is_not_posted_witness :
  run (pipeline_env syntax_error_log "x = (" (inr (Py.PDict [])) (inr tt))
    (process_pr_failure percent_90 plain_comment (__init__ None None)
       "octocat" "Hello-World" 123)
  = ([ github_get_pr_info "octocat" "Hello-World" 123;
       github_get_pr_checks "octocat" "Hello-World" 123;
       github_get_check_logs "octocat" "Hello-World" 7;
       analyzer_analyze syntax_error_log;
       github_get_file_content "octocat" "Hello-World" "src/app.py"
         "feature/api-client";
       fix_generator_generate_fix SYNTAX_ERROR ∅ "x = (" "src/app.py" ],
     inl (Py.KeyError "fix_type")).
Proof.
  apply (unreadable_fix_is_not_posted percent_90 plain_comment
           (__init__ None None)
           (pipeline_env syntax_error_log "x = (" (inr (Py.PDict []))
              (inr tt))
           "octocat" "Hello-World" 123
           (mkPRInfo (Some "Add API client")
              (Some (mkHead (Some "feature/api-client"))))
           "tests" 7 syntax_error_log
           (mkDiagnosis SYNTAX_ERROR "SyntaxError: invalid syntax" ∅
              0.9%float syntax_error_log)
           [] "src/app.py"
           (mkHead (Some "feature/api-client")) "feature/api-client" "x = ("
           (Py.PDict []) (Py.KeyError "fix_type")).
  - apply pipeline_env_diagnosed. vm_compute. reflexivity.
  - reflexivity.
  - vm_compute. reflexivity.
  - reflexivity.
  - reflexivity.
  - reflexivity.
  - reflexivity.
  - reflexivity.
Defined.


(** A path read in a stack trace can lose the dot: [File Q/.pyQ] (Q the
    double quote) gives [py]. *)
Lemma stack_trace_file_without_dot :
  (run unreachable
     (_locate_affected_file "octocat" "Hello-World" 123
        (mkDiagnosis UNKNOWN EmptyString ∅ 0.3%float
           ("File " +:+ String "034"%char ("/.py" +:+ String "034"%char
              EmptyString))))).2
  = inr (Some "py").
Proof. vm_compute. reflexivity. Qed.

End PipelineFacts.

(** ** The MCP client *)
Module McpFacts.

Import Mcp ReSound.

Lemma run_prog_bind {A B : Type} (w : world) (p : prog A) (f : A -> prog B) :
  forall done,
  run w done (prog_bind p f) =
  let (ops1, a) := run w done p in
  let (ops2, b) := run w (done ++ ops1) (f a) in
  (ops1 ++ ops2, b).
Proof.
  induction p as [a|c k IH]; intros done; simpl.
  - rewrite app_nil_r. by destruct (run w done (f a)).
  - rewrite IH.
    destruct (run w (done ++ [c]) (k (w done c))) as [ops1 a].
    rewrite <- app_assoc. simpl.
    by destruct (run w (done ++ c :: ops1) (f a)).
Qed.

Lemma substring_0_append (s rest : string) :
  String.substring 0 (String.length s) (s +:+ rest) = s.
Proof.
  induction s as [|c s IH].
  - rewrite append_empty_l. by destruct rest.
  - rewrite append_cons. simpl. by rewrite IH.
Qed.

Lemma substring_skip_append (s rest : string) (m : nat) :
  String.substring (String.length s) m (s +:+ rest)
  = String.substring 0 m rest.
Proof.
  induction s as [|c s IH].
  - by rewrite append_empty_l.
  - rewrite append_cons. simpl. exact IH.
Qed.

Lemma prefix_inv (p s : string) :
  String.prefix p s = true -> exists rest, s = p +:+ rest.
Proof.
  revert s; induction p as [|c p IH]; intros s H.
  - by exists s.
  - destruct s as [|d s]; simpl in H; [done|].
    destruct (ascii_dec c d) as [->|]; [|done].
    destruct (IH _ H) as (rest & ->). by exists rest.
Qed.

Lemma substring_tail (s : string) (n : nat) :
  n <= String.length s ->
  exists x, s = x +:+ String.substring n (String.length s - n) s /\
            String.length x = n.
Proof.
  revert n; induction s as [|c s IH]; intros n Hn.
  - exists EmptyString. simpl in Hn. by replace n with 0 by lia.
  - destruct n as [|n].
    + exists EmptyString. split; [|done]. rewrite append_empty_l.
      pose proof (substring_0_append (String c s) EmptyString) as H.
      rewrite append_empty_r in H. simpl in H. simpl. by rewrite H.
    + simpl in Hn. destruct (IH n) as (x & Hx & Hlen); [lia|].
      exists (String c x). rewrite append_cons. simpl.
      split; [by rewrite <- Hx | by rewrite Hlen].
Qed.

Lemma endswith_inv (suffix s : string) :
  endswith suffix s = true -> exists x, s = x +:+ suffix.
Proof.
  unfold endswith. intros H. apply andb_true_iff in H as [Hlen Heq].
  apply Nat.leb_le in Hlen. apply String.eqb_eq in Heq.
  destruct (substring_tail s (String.length s - String.length suffix))
    as (x & Hx & _); [lia|].
  replace (String.length s - (String.length s - String.length suffix))
    with (String.length suffix) in Hx by lia.
  rewrite Heq in Hx. by exists x.
Qed.

Lemma endswith_append (x suffix : string) :
  endswith suffix (x +:+ suffix) = true.
Proof.
  unfold endswith. rewrite length_append.
  apply andb_true_iff. split; [apply Nat.leb_le; lia|].
  replace (String.length x + String.length suffix - String.length suffix)
    with (String.length x) by lia.
  rewrite substring_skip_append.
  pose proof (substring_0_append suffix EmptyString) as H.
  rewrite append_empty_r in H. rewrite H. apply String.eqb_refl.
Qed.

Section Client.

Variable environ : gmap string string.
Variable json_dumps : Py.value -> string.
Variable json_loads : string -> option Py.value.
Variable str_of : Py.value -> string.
Variable decode : string -> option string.

Local Abbreviation resolve := (Mcp.resolve environ).
Local Abbreviation server_env := (Mcp.server_env environ).

Lemma resolve_placeholder (name : string) :
  resolve ("${" +:+ name +:+ "}") = default EmptyString (environ !! name).
Proof.
  unfold Mcp.resolve.
  replace (String.prefix "${" ("${" +:+ name +:+ "}")) with true
    by (symmetry; apply (prefix_append "${")).
  rewrite <- (append_assoc "${" name "}").
  rewrite endswith_append. simpl andb. cbv iota.
  unfold slice_2_minus_1.
  rewrite (append_assoc "${" name "}"), length_append, length_append.
  change (String.length "${") with 2. change (String.length "}") with 1.
  replace (2 + (String.length name + 1) - 3) with (String.length name) by lia.
  change 2 with (String.length "${") at 1.
  rewrite substring_skip_append. by rewrite substring_0_append.
Qed.

(** X18. A value of the server's [env] of the form [${NAME}] becomes the
    value of [NAME] in [os.environ], or the empty text when [NAME] is not
    set; every other value is passed on as it is. Whatever stands between
    [${] and the last [}] is the name: a value with two placeholders is
    one (odd) name. *)
Theorem resolve_cases (value : string) :
  (exists name, value = "${" +:+ name +:+ "}" /\
     resolve value = default EmptyString (environ !! name)) \/
  ((forall name, value <> "${" +:+ name +:+ "}") /\ resolve value = value).
Proof.
  destruct (String.prefix "${" value && endswith "}" value) eqn:E.
  - left. apply andb_true_iff in E as [Hp Hs].
    apply prefix_inv in Hp as (rest & ->).
    apply endswith_inv in Hs as (x & Hx).
    assert (Hrest : exists name, rest = name +:+ "}").
    { destruct x as [|c1 [|c2 x]].
      - rewrite append_empty_l in Hx. discriminate Hx.
      - rewrite !append_cons, append_empty_l in Hx. discriminate Hx.
      - rewrite !append_cons in Hx. injection Hx as _ _ Hx. by exists x. }
    destruct Hrest as (name & ->).
    exists name. split; [done|]. apply resolve_placeholder.
  - right. split.
    + intros name ->. rewrite <- (append_assoc "${" name "}") in E.
      rewrite endswith_append in E.
      rewrite (append_assoc "${" name "}") in E.
      by rewrite (prefix_append "${") in E.
    + unfold Mcp.resolve. by rewrite E.
Qed.

Lemma server_env_lookup (items : list (string * string))
    (base : gmap string string) (key : string) :
  key ∉ items.*1 ->
  foldl (fun env kv => <[kv.1 := resolve kv.2]> env) base items !! key
  = base !! key.
Proof.
  revert base; induction items as [|[k v] items IH]; intros base Hk; simpl.
  - done.
  - apply not_elem_of_cons in Hk as [Hne Hk].
    rewrite IH by done. by rewrite lookup_insert_ne.
Qed.

Lemma server_env_item (items : list (string * string))
    (base : gmap string string) (key value : string) :
  NoDup items.*1 -> (key, value) ∈ items ->
  foldl (fun env kv => <[kv.1 := resolve kv.2]> env) base items !! key
  = Some (resolve value).
Proof.
  revert base; induction items as [|[k v] items IH]; intros base Hnd Hin.
  - by apply not_elem_of_nil in Hin.
  - simpl in Hnd. apply NoDup_cons in Hnd as [Hk Hnd]. simpl.
    apply elem_of_cons in Hin as [[= -> ->]|Hin].
    + rewrite server_env_lookup by done. apply lookup_insert_eq.
    + by apply IH.
Qed.

(** X19. The environment of a started server is [os.environ] with the
    entries of the server's [env] laid over it: an entry gets its resolved
    value, a variable the server does not set keeps its value, and a
    placeholder is resolved against [os.environ] itself, never against
    another entry of the same server. *)
Theorem server_env_entries (items : list (string * string)) :
  NoDup items.*1 ->
  (forall key value, (key, value) ∈ items ->
     server_env items !! key = Some (resolve value)) /\
  (forall key, key ∉ items.*1 -> server_env items !! key = environ !! key).
Proof.
  intros Hnd. split.
  - intros key value Hin. by apply server_env_item.
  - intros key Hk. by apply server_env_lookup.
Qed.

Local Abbreviation call_tool :=
  (Mcp.call_tool environ json_dumps json_loads str_of decode).
Local Abbreviation start_server := (Mcp.start_server environ).

Lemma lookup_registered (server_name : string)
    (started : list (string * process)) :
  server_name ∈ started.*1 ->
  is_Some (lookup_server server_name started).
Proof.
  induction started as [|[name p] started IH]; simpl; intros Hin.
  - by apply not_elem_of_nil in Hin.
  - destruct (String.eqb_spec name server_name) as [->|Hne]; [eauto|].
    apply elem_of_cons in Hin as [Hin|Hin]; [congruence | by apply IH].
Qed.

Lemma lookup_appended (server_name : string) (p : process)
    (started : list (string * process)) :
  server_name ∉ started.*1 ->
  lookup_server server_name (started ++ [(server_name, p)]) = Some p.
Proof.
  induction started as [|[name q] started IH]; simpl; intros Hin.
  - by rewrite String.eqb_refl.
  - apply not_elem_of_cons in Hin as [Hne Hin].
    destruct (String.eqb_spec name server_name) as [->|_]; [done|].
    by apply IH.
Qed.

Local Abbreviation exchange :=
  (Mcp.exchange json_dumps json_loads str_of decode).
Local Abbreviation close := Mcp.close.
Local Abbreviation parsed := (Mcp.parsed json_loads str_of decode).
Local Abbreviation format_value := (Mcp.format_value str_of).

(** The exchange with a started process: up to three operations on its
    pipes, [self] untouched. *)
Lemma exchange_run (w : world) (done : list io) (self : MCPClient)
    (p : process) (tool_name : string) (arguments : Py.value) :
  let write := stdin_write p (json_dumps (request tool_name arguments)
                              +:+ String Py.newline EmptyString) in
  run w done (exchange p tool_name arguments self) =
  match w done write with
  | inl e => ([write], (self, inl e))
  | inr _ =>
      match w (done ++ [write]) (stdin_drain p) with
      | inl e => ([write; stdin_drain p], (self, inl e))
      | inr _ =>
          match w ((done ++ [write]) ++ [stdin_drain p])
                  (stdout_readline p) with
          | inl e =>
              ([write; stdin_drain p; stdout_readline p], (self, inl e))
          | inr line =>
              ([write; stdin_drain p; stdout_readline p],
               (self, parsed line))
          end
      end
  end.
Proof.
  intros write. unfold Mcp.exchange, and_then, await. simpl. fold write.
  destruct (w done write) as [e|[]]; simpl; [done|].
  destruct (w (done ++ [write]) (stdin_drain p)) as [e|[]]; simpl; [done|].
  destruct (w ((done ++ [write]) ++ [stdin_drain p]) (stdout_readline p))
    as [e|line]; simpl; [done|].
  unfold Mcp.parsed.
  destruct (decode line) as [text|]; simpl; [|done].
  destruct (json_loads text) as [response|]; simpl; [|done].
  by destruct (read_response str_of response).
Qed.

Lemma exchange_no_spawn (w : world) (done : list io) (self : MCPClient)
    (p : process) (tool_name : string) (arguments : Py.value) :
  let outcome := run w done (exchange p tool_name arguments self) in
  filter (fun c => is_spawn c = true) outcome.1 = [] /\ outcome.2.1 = self.
Proof.
  intros outcome. subst outcome. rewrite exchange_run.
  repeat case_match; done.
Qed.

Lemma lookup_server_elem (server_name : string) (p : process)
    (started : list (string * process)) :
  lookup_server server_name started = Some p -> (server_name, p) ∈ started.
Proof.
  induction started as [|[name q] started IH]; simpl; [done|].
  destruct (String.eqb_spec name server_name) as [->|_].
  - intros [= ->]. left.
  - intros H. right. by apply IH.
Qed.

(** X20. [call_tool] on a server that is already in [self.servers] only
    talks to the process recorded for it: it writes the request line to
    its [stdin], drains it and reads one line from its [stdout], in this
    order, and stops at the first of the three that raises, with that
    exception; when all three succeed the outcome is what the line read
    back parses to. It starts no process, terminates none, and leaves
    [self] as it was, whatever the process answers. *)
Theorem call_tool_reuses_server (w : world) (done : list io)
    (self : MCPClient) (server_name tool_name : string)
    (arguments : Py.value) :
  registered server_name self = true ->
  exists p : process,
    (server_name, p) ∈ servers self /\
    let write := stdin_write p (json_dumps (request tool_name arguments)
                                +:+ String Py.newline EmptyString) in
    let outcome :=
      run w done (call_tool server_name tool_name arguments self) in
    outcome =
      match w done write with
      | inl e => ([write], (self, inl e))
      | inr _ =>
          match w (done ++ [write]) (stdin_drain p) with
          | inl e => ([write; stdin_drain p], (self, inl e))
          | inr _ =>
              match w ((done ++ [write]) ++ [stdin_drain p])
                      (stdout_readline p) with
              | inl e =>
                  ([write; stdin_drain p; stdout_readline p],
                   (self, inl e))
              | inr line =>
                  ([write; stdin_drain p; stdout_readline p],
                   (self, parsed line))
              end
          end
      end /\
    filter (fun c => is_spawn c = true) outcome.1 = [] /\
    outcome.2.1 = self /\
    length outcome.1 <= 3.
Proof.
  intros Hreg.
  unfold registered in Hreg. apply bool_decide_eq_true in Hreg.
  destruct (lookup_registered _ _ Hreg) as [p Hp].
  exists p. split; [by apply lookup_server_elem|].
  intros write outcome. subst outcome.
  unfold Mcp.call_tool, and_then, registered.
  rewrite bool_decide_eq_true_2 by done. simpl. rewrite Hp.
  rewrite exchange_run. fold write.
  split; [done|]. repeat case_match; simpl; repeat split; done || lia.
Qed.

(** X21. [call_tool] on a server that is not yet started starts it first,
    once, with the command, the arguments and the environment of its
    configuration; the process is recorded in [self.servers] even when the
    exchange that follows fails, so that the next call finds it. *)
Theorem call_tool_starts_server_once (w : world) (done : list io)
    (self : MCPClient) (server_name tool_name : string)
    (arguments : Py.value) (configured : gmap string ServerConfig)
    (server_config : ServerConfig) (command : string) (p : process) :
  registered server_name self = false ->
  mcpServers self = Some configured ->
  configured !! server_name = Some server_config ->
  Mcp.command server_config = Some command ->
  let spawn :=
    create_subprocess_exec command (default [] (args server_config))
      (Mcp.server_env environ (default [] (env server_config))) in
  w done spawn = inr p ->
  let outcome := run w done (call_tool server_name tool_name arguments self) in
  head outcome.1 = Some spawn /\
  filter (fun c => is_spawn c = true) outcome.1 = [spawn] /\
  servers outcome.2.1 = servers self ++ [(server_name, p)] /\
  registered server_name outcome.2.1 = true.
Proof.
  intros Hreg Hcfg Hsc Hcmd spawn Hspawn outcome. subst outcome.
  unfold Mcp.call_tool, and_then, Mcp.start_server. rewrite Hreg.
  rewrite Hcfg, Hsc, Hcmd. unfold and_then, await, pure. simpl.
  fold spawn. rewrite Hspawn. simpl.
  unfold registered in Hreg. apply bool_decide_eq_false in Hreg.
  rewrite lookup_appended by done.
  pose proof (exchange_no_spawn w (done ++ [spawn])
                (mkClient (mcpServers self)
                   (servers self ++ [(server_name, p)]))
                p tool_name arguments) as [Hops Hself].
  destruct (run w (done ++ [spawn]) _) as [ops [self' r]].
  cbn [fst snd] in *. subst self'. cbn [head servers].
  rewrite filter_cons_True by done. rewrite Hops.
  repeat split; try done.
  unfold registered. apply bool_decide_eq_true. cbn [servers].
  rewrite fmap_app. apply elem_of_app. right. simpl. left.
Qed.

(** X22. How [call_tool] reads the line a started server sends back.
    Bytes that are not UTF-8 raise [UnicodeDecodeError], and a text that
    is not JSON raises the decode error of [json.loads]. A JSON object
    with an [error] member makes it raise with the error in the message,
    whatever the error is (a text as it is; an object, a number or [null]
    as [str] renders it), even when the object also has a [result];
    without [error], the [result] member is returned, or the empty
    dictionary when there is none. A JSON value that is not an object
    never gives a result: the call raises [TypeError] or
    [AttributeError]. *)
Theorem call_tool_reads_response (w : world) (done : list io)
    (self : MCPClient) (server_name tool_name line : string)
    (arguments : Py.value) (p : process) :
  lookup_server server_name (servers self) = Some p ->
  registered server_name self = true ->
  let write := stdin_write p (json_dumps (request tool_name arguments)
                              +:+ String Py.newline EmptyString) in
  w done write = inr tt ->
  w (done ++ [write]) (stdin_drain p) = inr tt ->
  w ((done ++ [write]) ++ [stdin_drain p]) (stdout_readline p) = inr line ->
  let result :=
    (run w done (call_tool server_name tool_name arguments self)).2.2 in
  (decode line = None -> result = inl UnicodeDecodeError) /\
  (forall text,
     decode line = Some text -> json_loads text = None ->
     result = inl JSONDecodeError) /\
  (forall text items v,
     decode line = Some text ->
     json_loads text = Some (Py.PDict items) ->
     Py.assoc "error" items = Some v ->
     result = inl (ToolError ("MCP tool call failed: " +:+ format_value v))) /\
  (forall text items message,
     decode line = Some text ->
     json_loads text = Some (Py.PDict items) ->
     Py.assoc "error" items = Some (Py.PStr message) ->
     result = inl (ToolError ("MCP tool call failed: " +:+ message))) /\
  (forall text items,
     decode line = Some text ->
     json_loads text = Some (Py.PDict items) ->
     Py.assoc "error" items = None ->
     result = inr (default (Py.PDict []) (Py.assoc "result" items))) /\
  (forall text response,
     decode line = Some text ->
     json_loads text = Some response ->
     (forall items, response <> Py.PDict items) ->
     result = inl TypeError \/ result = inl AttributeError).
Proof.
  intros Hp Hreg write Hwrite Hdrain Hline result. subst result.
  unfold Mcp.call_tool, and_then. rewrite Hreg. simpl. rewrite Hp.
  rewrite exchange_run. fold write. rewrite Hwrite, Hdrain, Hline. simpl.
  unfold Mcp.parsed. split; [|split; [|split; [|split; [|split]]]].
  - by intros ->.
  - by intros text -> ->.
  - intros text items v -> -> Herr.
    unfold read_response, has_error. by rewrite Herr.
  - intros text items message -> -> Herr.
    unfold read_response, has_error. by rewrite Herr.
  - intros text items -> -> Herr.
    unfold read_response, has_error. by rewrite Herr.
  - intros text response -> -> Hshape.
    unfold read_response, has_error.
    destruct response as [| | | | |items|items]; auto.
    + destruct (Py.contains "error" _); auto.
    + destruct (existsb _ items); auto.
    + by destruct (Hshape items).
Qed.

Lemma close_loop_run (w : world) (self : MCPClient)
    (started : list (string * process)) :
  forall done,
  let every := close_operations started in
  exists ops r,
    run w done (close_loop started self) = (ops, (self, r)) /\
    match r with
    | inr _ =>
        ops = every /\
        forall i c, every !! i = Some c -> succeeds w (done ++ take i every) c
    | inl e =>
        exists i c,
          every !! i = Some c /\ ops = take (S i) every /\
          raises w (done ++ take i every) c e /\
          forall j c', j < i -> every !! j = Some c' ->
            succeeds w (done ++ take j every) c'
    end.
Proof.
  induction started as [|[name p] started IH]; intros done.
  - exists [], (inr tt). split; [done|]. split; [done|].
    intros i c Hi. by destruct i.
  - change (close_operations ((name, p) :: started))
      with (terminate p :: wait p :: close_operations started).
    cbn zeta. simpl. unfold and_then, await. simpl.
    destruct (w done (terminate p)) as [e|[]] eqn:Hterminate; simpl.
    { exists [terminate p], (inl e). split; [done|].
      exists 0, (terminate p). split; [done|]. split; [done|].
      split; [|intros; lia].
      unfold raises. simpl. by rewrite app_nil_r. }
    destruct (w (done ++ [terminate p]) (wait p)) as [e|[]] eqn:Hwait; simpl.
    { exists [terminate p; wait p], (inl e). split; [done|].
      exists 1, (wait p). split; [done|]. split; [done|].
      split; [done|].
      intros j c' Hj Hc'. replace j with 0 in * by lia.
      injection Hc' as <-. exists tt. simpl. by rewrite app_nil_r. }
    destruct (IH ((done ++ [terminate p]) ++ [wait p]))
      as (ops & r & Hrun & Hspec).
    rewrite Hrun. exists (terminate p :: wait p :: ops), r.
    split; [done|].
    assert (Hdone : forall i l,
              ((done ++ [terminate p]) ++ [wait p]) ++ take i l
              = done ++ take (S (S i)) (terminate p :: wait p :: l)).
    { intros i l. by rewrite <- !app_assoc. }
    assert (Hfirst : forall j c',
              j < 2 ->
              (terminate p :: wait p :: close_operations started) !! j
                = Some c' ->
              succeeds w
                (done ++ take j
                   (terminate p :: wait p :: close_operations started)) c').
    { intros [|[|j]] c' Hj Hc'; [| |lia]; injection Hc' as <-;
        exists tt; simpl; [by rewrite app_nil_r | done]. }
    destruct r as [e|[]].
    + destruct Hspec as (i & c & Hi & -> & Hraise & Hbefore).
      exists (S (S i)), c. split; [done|]. split; [done|].
      split; [unfold raises; by rewrite <- Hdone|].
      intros [|[|j]] c' Hj Hc'; [apply Hfirst; [lia|done]..|].
      rewrite <- Hdone. apply Hbefore; [lia|done].
    + destruct Hspec as [-> Hall]. split; [done|].
      intros [|[|i]] c Hc; [apply Hfirst; [lia|done]..|].
      rewrite <- Hdone. by apply Hall.
Qed.

(** X23. [close] terminates the started servers in the order in which
    they were started, waiting for each, and stops at the first operation
    that raises: the operations made are those up to and including the
    first that raises, and [close] raises its exception; it returns only
    when every [terminate] and every [wait] succeeded. It never starts a
    process, and it leaves [self.servers] as it was: the closed servers
    stay recorded. *)
Theorem close_terminates_in_order (w : world) (done : list io)
    (self : MCPClient) :
  let every := close_operations (servers self) in
  exists ops r,
    run w done (close self) = (ops, (self, r)) /\
    match r with
    | inr _ =>
        ops = every /\
        forall i c, every !! i = Some c -> succeeds w (done ++ take i every) c
    | inl e =>
        exists i c,
          every !! i = Some c /\ ops = take (S i) every /\
          raises w (done ++ take i every) c e /\
          forall j c', j < i -> every !! j = Some c' ->
            succeeds w (done ++ take j every) c'
    end.
Proof. apply close_loop_run. Qed.

(** A [wait] that raises ends [close]: the servers after it are left
    running. *)
Lemma close_stops_at_failing_wait :
  run (failing_on is_wait) []
    (close (mkClient None [("github", 0); ("filesystem", 1)]))
  = ([terminate 0; wait 0],
     (mkClient None [("github", 0); ("filesystem", 1)],
      inl (OSError "failed"))).
Proof. vm_compute. reflexivity. Qed.

End Client.

Lemma server_env_entries_witness :
  Mcp.server_env example_environ github_env
    !! "GITHUB_PERSONAL_ACCESS_TOKEN" = Some "ghp_example" /\
  Mcp.server_env example_environ github_env !! "PATH" = Some "/usr/bin".
Proof.
  destruct (server_env_entries example_environ github_env) as [Hin Hout].
  - apply (bool_decide_unpack _). vm_compute. reflexivity.
  - split.
    + rewrite (Hin "GITHUB_PERSONAL_ACCESS_TOKEN" "${GITHUB_TOKEN}");
        [reflexivity | left].
    + rewrite Hout; [reflexivity|].
      apply (bool_decide_unpack _). vm_compute. reflexivity.
Defined.

(** The registered server answers the empty object. *)
Lemma call_tool_reuses_server_witness :
  let self := mkClient (Some github_config) [("github", 0)] in
  run (answering "{}") []
    (Mcp.call_tool example_environ dumps_example loads_example str_example
       decode_ascii "github" "get_pull_request" (Py.PDict []) self)
  = ([stdin_write 0 (dumps_example (request "get_pull_request" (Py.PDict []))
                     +:+ String Py.newline EmptyString);
      stdin_drain 0; stdout_readline 0],
     (self, inr (Py.PDict []))).
Proof.
  intros self.
  destruct (call_tool_reuses_server example_environ dumps_example
              loads_example str_example decode_ascii
              (answering "{}") [] self "github" "get_pull_request"
              (Py.PDict []) eq_refl)
    as (p & Hp & Hrun & _).
  assert (p = 0) as ->.
  { apply elem_of_cons in Hp as [Hp|Hp]; [congruence|].
    by apply not_elem_of_nil in Hp. }
  exact Hrun.
Defined.

Lemma call_tool_starts_server_once_witness :
  let self := mkClient (Some github_config) [] in
  let outcome :=
    run (answering "{}") []
      (Mcp.call_tool example_environ dumps_example loads_example
         str_example decode_ascii
         "github" "get_pull_request" (Py.PDict []) self) in
  servers outcome.2.1 = [("github", 0)] /\
  registered "github" outcome.2.1 = true /\
  outcome.2.2 = inr (Py.PDict []).
Proof.
  intros self outcome.
  destruct (call_tool_starts_server_once example_environ dumps_example
              loads_example str_example decode_ascii
              (answering "{}") [] self "github" "get_pull_request"
              (Py.PDict []) github_config
              (mkServerConfig (Some "npx")
                 (Some ["-y"; "@modelcontextprotocol/server-github"])
                 (Some github_env))
              "npx" 0 eq_refl eq_refl eq_refl eq_refl eq_refl)
    as (_ & _ & Hservers & Hreg).
  split; [exact Hservers|]. split; [exact Hreg|].
  vm_compute. reflexivity.
Defined.

(** The server answers an error of the JSON-RPC shape beside a result:
    the call raises, with the error as [str] renders it. *)
Lemma call_tool_reads_response_witness :
  (run (answering error_line) []
     (Mcp.call_tool example_environ dumps_example loads_example
        str_example decode_ascii
        "github" "get_pull_request" (Py.PDict [])
        (mkClient (Some github_config) [("github", 0)]))).2.2
  = inl (ToolError
           "MCP tool call failed: {'code': -32000, 'message': 'not found'}").
Proof.
  destruct (call_tool_reads_response example_environ dumps_example
              loads_example str_example decode_ascii
              (answering error_line) []
              (mkClient (Some github_config) [("github", 0)])
              "github" "get_pull_request" error_line (Py.PDict []) 0
              eq_refl eq_refl eq_refl eq_refl eq_refl)
    as (_ & _ & Hresult & _).
  apply (Hresult error_line
           [("error", rpc_error); ("result", Py.PDict [])] rpc_error);
    vm_compute; reflexivity.
Defined.

End McpFacts.

(** ** The command line *)
Module CliFacts.

Import Orchestrator Cli.

Section Main.

Variable int : string -> option Z.
Variable construct : option string.
Variable process_pr_failure :
  string -> string -> Z -> Py.exn + PipelineResult.
Variable close : option string.
Variable dumps : PipelineResult -> string.

Local Abbreviation main :=
  (Cli.main int construct process_pr_failure close dumps).

(** X24. The agent is closed exactly once, as the last step, in every run
    that constructed it, whether [process_pr_failure] returned or
    raised; it is not closed (there is nothing to close) when the
    arguments are too few, the pull request number is no number, or the
    construction itself raised. An exception of [process_pr_failure]
    reaches the caller unless [close] raises one of its own. *)
Theorem agent_closed_once (argv : list string) :
  let (steps, outcome) := main argv in
  (Construct ∈ steps /\ construct = None ->
     exists before, steps = before ++ [Close] /\
       filter (fun s => is_close s = true) before = []) /\
  (Construct ∉ steps \/ construct <> None ->
     filter (fun s => is_close s = true) steps = []) /\
  (forall owner repo pr_number e,
     Process owner repo pr_number ∈ steps ->
     process_pr_failure owner repo pr_number = inl e -> close = None ->
     outcome = inl (Raised e)).
Proof.
  unfold Cli.main.
  destruct (Nat.ltb (length argv) 4).
  { split; [|split].
    - intros [Hin _]. repeat (apply elem_of_cons in Hin as [Hin|Hin]; [done|]).
      by apply not_elem_of_nil in Hin.
    - done.
    - intros ???? Hin.
      repeat (apply elem_of_cons in Hin as [Hin|Hin]; [done|]).
      by apply not_elem_of_nil in Hin. }
  destruct (int _) as [pr_number|].
  2: { split; [|split]; [intros [Hin _]|done|intros ???? Hin];
       by apply not_elem_of_nil in Hin. }
  destruct construct as [message|] eqn:Hc.
  { split; [|split]; [intros [_ ?]; done|done|].
    intros ???? Hin. apply elem_of_cons in Hin as [Hin|Hin]; [done|].
    by apply not_elem_of_nil in Hin. }
  assert (Hprocess : forall (steps : list step) owner repo pr e,
            Process owner repo pr ∈ Construct :: steps ->
            (forall s, s ∈ steps ->
               s = Process (default EmptyString (argv !! 1))
                     (default EmptyString (argv !! 2)) pr_number \/
               forall o r n, s <> Process o r n) ->
            process_pr_failure owner repo pr = inl e ->
            process_pr_failure (default EmptyString (argv !! 1))
              (default EmptyString (argv !! 2)) pr_number = inl e).
  { intros steps owner repo pr e Hin Hsteps He.
    apply elem_of_cons in Hin as [Hin|Hin]; [done|].
    destruct (Hsteps _ Hin) as [[= -> -> ->]|Hno]; [done|].
    by destruct (Hno owner repo pr). }
  unfold finally_close, report.
  destruct (process_pr_failure _ _ pr_number) as [e|result] eqn:Hp;
    destruct close as [message|] eqn:Hclose; simpl;
    (split; [|split]).
  - intros _. by exists [Construct; Process (default EmptyString (argv !! 1))
                          (default EmptyString (argv !! 2)) pr_number].
  - intros [Hno|Hno]; [exfalso; apply Hno; left | done].
  - done.
  - intros _. by exists [Construct; Process (default EmptyString (argv !! 1))
                          (default EmptyString (argv !! 2)) pr_number].
  - intros [Hno|Hno]; [exfalso; apply Hno; left | done].
  - intros owner repo pr e' Hin He' _.
    assert (E : (inl e : Py.exn + PipelineResult) = inl e'); [|congruence].
    apply (Hprocess _ owner repo pr e' Hin); [|done].
    intros s Hs. repeat (apply elem_of_cons in Hs as [->|Hs]; [eauto|]).
    by apply not_elem_of_nil in Hs.
  - intros _.
    by exists [ Construct;
                Process (default EmptyString (argv !! 1))
                  (default EmptyString (argv !! 2)) pr_number;
                Print (String Py.newline EmptyString +:+ equals 50);
                Print "RESULT:"; Print (equals 50); Print (dumps result) ].
  - intros [Hno|Hno]; [exfalso; apply Hno; left | done].
  - done.
  - intros _.
    by exists [ Construct;
                Process (default EmptyString (argv !! 1))
                  (default EmptyString (argv !! 2)) pr_number;
                Print (String Py.newline EmptyString +:+ equals 50);
                Print "RESULT:"; Print (equals 50); Print (dumps result) ].
  - intros [Hno|Hno]; [exfalso; apply Hno; left | done].
  - intros owner repo pr e' Hin He' _. exfalso.
    assert (E : (inr result : Py.exn + PipelineResult) = inl e');
      [|discriminate E].
    apply (Hprocess _ owner repo pr e' Hin); [|done].
    intros s Hs. repeat (apply elem_of_cons in Hs as [->|Hs]; [eauto|]).
    by apply not_elem_of_nil in Hs.
Qed.

(** X25. With fewer than three arguments the usage and its example are
    printed, these two lines and nothing else, and the program exits with
    status 1 before the agent is constructed. Otherwise only the first
    three arguments are read: arguments after the pull request number
    change nothing, and neither does the name of the program. *)
Theorem arguments_read (argv : list string) :
  (length argv < 4 ->
     main argv =
       ([ Print "Usage: python -m src.main <owner> <repo> <pr_number>";
          Print "Example: python -m src.main octocat Hello-World 123" ],
        inl (SystemExit 1))) /\
  (4 <= length argv ->
     (forall more, main (argv ++ more) = main argv) /\
     (forall program, main (program :: drop 1 argv) = main argv)).
Proof.
  split.
  - intros Hlen. unfold Cli.main.
    apply Nat.ltb_lt in Hlen. by rewrite Hlen.
  - intros Hlen. split.
    + intros more. unfold Cli.main.
      rewrite length_app.
      replace (Nat.ltb (length argv + length more) 4) with false
        by (symmetry; apply Nat.ltb_ge; lia).
      replace (Nat.ltb (length argv) 4) with false
        by (symmetry; apply Nat.ltb_ge; lia).
      by rewrite !lookup_app_l by lia.
    + intros program. destruct argv as [|program' rest]; [simpl in Hlen; lia|].
      reflexivity.
Qed.

End Main.

End CliFacts.

(** ** The analyzer inside the pipeline *)
Module WiredFacts.

Import Re Analyzer Run Orchestrator Design AnalyzerSpec Pipeline.
Import RunFacts AnalyzerFacts AnalyzerMore OrchestratorFacts.

Section Wired.

Variable format_percent : Py.value -> Py.exn + string.
Variable _format_fix_comment :
  Diagnosis -> Py.value -> string -> Py.exn + string.
Variable w : env.
Variables (owner repo : string) (pr_number : Z).

Lemma analyzed_missing_module (log : string) (d : Diagnosis) :
  analyze log = inr d ->
  (is_Some (details d !! "missing_module") <->
   failure_type d = MODULE_NOT_FOUND).
Proof.
  intros Hd. destruct (details_by_category_aux log) as (d' & Hd' & H & _).
  rewrite Hd in Hd'. injection Hd' as <-. exact H.
Qed.

(** X26. With the default threshold and the analyzer of this repository,
    logs in which no pattern is recognised (category [UNKNOWN], with or
    without keyword lines) end the run at [low_confidence] right after the
    analysis: for such logs the diff and the file are never fetched and
    the fix generator is never called. *)
Theorem unrecognised_logs_stop_at_gate (check_id : Z) (logs : string)
    (diagnosis : Diagnosis) (MAX_DIAGNOSIS_ATTEMPTS : option Z) :
  diagnosed w owner repo pr_number check_id logs diagnosis ->
  analyze logs = inr diagnosis ->
  failure_type diagnosis = UNKNOWN ->
  run w (process_pr_failure format_percent _format_fix_comment
           (__init__ MAX_DIAGNOSIS_ATTEMPTS None) owner repo pr_number) =
    (calls_until_diagnosis owner repo pr_number check_id logs,
     inr (low_confidence diagnosis
            "Unable to confidently diagnose the failure")).
Proof.
  intros Hdiag Hd Hunknown.
  apply process_low_confidence; [done|].
  destruct (analyze_cases logs)
    as [[_ E]|[(_ & _ & E)|(_ & t & p & m & Hin & Hm & E)]];
    rewrite Hd in E; injection E as ->; [done..|].
  simpl in Hunknown. subst t. exfalso.
  apply list_elem_of_In in Hin. simpl in Hin.
  repeat destruct Hin as [Hin|Hin]; try discriminate Hin. done.
Qed.

(** X27. For a diagnosis of the analyzer, file location fetches the diff
    exactly when the category is ModuleNotFound, and makes no other call:
    for every other category the file is looked for in the log snippet
    alone. *)
Theorem diff_fetched_for_module_not_found (log : string) (d : Diagnosis) :
  analyze log = inr d ->
  (run w (_locate_affected_file owner repo pr_number d)).1 =
    if decide (failure_type d = MODULE_NOT_FOUND)
    then [github_get_pr_diff owner repo pr_number] else [].
Proof using w owner repo pr_number.
  clear format_percent _format_fix_comment.
  intros Hd. pose proof (analyzed_missing_module log d Hd) as Hmm.
  unfold _locate_affected_file, locate_in_stack_trace.
  case_bool_decide as Hkey; case_decide as Ht;
    try (exfalso; apply Hmm in Hkey; contradiction);
    try (exfalso; apply Hmm in Ht; contradiction).
  - cbn [run bind mbind prog_bind await].
    destruct (w (github_get_pr_diff owner repo pr_number)) as [e|diff];
      [done|].
    destruct (findall diff_pattern diff); [|done].
    destruct (search file_pattern (log_snippet d)) as [m|]; [|done].
    by destruct (group1 m).
  - destruct (search file_pattern (log_snippet d)) as [m|]; [|done].
    by destruct (group1 m).
Qed.

End Wired.

Lemma unrecognised_logs_stop_at_gate_witness :
  let diagnosis := mkDiagnosis UNKNOWN EmptyString ∅ 0.3%float "build failed" in
  run (failed_check_env "build failed")
    (process_pr_failure no_percent no_comment (__init__ (Some 5%Z) None)
       "octocat" "Hello-World" 123)
  = (calls_until_diagnosis "octocat" "Hello-World" 123 7 "build failed",
     inr (low_confidence diagnosis
            "Unable to confidently diagnose the failure")).
Proof.
  intros diagnosis.
  apply (unrecognised_logs_stop_at_gate no_percent no_comment
           (failed_check_env "build failed") "octocat" "Hello-World" 123
           7 "build failed" diagnosis (Some 5%Z)).
  - apply failed_check_diagnosed. vm_compute. reflexivity.
  - vm_compute. reflexivity.
  - reflexivity.
Defined.

Lemma diff_fetched_for_module_not_found_witness :
  (run unreachable
     (_locate_affected_file "octocat" "Hello-World" 123
        (mkDiagnosis MODULE_NOT_FOUND
           "ModuleNotFoundError: No module named 'requests'"
           (<["missing_module" := "requests"]> ∅) 0.9%float
           "ModuleNotFoundError: No module named 'requests'"))).1
  = [github_get_pr_diff "octocat" "Hello-World" 123].
Proof.
  apply (diff_fetched_for_module_not_found unreachable
           "octocat" "Hello-World" 123
           "ModuleNotFoundError: No module named 'requests'").
  vm_compute. reflexivity.
Defined.

End WiredFacts.
